(** * Africa Exam Prep backend: service layer, shallow embedding

    The development embeds the Subject service, the Quiz service and the
    physics lesson controller.  Persistence collections are finite maps
    or lists of documents, `async` service calls are computations in a
    state-and-exception monad, and the host platform (JavaScript numbers,
    strings, regular expressions, the query interface of the document
    database) is modelled as far as the services depend on it.

    Conventions
    - JavaScript numbers are binary64 floating-point values, the
      kernel's [float], with the processor's arithmetic; a decimal
      literal such as `0.2` denotes the nearest such value, as it does
      in JavaScript.  Counts, page numbers and timestamps, which the
      services only count or compare, are integers [Z].
    - A string is a sequence of characters below 128 (ASCII); on these
      case mapping acts on [a-z] / [A-Z], the length is the number of
      characters and white space is the six ASCII blank characters.
      Text with other characters is outside the model.
    - `new Date()` is an explicit argument [now] (milliseconds). *)

From Stdlib Require Import ZArith QArith Qround Qpower Lqa Bool Ascii String List Lia.
From Stdlib Require Import Floats.
From Stdlib Require Uint63.
From stdpp Require Import base option list gmap strings sorting.

Set Warnings "-inexact-float".

Local Open Scope string_scope.
Local Open Scope Z_scope.

(** ** JavaScript values the services rely on *)

Module Js.

(** `if (x)` on a possibly absent string: absent and empty are falsy. *)
Definition truthy_string (o : option string) : bool :=
  match o with
  | Some s => negb (String.eqb s "")
  | None => false
  end.

(** `if (x)` on a possibly absent number: absent and zero are falsy. *)
Definition truthy_number (o : option Z) : bool :=
  match o with
  | Some n => negb (n =? 0)
  | None => false
  end.

(** `if (x)` on a possibly absent array: every array is truthy. *)
Definition truthy_array {A} (o : option (list A)) : bool :=
  match o with
  | Some _ => true
  | None => false
  end.

Definition upper_ascii (c : ascii) : ascii :=
  let n := nat_of_ascii c in
  if (97 <=? n)%nat && (n <=? 122)%nat then ascii_of_nat (n - 32) else c.

(** Is every character of the string below 128? *)
Definition is_ascii (s : string) : bool :=
  forallb (fun c => (nat_of_ascii c <? 128)%nat) (list_ascii_of_string s).

(** `String.prototype.toUpperCase`, on ASCII text. *)
Fixpoint toUpperCase (s : string) : string :=
  match s with
  | EmptyString => EmptyString
  | String c s' => String (upper_ascii c) (toUpperCase s')
  end.

(** Results of number-valued expressions that may leave the integers:
    `x / 0` is `Infinity`, `-Infinity` or `NaN`. *)
Inductive num :=
| Fin (n : Z)
| PosInf
| NegInf
| NaN.

(** `Math.ceil(a / b)` for integers [a] and [b].  For [b <> 0] the
    quotient is exact below 2^53, so the ceiling is the integer one. *)
Definition ceil_div (a b : Z) : num :=
  if b =? 0 then
    (if a =? 0 then NaN else if 0 <? a then PosInf else NegInf)
  else Fin (- ((- a) / b)).

(** `p < x` for an integer [p]. *)
Definition lt_num (p : Z) (x : num) : bool :=
  match x with
  | Fin n => p <? n
  | PosInf => true
  | NegInf => false
  | NaN => false
  end.

(** `array.length === 0` *)
Definition is_nil {A} (l : list A) : bool :=
  match l with
  | [] => true
  | _ :: _ => false
  end.

(** `x > y`, `x <= y` and `x >= y` on numbers. *)
Definition gt (x y : float) : bool := (y <? x)%float.
Definition le (x y : float) : bool := (x <=? y)%float.
Definition ge (x y : float) : bool := (y <=? x)%float.

(** The number with the integer value [z], for [|z| < 2^63]. *)
Definition of_Z (z : Z) : float :=
  if z <? 0 then (- of_uint63 (Uint63.of_Z (- z)))%float
  else of_uint63 (Uint63.of_Z z).

(** `xs.length` as a number.  An array has fewer than 2^32 elements;
    the length of a longer list reads as 2^32 - 1. *)
Definition length {A} (xs : list A) : float :=
  of_Z (Z.min (Z.of_nat (List.length xs)) 4294967295).

(** `Math.round`: the nearest integer, halves towards +infinity.  A
    number of magnitude 2^52 or more is an integer already; below, the
    integer is computed exactly from the mantissa and the exponent.  A
    negative number rounded to zero gives -0. *)
Definition Math_round (x : float) : float :=
  match Prim2SF x with
  | S754_finite s m e =>
      if 0 <=? e then x
      else
        let n := (cond_Zopp s (Z.pos m) + 2 ^ (- e - 1)) / 2 ^ (- e) in
        if n =? 0 then (if s then neg_zero else zero) else of_Z n
  | _ => x
  end.

(** One step of `Math.max(...xs)` and of `Math.min(...xs)`: a value
    that is not a number makes the result NaN, and +0 counts as larger
    than -0. *)
Definition max2 (highest x : float) : float :=
  if is_nan highest || is_nan x then nan
  else if (highest <? x)%float then x
  else if (x <? highest)%float then highest
  else if get_sign highest then x else highest.

Definition min2 (lowest x : float) : float :=
  if is_nan lowest || is_nan x then nan
  else if (x <? lowest)%float then x
  else if (lowest <? x)%float then lowest
  else if get_sign lowest then lowest else x.

(** `Math.max(...xs)` and `Math.min(...xs)` *)
Definition Math_max (xs : list float) : float := fold_left max2 xs neg_infinity.
Definition Math_min (xs : list float) : float := fold_left min2 xs infinity.

End Js.

(** ** Regular expressions

    The fragment of the pattern language covered: literal characters,
    `.`, `^`, `$`, `|`, groups `( )` and `(?: )`, the quantifiers `*`,
    `+`, `?` (greedy or lazy), and `\` followed by a character that is
    neither a letter nor a digit.  Character classes, counted
    repetition, look-around and the remaining escapes are outside the
    fragment. *)

Module RegExp.

Inductive regex :=
| RNone
| REps
| RChar (c : ascii)
| RDot
| RBol
| REol
| RCat (r1 r2 : regex)
| RAlt (r1 r2 : regex)
| RStar (r : regex).

(** Outcome of compiling a pattern. *)
Inductive compiled :=
| Compiled (r : regex)
| SyntaxError
| Unsupported.

(** What may still be attached to the last term of a sequence. *)
Inductive qstate :=
| QAtom    (* an atom: a quantifier may follow *)
| QQuant   (* a quantified atom: only the lazy mark `?` may follow *)
| QDone.   (* an assertion or a finished term *)

Definition term : Type := regex * qstate.
Definition frame : Type := list regex * list term.

(** The terms of a sequence are kept latest first. *)
Definition mk_seq (ts : list term) : regex :=
  fold_left (fun acc t => RCat (fst t) acc) ts REps.

(** So are the finished alternatives of a disjunction. *)
Definition mk_alt (alts : list regex) (ts : list term) : regex :=
  fold_left (fun acc r => RAlt r acc) alts (mk_seq ts).

Definition is_alnum (c : ascii) : bool :=
  let n := nat_of_ascii c in
  ((48 <=? n) && (n <=? 57) || (65 <=? n) && (n <=? 90)
   || (97 <=? n) && (n <=? 122))%nat.

Fixpoint parse (cs : list ascii) (alts : list regex) (ts : list term)
    (stack : list frame) : compiled :=
  match cs with
  | [] =>
      match stack with
      | [] => Compiled (mk_alt alts ts)
      | _ :: _ => SyntaxError
      end
  | c :: rest =>
      if Ascii.eqb c "(" then
        match rest with
        | c1 :: rest1 =>
            if Ascii.eqb c1 "?" then
              match rest1 with
              | c2 :: rest2 =>
                  if Ascii.eqb c2 ":"
                  then parse rest2 [] [] ((alts, ts) :: stack)
                  else Unsupported
              | [] => SyntaxError
              end
            else parse rest [] [] ((alts, ts) :: stack)
        | [] => SyntaxError
        end
      else if Ascii.eqb c ")" then
        match stack with
        | (palts, pts) :: stack' =>
            parse rest palts ((mk_alt alts ts, QAtom) :: pts) stack'
        | [] => SyntaxError
        end
      else if Ascii.eqb c "|" then
        parse rest (mk_seq ts :: alts) [] stack
      else if Ascii.eqb c "*" then
        match ts with
        | (r, QAtom) :: ts' => parse rest alts ((RStar r, QQuant) :: ts') stack
        | _ => SyntaxError
        end
      else if Ascii.eqb c "+" then
        match ts with
        | (r, QAtom) :: ts' =>
            parse rest alts ((RCat r (RStar r), QQuant) :: ts') stack
        | _ => SyntaxError
        end
      else if Ascii.eqb c "?" then
        match ts with
        | (r, QAtom) :: ts' => parse rest alts ((RAlt r REps, QQuant) :: ts') stack
        | (r, QQuant) :: ts' => parse rest alts ((r, QDone) :: ts') stack
        | _ => SyntaxError
        end
      else if Ascii.eqb c "^" then parse rest alts ((RBol, QDone) :: ts) stack
      else if Ascii.eqb c "$" then parse rest alts ((REol, QDone) :: ts) stack
      else if Ascii.eqb c "." then parse rest alts ((RDot, QAtom) :: ts) stack
      else if Ascii.eqb c "\" then
        match rest with
        | c1 :: rest1 =>
            if is_alnum c1 then Unsupported
            else parse rest1 alts ((RChar c1, QAtom) :: ts) stack
        | [] => SyntaxError
        end
      else if Ascii.eqb c "[" || Ascii.eqb c "{" then Unsupported
      else parse rest alts ((RChar c, QAtom) :: ts) stack
  end.

(** `new RegExp(pattern)` *)
Definition compile (pattern : string) : compiled :=
  parse (list_ascii_of_string pattern) [] [] [].

(** Does [r] match the empty string here?  [bol] / [eol]: the
    position is the start / the end of the subject. *)
Fixpoint nullable (bol eol : bool) (r : regex) : bool :=
  match r with
  | RNone => false
  | REps => true
  | RChar _ => false
  | RDot => false
  | RBol => bol
  | REol => eol
  | RCat r1 r2 => nullable bol eol r1 && nullable bol eol r2
  | RAlt r1 r2 => nullable bol eol r1 || nullable bol eol r2
  | RStar _ => true
  end.

(** Character comparison; with the flag `i` both sides are
    canonicalised by upper-casing. *)
Definition char_eq (i : bool) (a b : ascii) : bool :=
  if i then Ascii.eqb (Js.upper_ascii a) (Js.upper_ascii b)
  else Ascii.eqb a b.

Definition is_line_terminator (c : ascii) : bool :=
  Ascii.eqb c "010" || Ascii.eqb c "013".

(** What remains to be matched once [c] has been read at a position
    that is ([bol]) or is not the start of the subject. *)
Fixpoint deriv (i bol : bool) (c : ascii) (r : regex) : regex :=
  match r with
  | RNone | REps | RBol | REol => RNone
  | RChar a => if char_eq i a c then REps else RNone
  | RDot => if is_line_terminator c then RNone else REps
  | RCat r1 r2 =>
      if nullable bol false r1
      then RAlt (RCat (deriv i bol c r1) r2) (deriv i bol c r2)
      else RCat (deriv i bol c r1) r2
  | RAlt r1 r2 => RAlt (deriv i bol c r1) (deriv i bol c r2)
  | RStar r1 => RCat (deriv i bol c r1) (RStar r1)
  end.

(** A match may start at every position: [active] collects what is
    left of the attempts started earlier. *)
Fixpoint search (i bol : bool) (r active : regex) (cs : list ascii) : bool :=
  let here := RAlt active r in
  if nullable bol (Js.is_nil cs) here then true
  else
    match cs with
    | [] => false
    | c :: rest => search i false r (deriv i bol c here) rest
    end.

(** `regex.test(subject)`, also the `$regex` query operator: is there
    a match anywhere in the subject? *)
Definition test (i : bool) (r : regex) (subject : string) : bool :=
  search i true r RNone (list_ascii_of_string subject).

End RegExp.

(** ** Exceptions and service computations *)

Inductive exn :=
| ApiError (statusCode : Z) (message : string) (errors : list string)
| ConflictError (message : string)
| NotFoundError (message : string)
| BadRequestError (message : string)
| ValidationError (messages : list string)
| HostError (name message : string).

(** `error.message` *)
Definition exn_message (e : exn) : string :=
  match e with
  | ApiError _ m _ => m
  | ConflictError m => m
  | NotFoundError m => m
  | BadRequestError m => m
  | ValidationError _ => "Validation failed"
  | HostError _ m => m
  end.

(** HTTP status carried by an error (http-status-codes). *)
Definition exn_status (e : exn) : Z :=
  match e with
  | ApiError c _ _ => c
  | ConflictError _ => 409
  | NotFoundError _ => 404
  | BadRequestError _ => 400
  | ValidationError _ => 400
  | HostError _ _ => 500
  end.

Inductive outcome (A : Type) :=
| Returned (a : A)
| Thrown (e : exn).
Arguments Returned {A} a.
Arguments Thrown {A} e.

(** An `async` function over a store of type [S]. *)
Definition M (S A : Type) : Type := S -> outcome A * S.

Definition ret {S A} (a : A) : M S A := fun s => (Returned a, s).
Definition throw {S A} (e : exn) : M S A := fun s => (Thrown e, s).
Definition bind {S A B} (m : M S A) (k : A -> M S B) : M S B :=
  fun s =>
    match m s with
    | (Returned a, s') => k a s'
    | (Thrown e, s') => (Thrown e, s')
    end.
Definition get {S} : M S S := fun s => (Returned s, s).
Definition modify {S} (f : S -> S) : M S unit := fun s => (Returned tt, f s).
Definition lift {S A} (o : outcome A) : M S A := fun s => (o, s).

(** `try { m } catch (error) { h error }` *)
Definition try_catch {S A} (m : M S A) (h : exn -> M S A) : M S A :=
  fun s =>
    match m s with
    | (Returned a, s') => (Returned a, s')
    | (Thrown e, s') => h e s'
    end.

Declare Scope svc_scope.
Delimit Scope svc_scope with svc.
Notation "'await' x <- m ; k" := (bind m (fun x => k))
  (at level 10, x name, m at level 100, k at level 200) : svc_scope.
Notation "'await_' m ; k" := (bind m (fun _ => k))
  (at level 10, m at level 100, k at level 200) : svc_scope.
Local Open Scope svc_scope.

Definition ObjectId := string.

(** ** Query interface of the document database *)

Module Mongo.

(** `.skip(n)`: a negative count is rejected by the server. *)
Definition skip {A} (n : Z) (docs : list A) : outcome (list A) :=
  if n <? 0
  then Thrown (HostError "MongoServerError" "skip value must be non-negative")
  else Returned (drop (Z.to_nat n) docs).

(** `.limit(n)`: zero means no limit, a negative count is taken as
    its absolute value. *)
Definition limit {A} (n : Z) (docs : list A) : list A :=
  if n =? 0 then docs else take (Z.to_nat (Z.abs n)) docs.

(** Values documents are ordered by: absent, number (an integer or
    any number), string (also an identifier), boolean. *)
Inductive key :=
| KNull
| KNum (n : Z)
| KDouble (x : float)
| KStr (s : string)
| KBool (b : bool).

(** The order of numbers in a sort: NaN comes first. *)
Definition double_leb (x y : float) : bool :=
  is_nan x || negb (is_nan y) && (x <=? y)%float.

Definition key_leb (a b : key) : bool :=
  match a, b with
  | KNull, _ => true
  | _, KNull => false
  | KNum x, KNum y => x <=? y
  | KNum x, KDouble y => double_leb (Js.of_Z x) y
  | KDouble x, KNum y => double_leb x (Js.of_Z y)
  | KDouble x, KDouble y => double_leb x y
  | (KNum _ | KDouble _), _ => true
  | KStr _, (KNum _ | KDouble _) => false
  | KStr x, KStr y => String.leb x y
  | KStr _, KBool _ => true
  | KBool x, KBool y => implb x y
  | KBool _, _ => false
  end.

(** `.sort({[field]: dir})`; [key] gives the value of the field. *)
Definition sort {A} (key : A -> key) (dir : Z) (docs : list A) : list A :=
  if dir =? 1
  then merge_sort (fun a b => Is_true (key_leb (key a) (key b))) docs
  else merge_sort (fun a b => Is_true (key_leb (key b) (key a))) docs.

(** `{ field: v }` against a scalar field. *)
Definition eq_field (v : option string) (x : string) : bool :=
  match v with
  | Some s => String.eqb x s
  | None => true
  end.

(** `{ field: v }` against an array field: some element equals [v]. *)
Definition in_field (v : option string) (xs : list string) : bool :=
  match v with
  | Some s => existsb (String.eqb s) xs
  | None => true
  end.

Definition eq_flag (v : option bool) (x : bool) : bool :=
  match v with
  | Some b => Bool.eqb x b
  | None => true
  end.

(** Compiling the pattern of a `$regex` clause or of `new RegExp`. *)
Definition regex_of (pattern : string) : outcome RegExp.regex :=
  match RegExp.compile pattern with
  | RegExp.Compiled r => Returned r
  | RegExp.SyntaxError =>
      Thrown (HostError "SyntaxError" "Invalid regular expression")
  | RegExp.Unsupported =>
      Thrown (HostError "Unsupported" "pattern outside the modelled fragment")
  end.

End Mongo.

(** ** Subject service *)

Module Subject.

(** A Subject document. *)
Record t := mk {
  _id : ObjectId;
  name : string;
  code : string;
  description : string;
  category : string;
  examTypes : list string;
  countries : list string;
  educationLevels : list string;
  series : list string;
  isActive : bool;
  isPremium : bool;
  isFeatured : bool;
  status : string
}.

(** The fields `new Subject(subjectData)` receives: those of the
    request and, where the request is silent, those the schema gives. *)
Record data := mkData {
  d_name : string;
  d_code : string;
  d_description : string;
  d_category : string;
  d_examTypes : list string;
  d_countries : list string;
  d_educationLevels : list string;
  d_series : list string;
  d_isActive : bool;
  d_isPremium : bool;
  d_isFeatured : bool;
  d_status : string
}.

(** Modelled from the spec: the Subject schema (models/learning/
    subject.model) is absent.  A new document stores its code
    upper-cased; the other fields are stored as received. *)
Definition new (id : ObjectId) (d : data) : t :=
  {| _id := id;
     name := d_name d;
     code := Js.toUpperCase (d_code d);
     description := d_description d;
     category := d_category d;
     examTypes := d_examTypes d;
     countries := d_countries d;
     educationLevels := d_educationLevels d;
     series := d_series d;
     isActive := d_isActive d;
     isPremium := d_isPremium d;
     isFeatured := d_isFeatured d;
     status := d_status d |}.

(** The collection, in insertion order. *)
Definition collection := list t.

Definition findOne (p : t -> bool) : M collection (option t) :=
  fun docs => (Returned (List.find p docs), docs).

Definition findById (id : ObjectId) : M collection (option t) :=
  findOne (fun s => String.eqb (_id s) id).

(** `subject.save()` of a new document. *)
Definition save (s : t) : M collection unit :=
  modify (fun docs => (docs ++ [s])%list).

Fixpoint update_first (p : t -> bool) (f : t -> t) (docs : list t) : list t :=
  match docs with
  | [] => []
  | d :: rest => if p d then f d :: rest else d :: update_first p f rest
  end.

Definition findByIdAndUpdate (id : ObjectId) (f : t -> t) : M collection unit :=
  modify (update_first (fun s => String.eqb (_id s) id) f).

End Subject.

Module SubjectService.
Import Subject.

(** createSubject; [newId] is the identifier the driver gives the new
    document. *)
Definition createSubject (newId : ObjectId) (subjectData : data)
    : M collection t :=
  await existingSubject <-
    findOne (fun s => String.eqb (code s) (Js.toUpperCase (d_code subjectData)));
  match existingSubject with
  | Some _ => throw (ConflictError "Une matière avec ce code existe déjà")
  | None =>
      await re <- lift (Mongo.regex_of ("^" ++ d_name subjectData ++ "$"));
      await existingName <- findOne (fun s => RegExp.test true re (name s));
      match existingName with
      | Some _ => throw (ConflictError "Une matière avec ce nom existe déjà")
      | None =>
          let subject := new newId subjectData in
          await_ save subject;
          ret subject
      end
  end.

(** The query string of a list request. *)
Record query := mkQuery {
  q_page : option Z;
  q_limit : option Z;
  q_category : option string;
  q_examType : option string;
  q_country : option string;
  q_educationLevel : option string;
  q_series : option string;
  q_isActive : option string;
  q_isPremium : option string;
  q_isFeatured : option string;
  q_search : option string;
  q_sortBy : option string;
  q_sortOrder : option string
}.

(** The filter document handed to `find` and `countDocuments`. *)
Record filter := mkFilter {
  f_status : string;
  f_category : option string;
  f_examTypes : option string;
  f_countries : option string;
  f_educationLevels : option string;
  f_series : option string;
  f_isActive : option bool;
  f_isPremium : option bool;
  f_isFeatured : option bool;
  f_or : option string
}.

(** `if (x) filter.k = x` *)
Definition when_truthy (x : option string) : option string :=
  if Js.truthy_string x then x else None.

(** `if (x !== undefined) filter.k = x === "true"` *)
Definition when_defined (x : option string) : option bool :=
  match x with
  | Some s => Some (String.eqb s "true")
  | None => None
  end.

Definition build_filter (q : query) : filter :=
  {| f_status := "active";
     f_category := when_truthy (q_category q);
     f_examTypes := when_truthy (q_examType q);
     f_countries := when_truthy (q_country q);
     f_educationLevels := when_truthy (q_educationLevel q);
     f_series := when_truthy (q_series q);
     f_isActive := when_defined (q_isActive q);
     f_isPremium := when_defined (q_isPremium q);
     f_isFeatured := when_defined (q_isFeatured q);
     f_or := when_truthy (q_search q) |}.

(** The conjunction of the field clauses of a filter. *)
Definition matches_fields (f : filter) (s : t) : bool :=
  String.eqb (status s) (f_status f)
  && Mongo.eq_field (f_category f) (category s)
  && Mongo.in_field (f_examTypes f) (examTypes s)
  && Mongo.in_field (f_countries f) (countries s)
  && Mongo.in_field (f_educationLevels f) (educationLevels s)
  && Mongo.in_field (f_series f) (series s)
  && Mongo.eq_flag (f_isActive f) (isActive s)
  && Mongo.eq_flag (f_isPremium f) (isPremium s)
  && Mongo.eq_flag (f_isFeatured f) (isFeatured s).

(** The `$or` clause: the term, as a case-insensitive pattern, occurs
    in the name, the description or the code. *)
Definition matches_search (re : RegExp.regex) (s : t) : bool :=
  RegExp.test true re (name s)
  || RegExp.test true re (description s)
  || RegExp.test true re (code s).

(** The documents of the collection a filter selects. *)
Definition select (f : filter) (docs : list t) : outcome (list t) :=
  match f_or f with
  | None => Returned (List.filter (matches_fields f) docs)
  | Some term =>
      match Mongo.regex_of term with
      | Returned re =>
          Returned
            (List.filter (fun s => matches_fields f s && matches_search re s) docs)
      | Thrown e => Thrown e
      end
  end.

(** The value a document is sorted by.  A field no document has gives
    the null key; the array fields and the fields of the schema that
    are not part of [t] have no key here. *)
Definition sort_key (sortBy : string) (s : t) : Mongo.key :=
  if String.eqb sortBy "_id" then Mongo.KStr (_id s)
  else if String.eqb sortBy "name" then Mongo.KStr (name s)
  else if String.eqb sortBy "code" then Mongo.KStr (code s)
  else if String.eqb sortBy "category" then Mongo.KStr (category s)
  else if String.eqb sortBy "description" then Mongo.KStr (description s)
  else if String.eqb sortBy "status" then Mongo.KStr (status s)
  else if String.eqb sortBy "isActive" then Mongo.KBool (isActive s)
  else if String.eqb sortBy "isPremium" then Mongo.KBool (isPremium s)
  else if String.eqb sortBy "isFeatured" then Mongo.KBool (isFeatured s)
  else Mongo.KNull.

Record pagination := mkPagination {
  currentPage : Z;
  totalPages : Js.num;
  totalCount : Z;
  hasNextPage : bool;
  hasPrevPage : bool
}.

Definition getSubjects (q : query) : M collection (list t * pagination) :=
  let page := default 1 (q_page q) in
  let limit := default 10 (q_limit q) in
  let sortBy := default "name" (q_sortBy q) in
  let sortOrder := default "asc" (q_sortOrder q) in
  let filter := build_filter q in
  let dir := if String.eqb sortOrder "desc" then -1 else 1 in
  let skip := (page - 1) * limit in
  await docs <- get;
  await found <- lift (select filter docs);
  await skipped <- lift (Mongo.skip skip (Mongo.sort (sort_key sortBy) dir found));
  let subjects := Mongo.limit limit skipped in
  let total := Z.of_nat (length found) in
  let pagination :=
    {| currentPage := page;
       totalPages := Js.ceil_div total limit;
       totalCount := total;
       hasNextPage := Js.lt_num page (Js.ceil_div total limit);
       hasPrevPage := 1 <? page |} in
  ret (subjects, pagination).

Definition deleteSubject (subjectId : ObjectId) : M collection unit :=
  await subject <- findById subjectId;
  match subject with
  | None => throw (NotFoundError "Matière non trouvée")
  | Some _ =>
      findByIdAndUpdate subjectId
        (fun s =>
           {| _id := _id s; name := name s; code := code s;
              description := description s; category := category s;
              examTypes := examTypes s; countries := countries s;
              educationLevels := educationLevels s; series := series s;
              isActive := false;
              isPremium := isPremium s; isFeatured := isFeatured s;
              status := "inactive" |})
  end.

End SubjectService.

(** ** Quiz service *)

(** `new ApiResponse(statusCode, data, message)` *)
Record ApiResponse (A : Type) := mkResponse {
  statusCode : Z;
  data : A;
  message : option string
}.
Arguments mkResponse {A} _ _ _.
Arguments statusCode {A} _.
Arguments data {A} _.
Arguments message {A} _.

Module Quiz.

Record retakePolicy := mkPolicy {
  maxAttempts : Z;
  cooldown : Z
}.

Record analytics := mkAnalytics {
  totalAttempts : Z;
  averageScore : float;
  averageTime : float;
  completionRate : float
}.

(** A Quiz document. *)
Record t := mk {
  _id : ObjectId;
  title : string;
  description : string;
  tags : list string;
  subjectId : ObjectId;
  questionIds : list ObjectId;
  totalQuestions : Z;
  totalPoints : float;
  level : string;
  difficulty : string;
  premiumOnly : bool;
  isActive : bool;
  policy : retakePolicy;
  stats : analytics;
  createdAt : Z;
  updatedAt : Z
}.

(** The body of a create or update request: the fields of a quiz it
    supplies (the identifier is not among them). *)
Record patch := mkPatch {
  p_title : option string;
  p_description : option string;
  p_tags : option (list string);
  p_subjectId : option ObjectId;
  p_questionIds : option (list ObjectId);
  p_totalQuestions : option Z;
  p_totalPoints : option float;
  p_level : option string;
  p_difficulty : option string;
  p_premiumOnly : option bool;
  p_isActive : option bool;
  p_retakePolicy : option retakePolicy;
  p_analytics : option analytics;
  p_createdAt : option Z;
  p_updatedAt : option Z
}.

Definition set_totalQuestions (v : option Z) (u : patch) : patch :=
  {| p_title := p_title u; p_description := p_description u;
     p_tags := p_tags u; p_subjectId := p_subjectId u;
     p_questionIds := p_questionIds u;
     p_totalQuestions := v;
     p_totalPoints := p_totalPoints u; p_level := p_level u;
     p_difficulty := p_difficulty u; p_premiumOnly := p_premiumOnly u;
     p_isActive := p_isActive u; p_retakePolicy := p_retakePolicy u;
     p_analytics := p_analytics u; p_createdAt := p_createdAt u;
     p_updatedAt := p_updatedAt u |}.

(** `{ ...updateData, updatedAt: now }` applied to a document: the
    supplied fields replace the stored ones, the others stay; the time
    of the call replaces an `updatedAt` of the request. *)
Definition apply_patch (u : patch) (now : Z) (q : t) : t :=
  {| _id := _id q;
     title := default (title q) (p_title u);
     description := default (description q) (p_description u);
     tags := default (tags q) (p_tags u);
     subjectId := default (subjectId q) (p_subjectId u);
     questionIds := default (questionIds q) (p_questionIds u);
     totalQuestions := default (totalQuestions q) (p_totalQuestions u);
     totalPoints := default (totalPoints q) (p_totalPoints u);
     level := default (level q) (p_level u);
     difficulty := default (difficulty q) (p_difficulty u);
     premiumOnly := default (premiumOnly q) (p_premiumOnly u);
     isActive := default (isActive q) (p_isActive u);
     policy := default (policy q) (p_retakePolicy u);
     stats := default (stats q) (p_analytics u);
     createdAt := default (createdAt q) (p_createdAt u);
     updatedAt := now |}.

Definition set_isActive (b : bool) (q : t) : t :=
  {| _id := _id q; title := title q; description := description q;
     tags := tags q; subjectId := subjectId q;
     questionIds := questionIds q; totalQuestions := totalQuestions q;
     totalPoints := totalPoints q; level := level q;
     difficulty := difficulty q; premiumOnly := premiumOnly q;
     isActive := b;
     policy := policy q; stats := stats q;
     createdAt := createdAt q; updatedAt := updatedAt q |}.

Definition set_analytics (a : analytics) (q : t) : t :=
  {| _id := _id q; title := title q; description := description q;
     tags := tags q; subjectId := subjectId q;
     questionIds := questionIds q; totalQuestions := totalQuestions q;
     totalPoints := totalPoints q; level := level q;
     difficulty := difficulty q; premiumOnly := premiumOnly q;
     isActive := isActive q;
     policy := policy q; stats := a;
     createdAt := createdAt q; updatedAt := updatedAt q |}.

(** Modelled from the spec: the instance methods of the Quiz model
    (models/assessment/quiz.model) are absent.  A retake is allowed
    while the attempts made are fewer than retakePolicy.maxAttempts. *)
Definition canUserRetake (q : t) (userAttempts : Z) : bool :=
  userAttempts <? maxAttempts (policy q).

(** Modelled from the spec: the next retake time is the timestamp of
    the most recent attempt plus the configured cooldown (both in
    milliseconds here). *)
Definition getNextRetakeTime (q : t) (lastAttemptDate : Z) : Z :=
  lastAttemptDate + cooldown (policy q).

End Quiz.

Module QuizResult.

Record t := mk {
  _id : ObjectId;
  quizId : ObjectId;
  userId : ObjectId;
  score : float;
  timeTaken : float;
  createdAt : Z
}.

End QuizResult.

(** The two collections the Quiz service works on. *)
Record db := mkDb {
  quizzes : gmap ObjectId Quiz.t;
  quizResults : list QuizResult.t
}.

Module QuizModel.

Definition findById (id : ObjectId) : M db (option Quiz.t) :=
  fun s => (Returned (quizzes s !! id), s).

(** `Quiz.findByIdAndUpdate(id, update)`: nothing happens when no
    document has the id. *)
Definition findByIdAndUpdate (id : ObjectId) (f : Quiz.t -> Quiz.t)
    : M db (option Quiz.t) :=
  fun s =>
    match quizzes s !! id with
    | Some q =>
        (Returned (Some (f q)),
         {| quizzes := <[id := f q]> (quizzes s);
            quizResults := quizResults s |})
    | None => (Returned None, s)
    end.

Definition findByIdAndDelete (id : ObjectId) : M db unit :=
  modify (fun s =>
    {| quizzes := delete id (quizzes s); quizResults := quizResults s |}).

(** `quiz.save()` of a document read from the collection. *)
Definition save (q : Quiz.t) : M db unit :=
  modify (fun s =>
    {| quizzes := <[Quiz._id q := q]> (quizzes s);
       quizResults := quizResults s |}).

(** All documents of the collection. *)
Definition all : M db (list Quiz.t) :=
  fun s => (Returned (snd <$> map_to_list (quizzes s)), s).

End QuizModel.

Module QuizResultModel.
Import QuizResult.

(** `QuizResult.find({ quizId })` *)
Definition find_quiz (qid : ObjectId) : M db (list t) :=
  fun s =>
    (Returned (List.filter (fun r => String.eqb (quizId r) qid) (quizResults s)), s).

(** `QuizResult.find({ quizId, userId })` *)
Definition find_attempts (qid uid : ObjectId) : M db (list t) :=
  fun s =>
    (Returned
       (List.filter
          (fun r => String.eqb (quizId r) qid && String.eqb (userId r) uid)
          (quizResults s)), s).

(** `QuizResult.exists({ quizId })` *)
Definition exists_quiz (qid : ObjectId) : M db bool :=
  await rs <- find_quiz qid;
  ret (negb (Js.is_nil rs)).

(** `QuizResult.countDocuments({ quizId, userId })` *)
Definition countDocuments (qid uid : ObjectId) : M db Z :=
  await rs <- find_attempts qid uid;
  ret (Z.of_nat (length rs)).

(** `QuizResult.findOne({ quizId, userId }).sort({ createdAt: -1 })` *)
Definition findLatest (qid uid : ObjectId) : M db (option t) :=
  await rs <- find_attempts qid uid;
  ret (head (Mongo.sort (fun r => Mongo.KNum (createdAt r)) (-1) rs)).

End QuizResultModel.

Module QuizService.
Import Quiz.

(** The options of a list request. *)
Record options := mkOptions {
  o_page : option Z;
  o_limit : option Z;
  o_sortBy : option string;
  o_sortOrder : option string;
  o_search : option string;
  o_subjectId : option string;
  o_level : option string;
  o_difficulty : option string;
  o_premiumOnly : option bool;
  o_isActive : option bool
}.

(** A query document; also the type of the caller's extra filters. *)
Record query := mkQuery {
  qy_isActive : option bool;
  qy_subjectId : option string;
  qy_level : option string;
  qy_difficulty : option string;
  qy_premiumOnly : option bool;
  qy_or : option string
}.

Definition override {A} (a b : option A) : option A :=
  match b with
  | Some _ => b
  | None => a
  end.

(** `Object.assign(query, filters)` *)
Definition assign (q filters : query) : query :=
  {| qy_isActive := override (qy_isActive q) (qy_isActive filters);
     qy_subjectId := override (qy_subjectId q) (qy_subjectId filters);
     qy_level := override (qy_level q) (qy_level filters);
     qy_difficulty := override (qy_difficulty q) (qy_difficulty filters);
     qy_premiumOnly := override (qy_premiumOnly q) (qy_premiumOnly filters);
     qy_or := override (qy_or q) (qy_or filters) |}.

Definition when_truthy (x : option string) : option string :=
  if Js.truthy_string x then x else None.

Definition build_query (o : options) : query :=
  {| qy_isActive := Some (default true (o_isActive o));
     qy_subjectId := when_truthy (o_subjectId o);
     qy_level := when_truthy (o_level o);
     qy_difficulty := when_truthy (o_difficulty o);
     qy_premiumOnly := o_premiumOnly o;
     qy_or := when_truthy (o_search o) |}.

Definition matches_fields (q : query) (d : t) : bool :=
  Mongo.eq_flag (qy_isActive q) (isActive d)
  && Mongo.eq_field (qy_subjectId q) (subjectId d)
  && Mongo.eq_field (qy_level q) (level d)
  && Mongo.eq_field (qy_difficulty q) (difficulty d)
  && Mongo.eq_flag (qy_premiumOnly q) (premiumOnly d).

(** The `$or` clause: the term occurs in the title, the description
    or one of the tags. *)
Definition matches_search (re : RegExp.regex) (d : t) : bool :=
  RegExp.test true re (title d)
  || RegExp.test true re (description d)
  || existsb (RegExp.test true re) (tags d).

Definition select (q : query) (docs : list t) : outcome (list t) :=
  match qy_or q with
  | None => Returned (List.filter (matches_fields q) docs)
  | Some term =>
      match Mongo.regex_of term with
      | Returned re =>
          Returned
            (List.filter (fun d => matches_fields q d && matches_search re d) docs)
      | Thrown e => Thrown e
      end
  end.

(** The value a document is sorted by.  A field no document has gives
    the null key; the array fields and the fields of the schema that
    are not part of [t] have no key here. *)
Definition sort_key (sortBy : string) (d : t) : Mongo.key :=
  if String.eqb sortBy "_id" then Mongo.KStr (_id d)
  else if String.eqb sortBy "createdAt" then Mongo.KNum (createdAt d)
  else if String.eqb sortBy "updatedAt" then Mongo.KNum (updatedAt d)
  else if String.eqb sortBy "totalQuestions" then Mongo.KNum (totalQuestions d)
  else if String.eqb sortBy "totalPoints" then Mongo.KDouble (totalPoints d)
  else if String.eqb sortBy "title" then Mongo.KStr (title d)
  else if String.eqb sortBy "description" then Mongo.KStr (description d)
  else if String.eqb sortBy "subjectId" then Mongo.KStr (subjectId d)
  else if String.eqb sortBy "level" then Mongo.KStr (level d)
  else if String.eqb sortBy "difficulty" then Mongo.KStr (difficulty d)
  else if String.eqb sortBy "premiumOnly" then Mongo.KBool (premiumOnly d)
  else if String.eqb sortBy "isActive" then Mongo.KBool (isActive d)
  else if String.eqb sortBy "retakePolicy.maxAttempts"
  then Mongo.KNum (maxAttempts (policy d))
  else if String.eqb sortBy "retakePolicy.cooldown"
  then Mongo.KNum (cooldown (policy d))
  else if String.eqb sortBy "analytics.totalAttempts"
  then Mongo.KNum (totalAttempts (stats d))
  else if String.eqb sortBy "analytics.averageScore"
  then Mongo.KDouble (averageScore (stats d))
  else if String.eqb sortBy "analytics.averageTime"
  then Mongo.KDouble (averageTime (stats d))
  else if String.eqb sortBy "analytics.completionRate"
  then Mongo.KDouble (completionRate (stats d))
  else Mongo.KNull.

Record pagination := mkPagination {
  currentPage : Z;
  totalPages : Js.num;
  totalItems : Z;
  itemsPerPage : Z;
  hasNext : bool;
  hasPrev : bool
}.

(** `catch (error) { throw new ApiError(500, msg, error.message) }` *)
Definition wrap_all {A} (msg : string) (error : exn) : M db A :=
  throw (ApiError 500 msg [exn_message error]).

(** `catch (error) { if (error instanceof ApiError) throw error; ... }` *)
Definition wrap_unless_api {A} (msg : string) (error : exn) : M db A :=
  match error with
  | ApiError _ _ _ => throw error
  | _ => throw (ApiError 500 msg [exn_message error])
  end.

(** References are resolved for display only (`populate`); the
    returned documents are the stored ones. *)
Definition getAllQuizzes (filters : query) (o : options)
    : M db (ApiResponse (list t * pagination)) :=
  try_catch
    (let page := default 1 (o_page o) in
     let limit := default 10 (o_limit o) in
     let sortBy := default "createdAt" (o_sortBy o) in
     let sortOrder := default "desc" (o_sortOrder o) in
     await_ (if Js.truthy_string (o_search o)
             then await_ lift (Mongo.regex_of (default "" (o_search o))); ret tt
             else ret tt);
     let query := assign (build_query o) filters in
     let skip := (page - 1) * limit in
     let dir := if String.eqb sortOrder "desc" then -1 else 1 in
     await docs <- QuizModel.all;
     await found <- lift (select query docs);
     await skipped <- lift (Mongo.skip skip (Mongo.sort (sort_key sortBy) dir found));
     let quizzes := Mongo.limit limit skipped in
     let total := Z.of_nat (length found) in
     let pagination :=
       {| currentPage := page;
          totalPages := Js.ceil_div total limit;
          totalItems := total;
          itemsPerPage := limit;
          hasNext := Js.lt_num page (Js.ceil_div total limit);
          hasPrev := 1 <? page |} in
     ret (mkResponse 200 (quizzes, pagination)
            (Some "Quizzes retrieved successfully")))
    (wrap_all "Failed to retrieve quizzes").

Definition getQuizById (quizId : ObjectId) (includeQuestions : bool)
    : M db (ApiResponse t) :=
  try_catch
    (await quiz <- QuizModel.findById quizId;
     match quiz with
     | None => throw (ApiError 404 "Quiz not found" [])
     | Some quiz =>
         ret (mkResponse 200 quiz (Some "Quiz retrieved successfully"))
     end)
    (wrap_unless_api "Failed to retrieve quiz").

(** The count check of createQuiz and updateQuiz. *)
Definition recount (updateData : patch) : patch :=
  if Js.truthy_array (p_questionIds updateData)
     && Js.truthy_number (p_totalQuestions updateData)
  then
    let len := Z.of_nat (length (default [] (p_questionIds updateData))) in
    if negb (len =? default 0 (p_totalQuestions updateData))
    then set_totalQuestions (Some len) updateData
    else updateData
  else updateData.

Section WithSchema.

(** The validators of the Quiz schema, run on the update document
    (`runValidators: true`); they give the messages of the violated
    rules. *)
Variable validators : patch -> list string.

Definition updateQuiz (quizId : ObjectId) (updateData : patch) (now : Z)
    : M db (ApiResponse t) :=
  try_catch
    (let updateData := recount updateData in
     await quiz <-
       match validators updateData with
       | [] => QuizModel.findByIdAndUpdate quizId (apply_patch updateData now)
       | msgs => throw (ValidationError msgs)
       end;
     match quiz with
     | None => throw (ApiError 404 "Quiz not found" [])
     | Some quiz =>
         ret (mkResponse 200 quiz (Some "Quiz updated successfully"))
     end)
    (fun error =>
       match error with
       | ApiError _ _ _ => throw error
       | ValidationError msgs => throw (ApiError 400 "Validation failed" msgs)
       | _ => throw (ApiError 500 "Failed to update quiz" [exn_message error])
       end).

End WithSchema.

Definition deleteQuiz (quizId : ObjectId) : M db (ApiResponse unit) :=
  try_catch
    (await quiz <- QuizModel.findById quizId;
     match quiz with
     | None => throw (ApiError 404 "Quiz not found" [])
     | Some quiz =>
         await hasResults <- QuizResultModel.exists_quiz quizId;
         if hasResults : bool then
           await_ QuizModel.save (set_isActive false quiz);
           ret (mkResponse 200 tt
                  (Some "Quiz deactivated successfully (has existing results)"))
         else
           await_ QuizModel.findByIdAndDelete quizId;
           ret (mkResponse 200 tt (Some "Quiz deleted successfully"))
     end)
    (wrap_unless_api "Failed to delete quiz").

(** The data of an eligibility response; [nextRetakeTime] is [None]
    for `null` and where the field is left out. *)
Record eligibility := mkEligibility {
  canTake : bool;
  reason : option string;
  attemptsUsed : Z;
  maxAttemptsAllowed : Z;   (* the field `maxAttempts` of the response *)
  nextRetakeTime : option Z
}.

Definition canUserTakeQuiz (quizId userId : ObjectId) (now : Z)
    : M db (ApiResponse eligibility) :=
  try_catch
    (await quiz <- QuizModel.findById quizId;
     match quiz with
     | None => throw (ApiError 404 "Quiz not found" [])
     | Some quiz =>
         await userAttempts <- QuizResultModel.countDocuments quizId userId;
         if negb (canUserRetake quiz userAttempts) then
           await lastAttempt <- QuizResultModel.findLatest quizId userId;
           match lastAttempt with
           | None =>
               throw (HostError "TypeError"
                        "Cannot read properties of null (reading 'createdAt')")
           | Some lastAttempt =>
               let next := getNextRetakeTime quiz (QuizResult.createdAt lastAttempt) in
               ret (mkResponse 200
                      {| canTake := false;
                         reason := Some "Maximum attempts reached";
                         attemptsUsed := userAttempts;
                         maxAttemptsAllowed := maxAttempts (policy quiz);
                         nextRetakeTime := if now <? next then Some next else None |}
                      None)
           end
         else
           ret (mkResponse 200
                  {| canTake := true;
                     reason := None;
                     attemptsUsed := userAttempts;
                     maxAttemptsAllowed := maxAttempts (policy quiz);
                     nextRetakeTime := None |}
                  None)
     end)
    (wrap_unless_api "Failed to check quiz eligibility").

(** `results.reduce((sum, result) => sum + f(result), 0)` *)
Definition sum_by (f : QuizResult.t -> float) (results : list QuizResult.t)
    : float :=
  fold_left (fun sum result => (sum + f result)%float) results 0%float.

Definition compute_analytics (results : list QuizResult.t) : analytics :=
  let totalAttempts := Js.length results in
  let totalScore := sum_by QuizResult.score results in
  let totalTime := sum_by QuizResult.timeTaken results in
  let completedResults :=
    List.filter (fun result => Js.gt (QuizResult.score result) 0) results in
  {| totalAttempts := Z.of_nat (length results);
     averageScore := Js.Math_round (totalScore / totalAttempts);
     averageTime := Js.Math_round (totalTime / totalAttempts);
     completionRate :=
       Js.Math_round (Js.length completedResults / totalAttempts * 100) |}%float.

(** The result is [None] where the function returns `undefined`. *)
Definition updateQuizAnalytics (quizId : ObjectId)
    : M db (option (ApiResponse analytics)) :=
  try_catch
    (await results <- QuizResultModel.find_quiz quizId;
     if (length results =? 0)%nat then ret None
     else
       let analytics := compute_analytics results in
       await_ QuizModel.findByIdAndUpdate quizId (set_analytics analytics);
       ret (Some (mkResponse 200 analytics
                    (Some "Quiz analytics updated successfully"))))
    (wrap_all "Failed to update quiz analytics").

Record range := mkRange {
  label : string;
  min : float;
  max : float
}.

Definition ranges (totalPoints : float) : list range :=
  [ {| label := "0-20%"; min := 0; max := totalPoints * 0.2 |};
    {| label := "21-40%"; min := totalPoints * 0.2; max := totalPoints * 0.4 |};
    {| label := "41-60%"; min := totalPoints * 0.4; max := totalPoints * 0.6 |};
    {| label := "61-80%"; min := totalPoints * 0.6; max := totalPoints * 0.8 |};
    {| label := "81-100%"; min := totalPoints * 0.8; max := totalPoints |} ]%float.

(** Is the score counted in the range? *)
Definition in_range (rg : range) (r : QuizResult.t) : bool :=
  Js.gt (QuizResult.score r) (min rg) && Js.le (QuizResult.score r) (max rg).

Definition calculateScoreDistribution (results : list QuizResult.t)
    (totalPoints : float) : list (string * nat) :=
  map (fun rg => (label rg, length (List.filter (in_range rg) results)))
      (ranges totalPoints).

End QuizService.

(** ** Physics lesson controller

    A handler is a program over the operations it performs on its
    collaborators: the Lesson model, the logger, the lesson service and
    the HTTP response.  Running it against any behaviour of the
    collaborators yields the operations performed, in order, and how
    the handler ended. *)

Module PhysicsLessonController.

Record user := mkUser {
  id : string;
  role : string
}.

(** The part of a lesson that `.select("metadata.createdBy")` keeps. *)
Record lesson := mkLesson {
  createdBy : ObjectId
}.

Record request := mkRequest {
  params_id : ObjectId;
  body : string;
  req_user : user
}.

Inductive effect : Type -> Type :=
| LessonFindById (lessonId : ObjectId) : effect (option lesson)
| LoggerWarn (msg : string) : effect unit
| ServiceUpdateLesson (lessonId : ObjectId) (body userId : string)
    : effect (outcome (ApiResponse string))
| ServiceDeleteLesson (lessonId : ObjectId)
    : effect (outcome (ApiResponse string))
| Respond (status : Z) (json : ApiResponse string) : effect unit.

Inductive prog (A : Type) : Type :=
| Ret (a : A)
| Raise (e : exn)
| Do {X : Type} (op : effect X) (k : X -> prog A).
Arguments Ret {A} a.
Arguments Raise {A} e.
Arguments Do {A X} op k.

(** `res.status(result.statusCode).json(result)` after a service call. *)
Definition respond (result : outcome (ApiResponse string)) : prog unit :=
  match result with
  | Returned result => Do (Respond (statusCode result) result) Ret
  | Thrown e => Raise e
  end.

Definition not_owner_nor_admin (l : lesson) (u : user) : bool :=
  negb (String.eqb (createdBy l) (id u)) && negb (String.eqb (role u) "admin").

Definition updateLesson (req : request) : prog unit :=
  let id_ := params_id req in
  Do (LessonFindById id_) (fun lesson =>
    match lesson with
    | None =>
        Do (LoggerWarn
              ("Leçon de physique introuvable pour la mise à jour: " ++ id_))
           (fun _ => Raise (ApiError 404 "Leçon de physique introuvable" []))
    | Some lesson =>
        if not_owner_nor_admin lesson (req_user req) then
          Do (LoggerWarn
                ("Utilisateur non autorisé " ++ id (req_user req)
                 ++ " pour la mise à jour de la leçon " ++ id_))
             (fun _ =>
                Raise (ApiError 403
                         "Non autorisé à mettre à jour cette leçon de physique" []))
        else
          Do (ServiceUpdateLesson id_ (body req) (id (req_user req))) respond
    end)%string.

Definition deleteLesson (req : request) : prog unit :=
  let id_ := params_id req in
  Do (LessonFindById id_) (fun lesson =>
    match lesson with
    | None =>
        Do (LoggerWarn
              ("Leçon de physique introuvable pour la suppression: " ++ id_))
           (fun _ => Raise (ApiError 404 "Leçon de physique introuvable" []))
    | Some lesson =>
        if not_owner_nor_admin lesson (req_user req) then
          Do (LoggerWarn
                ("Utilisateur non autorisé " ++ id (req_user req)
                 ++ " pour la suppression de la leçon " ++ id_))
             (fun _ =>
                Raise (ApiError 403
                         "Non autorisé à supprimer cette leçon de physique" []))
        else
          Do (ServiceDeleteLesson id_) respond
    end)%string.

(** How the collaborators answer. *)
Definition world := forall X : Type, effect X -> X.

(** An operation performed, without its answer. *)
Inductive event :=
| Performed {X : Type} (op : effect X).

Fixpoint run {A} (w : world) (p : prog A) : list event * outcome A :=
  match p with
  | Ret a => ([], Returned a)
  | Raise e => ([], Thrown e)
  | Do op k =>
      let '(evs, o) := run w (k (w _ op)) in
      (Performed op :: evs, o)
  end.

Definition is_service_call (ev : event) : bool :=
  match ev with
  | Performed (ServiceUpdateLesson _ _ _) => true
  | Performed (ServiceDeleteLesson _) => true
  | Performed _ => false
  end.

(** The number of service operations among the operations performed. *)
Definition service_calls (evs : list event) : nat :=
  length (List.filter is_service_call evs).

End PhysicsLessonController.

(** ** Specification predicates and sample data *)

(** The handler ends with an ApiError of the given status and has
    performed no service operation. *)
Definition fails_before_service (w : PhysicsLessonController.world)
    (p : PhysicsLessonController.prog unit) (status : Z) : Prop :=
  exists evs msg,
    PhysicsLessonController.run w p = (evs, Thrown (ApiError status msg []))
    /\ PhysicsLessonController.service_calls evs = 0%nat.

(** How the collaborators of the lesson controller answer in the
    examples: one lesson, `l1`, created by user `u1`. *)
Definition sample_world : PhysicsLessonController.world :=
  fun X op =>
    match op in PhysicsLessonController.effect X return X with
    | PhysicsLessonController.LessonFindById lid =>
        if String.eqb lid "l1"
        then Some (PhysicsLessonController.mkLesson "u1")
        else None
    | PhysicsLessonController.LoggerWarn _ => tt
    | PhysicsLessonController.ServiceUpdateLesson _ _ _ =>
        Returned (mkResponse 200 "{}" (Some "updated"))
    | PhysicsLessonController.ServiceDeleteLesson _ =>
        Returned (mkResponse 200 "null" (Some "deleted"))
    | PhysicsLessonController.Respond _ _ => tt
    end.

Definition sample_request (lessonId userId role : string)
    : PhysicsLessonController.request :=
  PhysicsLessonController.mkRequest lessonId "{}"
    (PhysicsLessonController.mkUser userId role).

(** No stored result refers to the quiz. *)
Definition no_results (quizId : ObjectId) (s : db) : Prop :=
  Forall (fun r => QuizResult.quizId r <> quizId) (quizResults s).

(** Some stored result refers to the quiz. *)
Definition has_results (quizId : ObjectId) (s : db) : Prop :=
  Exists (fun r => QuizResult.quizId r = quizId) (quizResults s).

Definition sample_quiz (id : ObjectId) (n : Z) (ids : list ObjectId) : Quiz.t :=
  {| Quiz._id := id;
     Quiz.title := "Algebra";
     Quiz.description := "Linear equations";
     Quiz.tags := ["maths"];
     Quiz.subjectId := "s1";
     Quiz.questionIds := ids;
     Quiz.totalQuestions := n;
     Quiz.totalPoints := 20%float;
     Quiz.level := "terminale";
     Quiz.difficulty := "beginner";
     Quiz.premiumOnly := false;
     Quiz.isActive := true;
     Quiz.policy := Quiz.mkPolicy 2 3600000;
     Quiz.stats := Quiz.mkAnalytics 0 0%float 0%float 0%float;
     Quiz.createdAt := 1000;
     Quiz.updatedAt := 1000 |}.

Definition sample_result (id userId : ObjectId) (score time : float) (at_ : Z)
    : QuizResult.t :=
  {| QuizResult._id := id;
     QuizResult.quizId := "q1";
     QuizResult.userId := userId;
     QuizResult.score := score;
     QuizResult.timeTaken := time;
     QuizResult.createdAt := at_ |}.

(** Quiz `q1` has four results, two of them by user `u1`; quiz `q2`
    has none. *)
Definition sample_db : db :=
  {| quizzes :=
       <["q1" := sample_quiz "q1" 1 ["x1"]]>
         (<["q2" := sample_quiz "q2" 1 ["x1"]]> ∅);
     quizResults :=
       [ sample_result "r1" "u1" 10 30 2000;
         sample_result "r2" "u2" 15 45 3000;
         sample_result "r3" "u1" 18 50 5000;
         sample_result "r4" "u3" 20 62 4000 ]%float |}.

(** An update document with the given questionIds and totalQuestions. *)
Definition questions_patch (ids : list ObjectId) (n : option Z) : Quiz.patch :=
  {| Quiz.p_title := None; Quiz.p_description := None; Quiz.p_tags := None;
     Quiz.p_subjectId := None;
     Quiz.p_questionIds := Some ids; Quiz.p_totalQuestions := n;
     Quiz.p_totalPoints := None; Quiz.p_level := None;
     Quiz.p_difficulty := None; Quiz.p_premiumOnly := None;
     Quiz.p_isActive := None; Quiz.p_retakePolicy := None;
     Quiz.p_analytics := None; Quiz.p_createdAt := None;
     Quiz.p_updatedAt := None |}.

(** A schema none of whose validators is violated. *)
Definition accept_all : Quiz.patch -> list string := fun _ => [].

(** C1 as the specification words it: after every update that changes
    questionIds and returns, the stored totalQuestions is the length of
    the new questionIds, whatever totalQuestions was passed, none
    included. *)
Definition recount_on_every_change : Prop :=
  forall (validators : Quiz.patch -> list string) (quizId : ObjectId)
         (u : Quiz.patch) (now : Z) (s s' : db) (resp : ApiResponse Quiz.t)
         (q : Quiz.t) (ids : list ObjectId),
    quizzes s !! quizId = Some q ->
    Quiz.p_questionIds u = Some ids ->
    Quiz.questionIds q <> ids ->
    QuizService.updateQuiz validators quizId u now s = (Returned resp, s') ->
    exists q',
      quizzes s' !! quizId = Some q'
      /\ Quiz.totalQuestions q' = Z.of_nat (length ids).

(** The update of quiz `q1` with three questionIds and the count 7. *)
Definition sample_update_both : outcome (ApiResponse Quiz.t) * db :=
  QuizService.updateQuiz accept_all "q1"
    (questions_patch ["x1"; "x2"; "x3"] (Some 7)) 9000 sample_db.

(** The same update without a count. *)
Definition sample_update_ids_only : outcome (ApiResponse Quiz.t) * db :=
  QuizService.updateQuiz accept_all "q1"
    (questions_patch ["x1"; "x2"; "x3"] None) 9000 sample_db.





(** C5 as the specification words it: whatever totalPoints is, a
    result whose score equals the common bound of two adjacent buckets
    is counted in the lower one and not in the upper one. *)
Definition boundary_always_in_lower : Prop :=
  forall (totalPoints : float) (r : QuizResult.t) (k : nat)
         (lower upper : QuizService.range),
    QuizService.ranges totalPoints !! k = Some lower ->
    QuizService.ranges totalPoints !! S k = Some upper ->
    (QuizResult.score r =? QuizService.max lower)%float = true ->
    QuizService.in_range lower r = true /\ QuizService.in_range upper r = false.


Definition sample_subject (id name code status : string) (active : bool)
    : Subject.t :=
  {| Subject._id := id;
     Subject.name := name;
     Subject.code := code;
     Subject.description := "";
     Subject.category := "science";
     Subject.examTypes := ["BAC"];
     Subject.countries := ["TD"];
     Subject.educationLevels := ["lycee"];
     Subject.series := ["D"];
     Subject.isActive := active;
     Subject.isPremium := false;
     Subject.isFeatured := false;
     Subject.status := status |}.

(** Three active subjects and one that has been deleted. *)
Definition sample_subjects : list Subject.t :=
  [ sample_subject "s1" "Sciences (SVT)" "SVT" "active" true;
    sample_subject "s2" "Physique" "PHY" "active" true;
    sample_subject "s3" "Histoire" "HIS" "inactive" false;
    sample_subject "s4" "Chimie" "CHI" "active" true ].

(** A list request for the given page and page size, nothing else set. *)
Definition page_query (page limit : Z) : SubjectService.query :=
  {| SubjectService.q_page := Some page;
     SubjectService.q_limit := Some limit;
     SubjectService.q_category := None;
     SubjectService.q_examType := None;
     SubjectService.q_country := None;
     SubjectService.q_educationLevel := None;
     SubjectService.q_series := None;
     SubjectService.q_isActive := None;
     SubjectService.q_isPremium := None;
     SubjectService.q_isFeatured := None;
     SubjectService.q_search := None;
     SubjectService.q_sortBy := None;
     SubjectService.q_sortOrder := None |}.


Definition page_options (page limit : Z) : QuizService.options :=
  {| QuizService.o_page := Some page;
     QuizService.o_limit := Some limit;
     QuizService.o_sortBy := None;
     QuizService.o_sortOrder := None;
     QuizService.o_search := None;
     QuizService.o_subjectId := None;
     QuizService.o_level := None;
     QuizService.o_difficulty := None;
     QuizService.o_premiumOnly := None;
     QuizService.o_isActive := None |}.

Definition no_filters : QuizService.query :=
  {| QuizService.qy_isActive := None;
     QuizService.qy_subjectId := None;
     QuizService.qy_level := None;
     QuizService.qy_difficulty := None;
     QuizService.qy_premiumOnly := None;
     QuizService.qy_or := None |}.

(** A create request with the given name and code. *)
Definition subject_data (name code : string) : Subject.data :=
  {| Subject.d_name := name;
     Subject.d_code := code;
     Subject.d_description := "";
     Subject.d_category := "science";
     Subject.d_examTypes := ["BAC"];
     Subject.d_countries := ["TD"];
     Subject.d_educationLevels := ["lycee"];
     Subject.d_series := ["D"];
     Subject.d_isActive := true;
     Subject.d_isPremium := false;
     Subject.d_isFeatured := false;
     Subject.d_status := "active" |}.

(** Two names collide when they are equal up to the case of letters. *)
Definition same_name (a b : string) : Prop :=
  Js.toUpperCase a = Js.toUpperCase b.

(** The characters with a meaning of their own in a pattern. *)
Definition is_special (c : ascii) : bool :=
  existsb (Ascii.eqb c) (list_ascii_of_string "()|*+?^$.\[{").

(** A name none of whose characters is special. *)
Definition plain (name : string) : Prop :=
  Forall (fun c => is_special c = false) (list_ascii_of_string name).

(** The pattern of a literal text, anchored at the end. *)
Fixpoint lit (cs : list ascii) : RegExp.regex :=
  match cs with
  | [] => RegExp.RCat RegExp.REol RegExp.REps
  | c :: rest => RegExp.RCat (RegExp.RChar c) (lit rest)
  end.

(** What is left of a pattern after reading the characters [cs] away
    from the start of the subject, ignoring case. *)
Fixpoint derivs (cs : list ascii) (x : RegExp.regex) : RegExp.regex :=
  match cs with
  | [] => x
  | c :: rest => derivs rest (RegExp.deriv true false c x)
  end.

(** A pattern that matches nowhere away from the start of the subject. *)
Definition dead (x : RegExp.regex) : Prop :=
  forall cs eol, RegExp.nullable false eol (derivs cs x) = false.

(** Does a match of [x], begun here (not at the start), end somewhere
    in [cs]? *)
Fixpoint scan (x : RegExp.regex) (cs : list ascii) : bool :=
  RegExp.nullable false (Js.is_nil cs) x
  || match cs with
     | [] => false
     | c :: rest => scan (RegExp.deriv true false c x) rest
     end.

(** ** Further operations of the Subject service *)

Module SubjectServiceExt.
Import Subject SubjectService.

Definition getSubjectById (subjectId : ObjectId) : M collection t :=
  await subject <- findById subjectId;
  match subject with
  | None => throw (NotFoundError "Matière non trouvée")
  | Some subject => ret subject
  end.

(** The body of an update request: the fields it supplies. *)
Record update := mkUpdate {
  u_name : option string;
  u_code : option string;
  u_description : option string;
  u_category : option string;
  u_examTypes : option (list string);
  u_countries : option (list string);
  u_educationLevels : option (list string);
  u_series : option (list string);
  u_isActive : option bool;
  u_isPremium : option bool;
  u_isFeatured : option bool;
  u_status : option string
}.

(** Modelled from the spec: the Subject schema is absent; as at
    creation, a supplied code is stored upper-cased.  This is
    `{ $set: updateData }` applied to a document. *)
Definition apply_update (u : update) (s : t) : t :=
  {| _id := _id s;
     name := default (name s) (u_name u);
     code := default (code s) (Js.toUpperCase <$> u_code u);
     description := default (description s) (u_description u);
     category := default (category s) (u_category u);
     examTypes := default (examTypes s) (u_examTypes u);
     countries := default (countries s) (u_countries u);
     educationLevels := default (educationLevels s) (u_educationLevels u);
     series := default (series s) (u_series u);
     isActive := default (isActive s) (u_isActive u);
     isPremium := default (isPremium s) (u_isPremium u);
     isFeatured := default (isFeatured s) (u_isFeatured u);
     status := default (status s) (u_status u) |}.

(** `{ _id: { $ne: subjectId } }` *)
Definition other_than (subjectId : ObjectId) (s : t) : bool :=
  negb (String.eqb (_id s) subjectId).

Section WithSchema.

(** The validators of the Subject schema, run on the update document
    (`runValidators: true`); they give the messages of the violated
    rules. *)
Variable validators : update -> list string.

(** `Subject.findByIdAndUpdate(id, { $set: updateData },
    { new: true, runValidators: true })` *)
Definition findByIdAndUpdate_new (subjectId : ObjectId) (u : update)
    : M collection (option t) :=
  match validators u with
  | [] =>
      await_ findByIdAndUpdate subjectId (apply_update u);
      findById subjectId
  | msgs => throw (ValidationError msgs)
  end.

Definition updateSubject (subjectId : ObjectId) (updateData : update)
    : M collection (option t) :=
  await existingSubject <- findById subjectId;
  match existingSubject with
  | None => throw (NotFoundError "Matière non trouvée")
  | Some existingSubject =>
      await_
        (if Js.truthy_string (u_code updateData)
            && negb (String.eqb (default "" (u_code updateData)) (code existingSubject))
         then
           await duplicateCode <-
             findOne (fun s =>
                        String.eqb (code s)
                          (Js.toUpperCase (default "" (u_code updateData)))
                        && other_than subjectId s);
           match duplicateCode with
           | Some _ => throw (ConflictError "Une matière avec ce code existe déjà")
           | None => ret tt
           end
         else ret tt);
      await_
        (if Js.truthy_string (u_name updateData)
            && negb (String.eqb (default "" (u_name updateData)) (name existingSubject))
         then
           await re <-
             lift (Mongo.regex_of ("^" ++ default "" (u_name updateData) ++ "$"));
           await duplicateName <-
             findOne (fun s => RegExp.test true re (name s) && other_than subjectId s);
           match duplicateName with
           | Some _ => throw (ConflictError "Une matière avec ce nom existe déjà")
           | None => ret tt
           end
         else ret tt);
      findByIdAndUpdate_new subjectId updateData
  end.

End WithSchema.

(** `String.prototype.trim` *)
Definition is_space (c : ascii) : bool :=
  let n := nat_of_ascii c in
  ((9 <=? n) && (n <=? 13) || (n =? 32))%nat.

Fixpoint trim_start (cs : list ascii) : list ascii :=
  match cs with
  | [] => []
  | c :: rest => if is_space c then trim_start rest else cs
  end.

Definition trim (s : string) : string :=
  string_of_list_ascii
    (rev (trim_start (rev (trim_start (list_ascii_of_string s))))).

(** The filters of a search request. *)
Record search_filters := mkSearchFilters {
  sf_category : option string;
  sf_examType : option string;
  sf_country : option string;
  sf_educationLevel : option string;
  sf_isPremium : option string
}.

Section WithStats.

(** The counter `stats.totalStudents` of a document; the counters are
    kept by the Subject schema, which is absent. *)
Variable totalStudents : t -> Z.

(** `.sort({ "stats.totalStudents": -1, name: 1 })` *)
Definition by_students_then_name (a b : t) : bool :=
  (totalStudents b <? totalStudents a)
  || (totalStudents a =? totalStudents b) && String.leb (name a) (name b).

Definition build_search (term : string) (filters : search_filters) : filter :=
  {| f_status := "active";
     f_category := when_truthy (sf_category filters);
     f_examTypes := when_truthy (sf_examType filters);
     f_countries := when_truthy (sf_country filters);
     f_educationLevels := when_truthy (sf_educationLevel filters);
     f_series := None;
     f_isActive := Some true;
     f_isPremium := when_defined (sf_isPremium filters);
     f_isFeatured := None;
     f_or := Some term |}.

Definition searchSubjects (searchTerm : option string) (filters : search_filters)
    : M collection (list t) :=
  if negb (Js.truthy_string searchTerm)
     || (String.length (trim (default "" searchTerm)) <? 2)%nat
  then
    throw (BadRequestError
             "Le terme de recherche doit contenir au moins 2 caractères")
  else
    let query := build_search (trim (default "" searchTerm)) filters in
    await docs <- get;
    await found <- lift (select query docs);
    ret (Mongo.limit 20
           (merge_sort (fun a b => Is_true (by_students_then_name a b)) found)).

End WithStats.

End SubjectServiceExt.

(** ** Further operations of the Quiz service *)

Module QuizServiceExt.
Import Quiz QuizService.

Section WithSchema.

(** The Quiz schema is absent.  [defaults] holds the values it gives
    the fields a request leaves out, [validators] the messages of the
    rules a document violates when it is saved. *)
Variable defaults : Quiz.t.
Variable validators : Quiz.t -> list string.

(** `new Quiz(quizData)`: every field the request supplies is taken
    from it. *)
Definition construct (newId : ObjectId) (u : patch) : Quiz.t :=
  {| _id := newId;
     title := default (title defaults) (p_title u);
     description := default (description defaults) (p_description u);
     tags := default (tags defaults) (p_tags u);
     subjectId := default (subjectId defaults) (p_subjectId u);
     questionIds := default (questionIds defaults) (p_questionIds u);
     totalQuestions := default (totalQuestions defaults) (p_totalQuestions u);
     totalPoints := default (totalPoints defaults) (p_totalPoints u);
     level := default (level defaults) (p_level u);
     difficulty := default (difficulty defaults) (p_difficulty u);
     premiumOnly := default (premiumOnly defaults) (p_premiumOnly u);
     isActive := default (isActive defaults) (p_isActive u);
     policy := default (policy defaults) (p_retakePolicy u);
     stats := default (stats defaults) (p_analytics u);
     createdAt := default (createdAt defaults) (p_createdAt u);
     updatedAt := default (updatedAt defaults) (p_updatedAt u) |}.

(** `quiz.save()` of a new document: the validators run first, and the
    collection refuses a second document with the same `_id`. *)
Definition save_new (quiz : Quiz.t) : M db unit :=
  match validators quiz with
  | [] =>
      await existing <- QuizModel.findById (_id quiz);
      match existing with
      | Some _ => throw (HostError "MongoServerError" "E11000 duplicate key error")
      | None => QuizModel.save quiz
      end
  | msgs => throw (ValidationError msgs)
  end.

(** createQuiz; [newId] is the identifier the driver gives the new
    document. *)
Definition createQuiz (newId : ObjectId) (quizData : patch)
    : M db (ApiResponse Quiz.t) :=
  try_catch
    (let quizData := recount quizData in
     let quiz := construct newId quizData in
     await_ save_new quiz;
     ret (mkResponse 201 quiz (Some "Quiz created successfully")))
    (fun error =>
       match error with
       | ValidationError msgs => throw (ApiError 400 "Validation failed" msgs)
       | _ => throw (ApiError 500 "Failed to create quiz" [exn_message error])
       end).

End WithSchema.

(** getQuizzesBySubject: the filters `{ subjectId, isActive: true }`. *)
Definition subject_filters (subjectId : ObjectId) : query :=
  {| qy_isActive := Some true;
     qy_subjectId := Some subjectId;
     qy_level := None;
     qy_difficulty := None;
     qy_premiumOnly := None;
     qy_or := None |}.

Definition getQuizzesBySubject (subjectId : ObjectId) (o : options)
    : M db (ApiResponse (list Quiz.t * pagination)) :=
  try_catch
    (getAllQuizzes (subject_filters subjectId) o)
    (wrap_all "Failed to retrieve quizzes by subject").

(** Are two numbers the same stored value? *)
Definition same_number (x y : float) : bool := PrimFloat.Leibniz.eqb x y.

(** Are two documents the same stored value? *)
Definition same_doc (a b : Quiz.t) : bool :=
  String.eqb (_id a) (_id b)
  && String.eqb (title a) (title b)
  && String.eqb (description a) (description b)
  && bool_decide (tags a = tags b)
  && String.eqb (subjectId a) (subjectId b)
  && bool_decide (questionIds a = questionIds b)
  && (totalQuestions a =? totalQuestions b)
  && same_number (totalPoints a) (totalPoints b)
  && String.eqb (level a) (level b)
  && String.eqb (difficulty a) (difficulty b)
  && Bool.eqb (premiumOnly a) (premiumOnly b)
  && Bool.eqb (isActive a) (isActive b)
  && (maxAttempts (policy a) =? maxAttempts (policy b))
  && (cooldown (policy a) =? cooldown (policy b))
  && (totalAttempts (stats a) =? totalAttempts (stats b))
  && same_number (averageScore (stats a)) (averageScore (stats b))
  && same_number (averageTime (stats a)) (averageTime (stats b))
  && same_number (completionRate (stats a)) (completionRate (stats b))
  && (createdAt a =? createdAt b)
  && (updatedAt a =? updatedAt b).

(** `{ _id: { $in: quizIds } }` *)
Definition listed (quizIds : list ObjectId) (k : ObjectId) : bool :=
  existsb (String.eqb k) quizIds.

Record bulk_result := mkBulkResult {
  matchedCount : Z;
  modifiedCount : Z
}.

(** `Quiz.updateMany({ _id: { $in: quizIds } }, update)`: every listed
    document is updated; the result counts the listed documents found
    and those among them the update has changed. *)
Definition updateMany (quizIds : list ObjectId) (f : Quiz.t -> Quiz.t)
    : M db bulk_result :=
  fun s =>
    let matched :=
      List.filter (fun kq => listed quizIds (fst kq)) (map_to_list (quizzes s)) in
    let modified :=
      List.filter (fun kq => negb (same_doc (f (snd kq)) (snd kq))) matched in
    (Returned {| matchedCount := Z.of_nat (length matched);
                 modifiedCount := Z.of_nat (length modified) |},
     {| quizzes :=
          map_imap (fun k q => Some (if listed quizIds k then f q else q))
            (quizzes s);
        quizResults := quizResults s |}).

Definition bulkUpdateQuizzes (quizIds : list ObjectId) (updateData : patch)
    (now : Z) : M db (ApiResponse bulk_result) :=
  try_catch
    (await result <- updateMany quizIds (apply_patch updateData now);
     ret (mkResponse 200
            {| matchedCount := matchedCount result;
               modifiedCount := modifiedCount result |}
            (Some "Bulk update completed successfully")))
    (wrap_all "Failed to bulk update quizzes").

Record statistics := mkStatistics {
  st_totalAttempts : Z;
  st_averageScore : float;
  st_averageTime : float;
  highestScore : float;
  lowestScore : float;
  passRate : float;
  scoreDistribution : list (string * nat)
}.

Definition compute_statistics (results : list QuizResult.t) (totalPoints : float)
    : statistics :=
  let some := Js.gt (Js.length results) 0 in
  {| st_totalAttempts := Z.of_nat (length results);
     st_averageScore :=
       if some
       then Js.Math_round (sum_by QuizResult.score results / Js.length results)
       else 0;
     st_averageTime :=
       if some
       then Js.Math_round (sum_by QuizResult.timeTaken results / Js.length results)
       else 0;
     highestScore :=
       if some then Js.Math_max (QuizResult.score <$> results) else 0;
     lowestScore :=
       if some then Js.Math_min (QuizResult.score <$> results) else 0;
     passRate :=
       if some
       then Js.Math_round
              (Js.length
                 (List.filter
                    (fun r => Js.ge (QuizResult.score r) (totalPoints * 0.6))
                    results)
               / Js.length results * 100)
       else 0;
     scoreDistribution := calculateScoreDistribution results totalPoints |}%float.

Definition getQuizStatistics (quizId : ObjectId)
    : M db (ApiResponse statistics) :=
  try_catch
    (await quiz <- QuizModel.findById quizId;
     match quiz with
     | None => throw (ApiError 404 "Quiz not found" [])
     | Some quiz =>
         await results <- QuizResultModel.find_quiz quizId;
         ret (mkResponse 200 (compute_statistics results (totalPoints quiz))
                (Some "Quiz statistics retrieved successfully"))
     end)
    (wrap_unless_api "Failed to retrieve quiz statistics").

End QuizServiceExt.

(** ** Sample requests for the further operations *)

Definition no_update : SubjectServiceExt.update :=
  SubjectServiceExt.mkUpdate None None None None None None None None None None None None.

(** An update that only renames. *)
Definition rename_update (n : string) : SubjectServiceExt.update :=
  SubjectServiceExt.mkUpdate (Some n) None None None None None None None None None None None.

(** An update that only changes the code. *)
Definition code_update (c : string) : SubjectServiceExt.update :=
  SubjectServiceExt.mkUpdate None (Some c) None None None None None None None None None None.

(** A Subject schema none of whose validators is violated. *)
Definition accept_update : SubjectServiceExt.update -> list string := fun _ => [].

Definition no_search_filters : SubjectServiceExt.search_filters :=
  SubjectServiceExt.mkSearchFilters None None None None None.

(** Student counters for the examples: none recorded. *)
Definition no_students : Subject.t -> Z := fun _ => 0.

(** Every stored quiz is filed under its own identifier. *)
Definition quizzes_wf (s : db) : Prop :=
  map_Forall (fun k q => Quiz._id q = k) (quizzes s).

(** The exception is an ApiError. *)
Definition is_api_error (e : exn) : Prop :=
  exists statusCode message errors, e = ApiError statusCode message errors.

(** List options that also ask for inactive quizzes. *)
Definition inactive_options (page limit : Z) : QuizService.options :=
  {| QuizService.o_page := Some page;
     QuizService.o_limit := Some limit;
     QuizService.o_sortBy := None;
     QuizService.o_sortOrder := None;
     QuizService.o_search := None;
     QuizService.o_subjectId := None;
     QuizService.o_level := None;
     QuizService.o_difficulty := None;
     QuizService.o_premiumOnly := None;
     QuizService.o_isActive := Some false |}.

(** The store after quiz `q1`, which has results, has been deleted. *)
Definition sample_db_soft : db := snd (QuizService.deleteQuiz "q1" sample_db).

(** The store after quiz `q2`, which has no results, has been deleted. *)
Definition sample_db_hard : db := snd (QuizService.deleteQuiz "q2" sample_db).

(** The results stored for a quiz. *)
Definition results_of (quizId : ObjectId) (s : db) : list QuizResult.t :=
  List.filter (fun r => String.eqb (QuizResult.quizId r) quizId) (quizResults s).

(** The statistics of a quiz without results. *)
Definition no_statistics : QuizServiceExt.statistics :=
  {| QuizServiceExt.st_totalAttempts := 0;
     QuizServiceExt.st_averageScore := 0%float;
     QuizServiceExt.st_averageTime := 0%float;
     QuizServiceExt.highestScore := 0%float;
     QuizServiceExt.lowestScore := 0%float;
     QuizServiceExt.passRate := 0%float;
     QuizServiceExt.scoreDistribution :=
       [("0-20%", 0%nat); ("21-40%", 0%nat); ("41-60%", 0%nat);
        ("61-80%", 0%nat); ("81-100%", 0%nat)] |}.

(** A create request for the given questions and count, for subject
    `s1`. *)
Definition sample_quiz_data (ids : list ObjectId) (n : option Z) : Quiz.patch :=
  {| Quiz.p_title := Some "Geometry"; Quiz.p_description := None;
     Quiz.p_tags := None; Quiz.p_subjectId := Some "s1";
     Quiz.p_questionIds := Some ids; Quiz.p_totalQuestions := n;
     Quiz.p_totalPoints := Some 30%float; Quiz.p_level := None;
     Quiz.p_difficulty := None; Quiz.p_premiumOnly := None;
     Quiz.p_isActive := None; Quiz.p_retakePolicy := None;
     Quiz.p_analytics := None; Quiz.p_createdAt := None;
     Quiz.p_updatedAt := None |}.

(** An update that supplies analytics, a creation time and a time of
    update of its own. *)
Definition overwrite_patch : Quiz.patch :=
  {| Quiz.p_title := None; Quiz.p_description := None; Quiz.p_tags := None;
     Quiz.p_subjectId := None; Quiz.p_questionIds := None;
     Quiz.p_totalQuestions := None; Quiz.p_totalPoints := None;
     Quiz.p_level := None; Quiz.p_difficulty := None;
     Quiz.p_premiumOnly := None; Quiz.p_isActive := None;
     Quiz.p_retakePolicy := None;
     Quiz.p_analytics := Some (Quiz.mkAnalytics 9 50%float 60%float 100%float);
     Quiz.p_createdAt := Some 5; Quiz.p_updatedAt := Some 7 |}.

(** The range test min < score <= max. *)
Definition in_bucket (lo hi score : float) : bool :=
  Js.gt score lo && Js.le score hi.

(** A Quiz schema none of whose validators is violated on save. *)
Definition accept_quiz : Quiz.t -> list string := fun _ => [].

(** Whatever the operation throws is an ApiError. *)
Definition only_api_errors {A} (m : M db A) : Prop :=
  forall s e s', m s = (Thrown e, s') -> is_api_error e.

(** ** Reading lessons through the controller *)

Module PhysicsLessonReads.

(** `Number.parseInt(text)` without a radix: leading white space is
    skipped, a sign is read, `0x` or `0X` selects base 16, and the
    longest run of digits of the base is the value; [None] is `NaN`,
    also for an absent text.  Values are exact integers. *)
Definition digit_of (base : Z) (c : ascii) : option Z :=
  let n := Z.of_nat (nat_of_ascii c) in
  let v :=
    if (48 <=? n) && (n <=? 57) then Some (n - 48)
    else if (97 <=? n) && (n <=? 102) then Some (n - 87)
    else if (65 <=? n) && (n <=? 70) then Some (n - 55)
    else None in
  match v with
  | Some d => if d <? base then Some d else None
  | None => None
  end.

(** The value of the longest run of digits, given the value [acc] of
    the digits read so far ([None]: none read yet). *)
Fixpoint digits (base : Z) (acc : option Z) (cs : list ascii) : option Z :=
  match cs with
  | [] => acc
  | c :: rest =>
      match digit_of base c with
      | Some d => digits base (Some (base * default 0 acc + d)) rest
      | None => acc
      end
  end.

Definition unsigned (cs : list ascii) : option Z :=
  match cs with
  | c0 :: c1 :: rest =>
      if Ascii.eqb c0 "0" && (Ascii.eqb c1 "x" || Ascii.eqb c1 "X")
      then digits 16 None rest
      else digits 10 None cs
  | _ => digits 10 None cs
  end.

Definition Number_parseInt (text : option string) : option Z :=
  match text with
  | None => None
  | Some text =>
      match SubjectServiceExt.trim_start (list_ascii_of_string text) with
      | c :: rest =>
          if Ascii.eqb c "-" then Z.opp <$> unsigned rest
          else if Ascii.eqb c "+" then unsigned rest
          else unsigned (c :: rest)
      | [] => None
      end
  end.

(** `x || d` for a number [x] *)
Definition or_default (x : option Z) (d : Z) : Z :=
  match x with
  | Some n => if n =? 0 then d else n
  | None => d
  end.

(** `req.query` of a list request. *)
Record lessons_query := mkLessonsQuery {
  lq_page : option string;
  lq_limit : option string;
  lq_topicId : option string;
  lq_series : option string;
  lq_interactivityLevel : option string;
  lq_premiumOnly : option string;
  lq_offlineAvailable : option string
}.

Record lessons_options := mkLessonsOptions {
  lo_page : Z;
  lo_limit : Z;
  lo_topicId : option string;
  lo_series : option string;
  lo_interactivityLevel : option string;
  lo_premiumOnly : bool;
  lo_offlineAvailable : bool
}.

(** `x === "true"` *)
Definition is_true_text (x : option string) : bool :=
  match x with
  | Some s => String.eqb s "true"
  | None => false
  end.

(** What a handler does to its collaborators. *)
Inductive call :=
| ServiceCreateLesson (lessonData userId : string)
| ServiceGetLessonById (lessonId : ObjectId)
| ServiceGetLessons (options : lessons_options)
| ServiceAddFeedback (lessonId : ObjectId) (body userId : string)
| LoggerInfo (msg : string)
| Respond (status : Z) (json : ApiResponse string).

(** The lesson service: what each invocation answers. *)
Definition service := call -> outcome (ApiResponse string).

(** A handler yields the calls it has made, in order, and how it ended. *)
Definition handled : Type := list call * outcome unit.

Definition createLesson (svc : service) (body userId : string) : handled :=
  match svc (ServiceCreateLesson body userId) with
  | Returned result =>
      ([ServiceCreateLesson body userId; Respond (statusCode result) result],
       Returned tt)
  | Thrown e => ([ServiceCreateLesson body userId], Thrown e)
  end.

Definition getLessonById (svc : service) (id : ObjectId) : handled :=
  match svc (ServiceGetLessonById id) with
  | Returned result =>
      ([ServiceGetLessonById id; Respond (statusCode result) result], Returned tt)
  | Thrown e => ([ServiceGetLessonById id], Thrown e)
  end.

Definition build_options (q : lessons_query) : lessons_options :=
  {| lo_page := or_default (Number_parseInt (lq_page q)) 1;
     lo_limit := or_default (Number_parseInt (lq_limit q)) 20;
     lo_topicId := lq_topicId q;
     lo_series := lq_series q;
     lo_interactivityLevel := lq_interactivityLevel q;
     lo_premiumOnly := is_true_text (lq_premiumOnly q);
     lo_offlineAvailable := is_true_text (lq_offlineAvailable q) |}.

Definition getLessons (svc : service) (q : lessons_query) : handled :=
  let options := build_options q in
  match svc (ServiceGetLessons options) with
  | Returned result =>
      ([ServiceGetLessons options; Respond (statusCode result) result], Returned tt)
  | Thrown e => ([ServiceGetLessons options], Thrown e)
  end.

Definition addFeedback (svc : service) (id : ObjectId) (body userId : string)
    : handled :=
  match svc (ServiceAddFeedback id body userId) with
  | Returned result =>
      ([ ServiceAddFeedback id body userId;
         LoggerInfo ("Feedback ajouté par le contrôleur à la leçon " ++ id);
         Respond (statusCode result) result ],
       Returned tt)
  | Thrown e => ([ServiceAddFeedback id body userId], Thrown e)
  end.

End PhysicsLessonReads.

(** ** Start of the server *)

Module Server.

Definition requiredEnvVars : list string := ["MONGO_URI"; "JWT_SECRET"].

(** `requiredEnvVars.filter((envVar) => !process.env[envVar])` *)
Definition missingEnvVars (env : gmap string string) : list string :=
  List.filter (fun envVar => negb (Js.truthy_string (env !! envVar))) requiredEnvVars.

(** What the start of the server does about the database. *)
Inductive startup :=
| Exit (code : Z) (logged : string)
| Connect (uri : string)
| NoConnection.

(** Outside the test environment the required variables are checked
    and the database is connected to. *)
Definition connect_database (env : gmap string string) : startup :=
  if negb (bool_decide (env !! "NODE_ENV" = Some "test")) then
    let missingEnvVars := missingEnvVars env in
    if (0 <? length missingEnvVars)%nat then
      Exit 1
        ("Variables d'environnement manquantes: "
         ++ String.concat ", " missingEnvVars)
    else Connect (default "" (env !! "MONGO_URI"))
  else NoConnection.

End Server.

Definition sample_service : PhysicsLessonReads.service :=
  fun _ => Returned (mkResponse 200 "[]" (Some "ok")).

Definition sample_lessons_query (page limit premium : option string)
    : PhysicsLessonReads.lessons_query :=
  PhysicsLessonReads.mkLessonsQuery page limit None None None premium None.

Definition sample_env (node uri secret : option string) : gmap string string :=
  list_to_map
    (omap (fun kv => pair (fst kv) <$> snd kv)
       [("NODE_ENV", node); ("MONGO_URI", uri); ("JWT_SECRET", secret)]).

(** ** Binary64 numbers: values, rounding and order

    What the arithmetic of the numbers computes, in terms of exact
    rational values. *)

(** Powers of two as rationals. *)
Definition pow2 (e : Z) : Q := (2 ^ e)%Q.

(** Rounding to the nearest integer, ties to even. *)
Definition rne (q : Q) : Z :=
  let f := Qfloor q in
  match (q - inject_Z f ?= 1 # 2)%Q with
  | Lt => f
  | Gt => f + 1
  | Eq => if Z.even f then f else f + 1
  end.

(** Where the exact value [x] lies with respect to [m * 2^e]. *)
Definition inbetween (m e : Z) (l : location) (x : Q) : Prop :=
  match l with
  | loc_Exact => (x == inject_Z m * pow2 e)%Q
  | loc_Inexact Lt =>
      (inject_Z m * pow2 e < x)%Q /\ (x < (inject_Z m + (1 # 2)) * pow2 e)%Q
  | loc_Inexact Eq => (x == (inject_Z m + (1 # 2)) * pow2 e)%Q
  | loc_Inexact Gt =>
      ((inject_Z m + (1 # 2)) * pow2 e < x)%Q /\ (x < (inject_Z m + 1) * pow2 e)%Q
  end.

(** The float with sign [s] and magnitude [N * 2^c], for
    [0 <= N <= 2^53]. *)
Definition round_pack (s : bool) (N c : Z) : spec_float :=
  match N with
  | Z0 => S754_zero s
  | Zpos p =>
      if N <? 2 ^ 53
      then (if c <=? 971 then S754_finite s p c else S754_infinity s)
      else (if c + 1 <=? 971
            then S754_finite s 4503599627370496 (c + 1)
            else S754_infinity s)
  | Zneg _ => S754_nan
  end.

(** [mu] locates [x >= 0] finely enough to choose its exponent:
    [x < 2^mu], and [2^(mu-1) <= x] unless [x] is in the subnormal
    range anyway. *)
Definition grid (mu : Z) (x : Q) : Prop :=
  (0 <= x)%Q /\ (x < pow2 mu)%Q /\ ((pow2 (mu - 1) <= x)%Q \/ mu - 53 <= -1074).

(** [N * 2^c] is written the way the format writes it. *)
Definition canonical (N c : Z) : Prop :=
  0 < N < 2 ^ 53 /\ -1074 <= c /\ (-1074 < c -> 2 ^ 52 <= N).

(** The value of a finite float; zero for the others. *)
Definition SF2Q (x : spec_float) : Q :=
  match x with
  | S754_finite s m e =>
      if s then (- (inject_Z (Z.pos m) * pow2 e))%Q
      else (inject_Z (Z.pos m) * pow2 e)%Q
  | _ => 0%Q
  end.

Definition SFfinite (x : spec_float) : bool :=
  match x with
  | S754_zero _ | S754_finite _ _ _ => true
  | _ => false
  end.

(** [r] is the float with sign [s] whose magnitude is the exact value
    [x >= 0] rounded to the format (to nearest, ties to even). *)
Definition rounded (s : bool) (r : spec_float) (x : Q) : Prop :=
  exists mu,
    grid mu x
    /\ r = round_pack s (rne (x / pow2 (fexp prec emax mu))) (fexp prec emax mu).

(** -1, 0, 1 for -infinity, the finite floats, +infinity. *)
Definition SFclass (a : spec_float) : Z :=
  match a with
  | S754_infinity true => -1
  | S754_infinity false => 1
  | _ => 0
  end.

(** Is the float a number, what is its class, what is its value? *)
Definition is_number (x : float) : Prop := Prim2SF x <> S754_nan.
Definition class_of (x : float) : Z := SFclass (Prim2SF x).
Definition value_of (x : float) : Q := SF2Q (Prim2SF x).

(** [x <= y] and [x < y] for numbers given by class and value. *)
Definition num_le (x y : float) : Prop :=
  is_number x /\ is_number y
  /\ (class_of x < class_of y
      \/ (class_of x = class_of y /\ (value_of x <= value_of y)%Q)).
Definition num_lt (x y : float) : Prop :=
  is_number x /\ is_number y
  /\ (class_of x < class_of y
      \/ (class_of x = class_of y /\ (value_of x < value_of y)%Q)).

(** A finite number that is at least 2^-1018: the products of such a
    number with the bounds 0.2 ... 0.8 are normal numbers. *)
Definition ordinary (x : float) : Prop :=
  (0x1p-1018 <=? x)%float = true /\ (x <? infinity)%float = true.

(** The number is finite, not negative, and its value is the integer
    [n]. *)
Definition nat_valued (x : float) (n : Z) : Prop :=
  num_le 0 x /\ class_of x = 0 /\ (value_of x == inject_Z n)%Q.

(** * Properties of the arithmetic of numbers

    The operations on [float] are specified (FloatAxioms) by the
    functions of SpecFloat on mantissas and exponents.  This part
    relates those functions to exact rational values: a result is the
    exact value rounded to the nearest float, rounding is monotone, and
    the comparisons are those of the values. *)

(** ** Powers of two *)

Lemma pow2_pos (e : Z) : (0 < pow2 e)%Q.
Proof. apply Qpower_0_lt. reflexivity. Qed.

Lemma pow2_add (a b : Z) : (pow2 (a + b) == pow2 a * pow2 b)%Q.
Proof. apply Qpower_plus. discriminate. Qed.

Lemma pow2_le (a b : Z) : a <= b -> (pow2 a <= pow2 b)%Q.
Proof. intros H. apply Qpower_le_compat_l; [exact H | discriminate]. Qed.

Lemma pow2_lt (a b : Z) : a < b -> (pow2 a < pow2 b)%Q.
Proof. intros H. apply Qpower_lt_compat_l; [exact H | reflexivity]. Qed.

Lemma pow2_Z (e : Z) : 0 <= e -> (pow2 e == inject_Z (2 ^ e))%Q.
Proof. intros H. unfold pow2. rewrite Zpower_Qpower by exact H. reflexivity. Qed.

Lemma pow2_succ (e : Z) : (pow2 (e + 1) == 2 * pow2 e)%Q.
Proof. rewrite pow2_add. change (pow2 1) with 2%Q. ring. Qed.

Lemma pow2_shift (c k : Z) :
  0 <= k -> (pow2 (c + k) == inject_Z (2 ^ k) * pow2 c)%Q.
Proof. intros H. rewrite pow2_add, (pow2_Z k) by exact H. ring. Qed.

Lemma pow2_0 : (pow2 0 == 1)%Q.
Proof. reflexivity. Qed.

Lemma pow2_sub (a b : Z) : (pow2 (a - b) == pow2 a / pow2 b)%Q.
Proof.
  pose proof (pow2_pos b) as Hb.
  assert (E : (pow2 a == pow2 (a - b) * pow2 b)%Q).
  { rewrite <- pow2_add. replace (a - b + b) with a by lia. reflexivity. }
  rewrite E. field. lra.
Qed.

(** The integer part is determined by two bounds. *)
Lemma Qfloor_unique (q : Q) (z : Z) :
  (inject_Z z <= q)%Q -> (q < inject_Z z + 1)%Q -> Qfloor q = z.
Proof.
  intros Hlo Hhi.
  pose proof (Qfloor_le q) as H1. pose proof (Qlt_floor q) as H2.
  rewrite inject_Z_plus in H2. change (inject_Z 1) with 1%Q in H2.
  assert (A : (inject_Z z < inject_Z (Qfloor q) + 1)%Q) by lra.
  assert (B : (inject_Z (Qfloor q) < inject_Z z + 1)%Q) by lra.
  change 1%Q with (inject_Z 1) in A, B.
  rewrite <- inject_Z_plus in A, B. rewrite <- Zlt_Qlt in A, B. lia.
Qed.

(** Turn the result of a comparison into the relation it decides. *)
Ltac qcmp :=
  repeat match goal with
  | H : (_ ?= _)%Q = Lt |- _ => apply <- Qlt_alt in H
  | H : (_ ?= _)%Q = Gt |- _ => apply <- Qgt_alt in H
  | H : (_ ?= _)%Q = Eq |- _ => apply <- Qeq_alt in H
  end.

(** Split the conjunctions among the hypotheses and evaluate the
    injected constants. *)
Ltac qsplit :=
  repeat match goal with
  | H : _ /\ _ |- _ => destruct H
  end;
  change (inject_Z 0) with 0%Q in *;
  change (inject_Z 1) with 1%Q in *;
  change (inject_Z 2) with 2%Q in *.

Lemma rne_comp (q q' : Q) : (q == q')%Q -> rne q = rne q'.
Proof.
  intros H. unfold rne. rewrite (Qfloor_comp q q' H).
  assert (E : (q - inject_Z (Qfloor q') == q' - inject_Z (Qfloor q'))%Q) by lra.
  rewrite (Qcompare_comp _ _ E _ _ (Qeq_refl (1 # 2))). reflexivity.
Qed.

Lemma rne_Z (z : Z) : rne (inject_Z z) = z.
Proof.
  unfold rne. rewrite Qfloor_Z.
  assert (E : (inject_Z z - inject_Z z ?= 1 # 2)%Q = Lt).
  { rewrite <- Qlt_alt. lra. }
  rewrite E. reflexivity.
Qed.

Lemma rne_floor (q : Q) : Qfloor q <= rne q <= Qfloor q + 1.
Proof.
  unfold rne. destruct (q - inject_Z (Qfloor q) ?= 1 # 2)%Q;
    [destruct (Z.even (Qfloor q)) | |]; lia.
Qed.

Lemma rne_mono (p q : Q) : (p <= q)%Q -> rne p <= rne q.
Proof.
  intros H. pose proof (Qfloor_resp_le _ _ H) as Hf.
  destruct (Z.eq_dec (Qfloor p) (Qfloor q)) as [E | NE].
  - unfold rne. rewrite E.
    destruct (q - inject_Z (Qfloor q) ?= 1 # 2)%Q eqn:Cq;
      destruct (p - inject_Z (Qfloor q) ?= 1 # 2)%Q eqn:Cp;
      try destruct (Z.even (Qfloor q)); try lia; exfalso; qcmp; lra.
  - pose proof (rne_floor p). pose proof (rne_floor q). lia.
Qed.

(** ** The number of binary digits *)

Lemma digits2_pos_size (p : positive) : digits2_pos p = Pos.size p.
Proof. induction p; cbn; congruence. Qed.

Lemma Zdigits2_bounds (m : Z) :
  0 < m -> 2 ^ (Zdigits2 m - 1) <= m < 2 ^ Zdigits2 m.
Proof.
  destruct m as [|p|p]; try lia. intros _. cbn [Zdigits2].
  rewrite digits2_pos_size.
  pose proof (Pos.size_gt p) as Hgt. pose proof (Pos.size_le p) as Hle.
  split.
  - apply Pos2Z.pos_le_pos in Hle. rewrite Pos2Z.inj_pow in Hle.
    change (Z.pos p~0) with (2 * Z.pos p) in Hle.
    replace (Z.pos (Pos.size p)) with (Z.pos (Pos.size p) - 1 + 1) in Hle by lia.
    rewrite Z.pow_add_r in Hle by lia. lia.
  - apply Pos2Z.pos_lt_pos in Hgt. rewrite Pos2Z.inj_pow in Hgt. exact Hgt.
Qed.

Lemma Zdigits2_nonneg (m : Z) : 0 <= Zdigits2 m.
Proof. destruct m; cbn; lia. Qed.

Lemma Zdigits2_le (m k : Z) : 0 <= k -> 0 <= m < 2 ^ k -> Zdigits2 m <= k.
Proof.
  intros Hk [Hm Hlt]. destruct (Z.eq_dec m 0) as [-> | Hne]; [cbn; lia |].
  pose proof (Zdigits2_bounds m ltac:(lia)) as [Hlo _].
  destruct (Z_le_gt_dec (Zdigits2 m) k) as [|Hgt]; [assumption | exfalso].
  assert (2 ^ k <= 2 ^ (Zdigits2 m - 1)) by (apply Z.pow_le_mono_r; lia).
  lia.
Qed.

Lemma Zdigits2_ge (m k : Z) : 0 <= k -> 2 ^ k <= m -> k + 1 <= Zdigits2 m.
Proof.
  intros Hk Hle.
  assert (0 < m) by (pose proof (Z.pow_pos_nonneg 2 k); lia).
  pose proof (Zdigits2_bounds m ltac:(lia)) as [_ Hhi].
  pose proof (Zdigits2_nonneg m).
  destruct (Z_le_gt_dec (k + 1) (Zdigits2 m)) as [|Hgt]; [assumption | exfalso].
  assert (2 ^ Zdigits2 m <= 2 ^ k) by (apply Z.pow_le_mono_r; lia).
  lia.
Qed.

(** ** Shifting a mantissa to the right *)

Lemma inbetween_bounds (m e : Z) (l : location) (x : Q) :
  inbetween m e l x ->
  (inject_Z m * pow2 e <= x)%Q /\ (x < (inject_Z m + 1) * pow2 e)%Q.
Proof.
  pose proof (pow2_pos e) as HP.
  destruct l as [|[| |]]; cbn; intros H; split; lra.
Qed.

Lemma loc_of_shr_record_of_loc (m : Z) (l : location) :
  loc_of_shr_record (shr_record_of_loc m l) = l.
Proof. destruct l as [|[| |]]; reflexivity. Qed.

Lemma shr_m_of_loc (m : Z) (l : location) : shr_m (shr_record_of_loc m l) = m.
Proof. destruct l as [|[| |]]; reflexivity. Qed.

Lemma shr_1_nonneg (m : Z) (r s : bool) :
  0 <= m ->
  shr_1 {| shr_m := m; shr_r := r; shr_s := s |}
  = {| shr_m := Z.div2 m; shr_r := Z.odd m; shr_s := r || s |}.
Proof. destruct m as [|[p|p|]|p]; intros H; try reflexivity; lia. Qed.

Lemma inbetween_shr_1 (mrs : shr_record) (e : Z) (x : Q) :
  0 <= shr_m mrs ->
  inbetween (shr_m mrs) e (loc_of_shr_record mrs) x ->
  0 <= shr_m (shr_1 mrs)
  /\ inbetween (shr_m (shr_1 mrs)) (e + 1) (loc_of_shr_record (shr_1 mrs)) x.
Proof.
  destruct mrs as [m r s]. cbn [shr_m]. intros Hm Hx.
  rewrite shr_1_nonneg by exact Hm. cbn [shr_m].
  pose proof (Z.div2_odd m) as Hdiv.
  split; [rewrite Z.div2_div; apply Z.div_pos; lia |].
  pose proof (pow2_pos e) as HP. pose proof (pow2_succ e) as HS.
  assert (Em : (inject_Z m
                == 2 * inject_Z (Z.div2 m) + inject_Z (Z.b2z (Z.odd m)))%Q).
  { rewrite Hdiv at 1. rewrite inject_Z_plus, inject_Z_mult. reflexivity. }
  destruct r, s, (Z.odd m); cbn in Hx, Em |- *; rewrite ?HS;
    rewrite Em in Hx; qsplit; repeat split; lra.
Qed.

Lemma inbetween_iter_shr_1 (p : positive) :
  forall (mrs : shr_record) (e : Z) (x : Q),
    0 <= shr_m mrs ->
    inbetween (shr_m mrs) e (loc_of_shr_record mrs) x ->
    0 <= shr_m (SpecFloat.iter_pos shr_1 p mrs)
    /\ inbetween (shr_m (SpecFloat.iter_pos shr_1 p mrs)) (e + Z.pos p)
         (loc_of_shr_record (SpecFloat.iter_pos shr_1 p mrs)) x.
Proof.
  induction p as [p IH | p IH |]; intros mrs e x Hm Hx; cbn [SpecFloat.iter_pos].
  - destruct (inbetween_shr_1 mrs e x Hm Hx) as [H0 H1].
    destruct (IH _ _ _ H0 H1) as [H2 H3].
    destruct (IH _ _ _ H2 H3) as [H4 H5].
    split; [exact H4 |].
    replace (e + Z.pos p~1) with (e + 1 + Z.pos p + Z.pos p) by lia. exact H5.
  - destruct (IH _ _ _ Hm Hx) as [H2 H3].
    destruct (IH _ _ _ H2 H3) as [H4 H5].
    split; [exact H4 |].
    replace (e + Z.pos p~0) with (e + Z.pos p + Z.pos p) by lia. exact H5.
  - apply inbetween_shr_1; assumption.
Qed.

Lemma shr_fexp_spec (m e : Z) (l : location) (x : Q) :
  0 <= m ->
  inbetween m e l x ->
  e <= fexp prec emax (Zdigits2 m + e) ->
  let c := fexp prec emax (Zdigits2 m + e) in
  let mrs := fst (shr_fexp prec emax m e l) in
  snd (shr_fexp prec emax m e l) = c
  /\ 0 <= shr_m mrs
  /\ inbetween (shr_m mrs) c (loc_of_shr_record mrs) x.
Proof.
  intros Hm Hx Hle c mrs. subst mrs. unfold shr_fexp, shr. fold c.
  destruct (c - e) as [|p|p] eqn:En; try lia; cbn [fst snd].
  - replace c with e by lia.
    rewrite shr_m_of_loc, loc_of_shr_record_of_loc. auto.
  - split; [lia |].
    replace c with (e + Z.pos p) by lia.
    apply inbetween_iter_shr_1;
      rewrite ?shr_m_of_loc, ?loc_of_shr_record_of_loc; assumption.
Qed.

Lemma round_nearest_even_spec (m c : Z) (l : location) (x : Q) :
  inbetween m c l x ->
  round_nearest_even m l = rne (x / pow2 c).
Proof.
  intros Hx. pose proof (pow2_pos c) as HP.
  remember (x / pow2 c)%Q as y eqn:Dy.
  assert (Ey : (x == y * pow2 c)%Q) by (subst y; field; lra).
  clear Dy. unfold rne. cbv zeta.
  destruct l as [|[| |]]; cbn in Hx; cbn [round_nearest_even]; qsplit.
  - assert (E : (y == inject_Z m)%Q) by nra.
    rewrite (Qfloor_comp _ _ E), Qfloor_Z.
    assert (C : (y - inject_Z m ?= 1 # 2)%Q = Lt) by (rewrite <- Qlt_alt; lra).
    rewrite C. reflexivity.
  - assert (E : (y == inject_Z m + (1 # 2))%Q) by nra.
    assert (F : Qfloor y = m) by (apply Qfloor_unique; lra).
    rewrite F.
    assert (C : (y - inject_Z m ?= 1 # 2)%Q = Eq) by (rewrite <- Qeq_alt; lra).
    rewrite C. reflexivity.
  - assert (F : Qfloor y = m) by (apply Qfloor_unique; nra).
    rewrite F.
    assert (C : (y - inject_Z m ?= 1 # 2)%Q = Lt) by (rewrite <- Qlt_alt; nra).
    rewrite C. reflexivity.
  - assert (F : Qfloor y = m) by (apply Qfloor_unique; nra).
    rewrite F.
    assert (C : (y - inject_Z m ?= 1 # 2)%Q = Gt) by (rewrite <- Qgt_alt; nra).
    rewrite C. reflexivity.
Qed.

(** ** Rounding a mantissa to the format *)

Lemma fexp_eq (e : Z) : fexp prec emax e = Z.max (e - 53) (-1074).
Proof. reflexivity. Qed.

Lemma inject_Z_pow2 (k : Z) : 0 <= k -> (inject_Z (2 ^ k) == pow2 k)%Q.
Proof. intros H. symmetry. apply pow2_Z. exact H. Qed.

(** An exact value below [2^mu] has fewer than [2^53] units of the
    exponent chosen for [mu]. *)
Lemma scaled_lt (x : Q) (mu : Z) :
  (x < pow2 mu)%Q -> (x / pow2 (fexp prec emax mu) < inject_Z (2 ^ 53))%Q.
Proof.
  intros Hx. set (c := fexp prec emax mu).
  pose proof (pow2_pos c) as HP.
  assert (Hc : mu <= c + 53) by (unfold c; rewrite fexp_eq; lia).
  pose proof (pow2_le _ _ Hc) as Hle. rewrite pow2_add in Hle.
  rewrite inject_Z_pow2 by lia.
  apply Qlt_shift_div_r; [exact HP |]. lra.
Qed.

Lemma mantissa_lt_pow2 (m : Z) :
  0 <= m -> (inject_Z m + 1 <= pow2 (Zdigits2 m))%Q.
Proof.
  intros Hm. pose proof (Zdigits2_nonneg m) as Hd.
  rewrite <- inject_Z_pow2 by exact Hd.
  change 1%Q with (inject_Z 1). rewrite <- inject_Z_plus, <- Zle_Qle.
  destruct (Z.eq_dec m 0) as [-> | Hne]; [cbn; lia |].
  pose proof (Zdigits2_bounds m ltac:(lia)). lia.
Qed.

Lemma inbetween_lt_pow2 (m e : Z) (l : location) (x : Q) :
  0 <= m -> inbetween m e l x -> (x < pow2 (Zdigits2 m + e))%Q.
Proof.
  intros Hm Hx. apply inbetween_bounds in Hx. destruct Hx as [_ Hx].
  pose proof (mantissa_lt_pow2 m Hm) as Hd. pose proof (pow2_pos e) as HP.
  rewrite pow2_add.
  assert ((inject_Z m + 1) * pow2 e <= pow2 (Zdigits2 m) * pow2 e)%Q
    by (apply Qmult_le_compat_r; lra).
  lra.
Qed.

Theorem binary_round_aux_spec (s : bool) (m e : Z) (l : location) (x : Q) :
  0 <= m ->
  inbetween m e l x ->
  e <= fexp prec emax (Zdigits2 m + e) ->
  let c := fexp prec emax (Zdigits2 m + e) in
  binary_round_aux prec emax s m e l = round_pack s (rne (x / pow2 c)) c.
Proof.
  intros Hm Hx Hle c.
  destruct (shr_fexp_spec m e l x Hm Hx Hle) as (He' & Hm' & Hx'). fold c in He', Hx'.
  unfold binary_round_aux.
  destruct (shr_fexp prec emax m e l) as [mrs' e'] eqn:E1.
  cbn [fst snd] in He', Hm', Hx'. subst e'.
  rewrite (round_nearest_even_spec _ c _ x Hx').
  pose proof (pow2_pos c) as HP.
  assert (Hy0 : (0 <= x / pow2 c)%Q).
  { apply Qle_shift_div_l; [exact HP |].
    apply inbetween_bounds in Hx. destruct Hx as [Hx _].
    assert (0 <= inject_Z m * pow2 e)%Q.
    { apply Qmult_le_0_compat.
      - change 0%Q with (inject_Z 0). rewrite <- Zle_Qle. lia.
      - apply Qlt_le_weak, pow2_pos. }
    lra. }
  assert (Hy1 : (x / pow2 c < inject_Z (2 ^ 53))%Q).
  { apply scaled_lt. apply (inbetween_lt_pow2 m e l); assumption. }
  set (N := rne (x / pow2 c)).
  assert (HN0 : 0 <= N).
  { rewrite <- (rne_Z 0). apply rne_mono. exact Hy0. }
  assert (HN1 : N <= 2 ^ 53).
  { rewrite <- (rne_Z (2 ^ 53)). apply rne_mono. lra. }
  assert (Hc : -1074 <= c) by (unfold c; rewrite fexp_eq; lia).
  unfold shr_fexp, shr. rewrite fexp_eq.
  destruct (Z.eq_dec N (2 ^ 53)) as [EN | NN].
  - rewrite EN.
    replace (Z.max (Zdigits2 (2 ^ 53) + c - 53) (-1074) - c) with 1
      by (change (Zdigits2 (2 ^ 53)) with 54; lia).
    cbn [shr_record_of_loc SpecFloat.iter_pos shr_1 shr_m].
    change (2 ^ 53) with 9007199254740992. cbn [shr_m round_pack].
    replace (c + 1 <=? emax - prec) with (c + 1 <=? 971) by reflexivity.
    reflexivity.
  - assert (Hd : Zdigits2 N <= 53) by (apply Zdigits2_le; lia).
    destruct (Z.max (Zdigits2 N + c - 53) (-1074) - c) as [|p|p] eqn:En; try lia;
      cbn [shr_record_of_loc shr_m];
      (destruct N as [|p'|p'] eqn:EqN; [reflexivity | | lia]);
      cbn [round_pack]; rewrite <- EqN;
      replace (N <? 2 ^ 53) with true by (symmetry; apply Z.ltb_lt; lia);
      reflexivity.
Qed.

(** ** Rounding is monotone *)

Lemma inbetween_grid (m e : Z) (l : location) (x : Q) :
  0 <= m ->
  inbetween m e l x ->
  e <= fexp prec emax (Zdigits2 m + e) ->
  grid (Zdigits2 m + e) x.
Proof.
  intros Hm Hx Hle. pose proof (pow2_pos e) as HP.
  assert (Hlo := inbetween_bounds _ _ _ _ Hx). destruct Hlo as [Hlo _].
  assert (H0 : (0 <= inject_Z m * pow2 e)%Q).
  { apply Qmult_le_0_compat; [| lra].
    change 0%Q with (inject_Z 0). rewrite <- Zle_Qle. lia. }
  split; [lra |]. split; [apply (inbetween_lt_pow2 m e l); assumption |].
  destruct (Z.eq_dec m 0) as [-> | Hne].
  - right. cbn [Zdigits2] in Hle |- *. rewrite fexp_eq in Hle. lia.
  - left. pose proof (Zdigits2_bounds m ltac:(lia)) as [Hd _].
    pose proof (Zdigits2_ge m 0 ltac:(lia) ltac:(lia)) as Hd1.
    replace (Zdigits2 m + e - 1) with (Zdigits2 m - 1 + e) by lia.
    rewrite pow2_add, <- inject_Z_pow2 by lia.
    assert (inject_Z (2 ^ (Zdigits2 m - 1)) <= inject_Z m)%Q
      by (rewrite <- Zle_Qle; exact Hd).
    assert (inject_Z (2 ^ (Zdigits2 m - 1)) * pow2 e <= inject_Z m * pow2 e)%Q
      by (apply Qmult_le_compat_r; lra).
    lra.
Qed.

(** The mantissa of a rounded value. *)
Lemma grid_mantissa (mu : Z) (x : Q) :
  grid mu x ->
  let c := fexp prec emax mu in
  let N := rne (x / pow2 c) in
  -1074 <= c /\ 0 <= N <= 2 ^ 53 /\ (-1074 < c -> 2 ^ 52 <= N).
Proof.
  intros (H0 & H1 & H2) c N. pose proof (pow2_pos c) as HP.
  assert (Hc : -1074 <= c) by (unfold c; rewrite fexp_eq; lia).
  split; [exact Hc |]. split; [split |].
  - rewrite <- (rne_Z 0). apply rne_mono.
    apply Qle_shift_div_l; [exact HP | qsplit; lra].
  - rewrite <- (rne_Z (2 ^ 53)). apply rne_mono.
    apply Qlt_le_weak, scaled_lt. exact H1.
  - intros Hn. rewrite <- (rne_Z (2 ^ 52)). apply rne_mono.
    destruct H2 as [H2 | H2]; [| unfold c in Hn; rewrite fexp_eq in Hn; lia].
    apply Qle_shift_div_l; [exact HP |].
    assert (E : mu - 1 = c + 52) by (unfold c in *; rewrite fexp_eq in *; lia).
    rewrite E in H2. pose proof (pow2_shift c 52 ltac:(lia)). lra.
Qed.

Lemma rne_scaled_pow2 (k c : Z) :
  c <= k -> rne (pow2 k / pow2 c) = 2 ^ (k - c).
Proof.
  intros H. rewrite <- (rne_Z (2 ^ (k - c))). apply rne_comp.
  rewrite inject_Z_pow2 by lia. rewrite pow2_sub. reflexivity.
Qed.

Theorem round_mono (mu1 mu2 : Z) (x1 x2 : Q) :
  grid mu1 x1 -> grid mu2 x2 -> (x1 <= x2)%Q ->
  let c1 := fexp prec emax mu1 in
  let c2 := fexp prec emax mu2 in
  (inject_Z (rne (x1 / pow2 c1)) * pow2 c1
   <= inject_Z (rne (x2 / pow2 c2)) * pow2 c2)%Q.
Proof.
  intros G1 G2 Hle c1 c2.
  assert (Ec1 : c1 = Z.max (mu1 - 53) (-1074)) by apply fexp_eq.
  assert (Ec2 : c2 = Z.max (mu2 - 53) (-1074)) by apply fexp_eq.
  clearbody c1 c2.
  pose proof (pow2_pos c1) as HP1. pose proof (pow2_pos c2) as HP2.
  destruct G1 as (H10 & H11 & H12). destruct G2 as (H20 & H21 & H22).
  destruct (Z.lt_total c1 c2) as [Hlt | [Heq | Hgt]].
  - (* a power of two lies between the two values *)
    assert (E2 : mu2 - 1 = c2 + 52) by lia.
    assert (Hmu1 : mu1 <= c2 + 52) by lia.
    destruct H22 as [H22 | H22]; [| lia].
    rewrite E2 in H22.
    pose proof (pow2_le _ _ Hmu1) as HB.
    apply Qle_trans with (pow2 (c2 + 52)).
    + assert (Hr : rne (x1 / pow2 c1) <= 2 ^ (c2 + 52 - c1)).
      { rewrite <- rne_scaled_pow2 by lia. apply rne_mono.
        apply Qmult_le_compat_r; [lra |].
        apply Qlt_le_weak, Qinv_lt_0_compat. exact HP1. }
      rewrite Zle_Qle in Hr. rewrite inject_Z_pow2 in Hr by lia.
      rewrite pow2_sub in Hr.
      apply Qmult_le_compat_r with (z := pow2 c1) in Hr; [| lra].
      assert (E : (pow2 (c2 + 52) / pow2 c1 * pow2 c1 == pow2 (c2 + 52))%Q)
        by (field; lra).
      rewrite E in Hr. exact Hr.
    + pose proof (pow2_shift c2 52 ltac:(lia)) as E.
      assert (Hr : 2 ^ 52 <= rne (x2 / pow2 c2)).
      { rewrite <- (rne_Z (2 ^ 52)). apply rne_mono.
        apply Qle_shift_div_l; [exact HP2 | lra]. }
      rewrite Zle_Qle in Hr.
      apply Qmult_le_compat_r with (z := pow2 c2) in Hr; lra.
  - rewrite Heq. apply Qmult_le_compat_r; [| lra].
    rewrite <- Zle_Qle. apply rne_mono.
    apply Qmult_le_compat_r; [exact Hle |].
    apply Qlt_le_weak, Qinv_lt_0_compat. exact HP2.
  - (* impossible: the larger value has the larger exponent *)
    exfalso.
    assert (E1 : mu1 - 1 = c1 + 52) by lia.
    assert (Hmu2 : mu2 <= mu1 - 1) by lia.
    destruct H12 as [H12 | H12]; [| lia].
    pose proof (pow2_le _ _ Hmu2). lra.
Qed.

(** ** Order of canonical representations *)

Lemma canonical_lt (N1 c1 N2 c2 : Z) :
  canonical N1 c1 -> canonical N2 c2 -> c1 < c2 ->
  (inject_Z N1 * pow2 c1 < inject_Z N2 * pow2 c2)%Q.
Proof.
  intros ([_ H1] & Hc1 & _) (_ & _ & H2) Hlt.
  specialize (H2 ltac:(lia)).
  pose proof (pow2_pos c1) as HP1. pose proof (pow2_pos c2) as HP2.
  assert (A : (inject_Z N1 * pow2 c1 < pow2 (c1 + 53))%Q).
  { rewrite (pow2_shift c1 53) by lia.
    apply Qmult_lt_compat_r; [exact HP1 |]. rewrite <- Zlt_Qlt. exact H1. }
  assert (B : (pow2 (c2 + 52) <= inject_Z N2 * pow2 c2)%Q).
  { rewrite (pow2_shift c2 52) by lia.
    apply Qmult_le_compat_r; [| lra]. rewrite <- Zle_Qle. exact H2. }
  assert (C : (pow2 (c1 + 53) <= pow2 (c2 + 52))%Q) by (apply pow2_le; lia).
  lra.
Qed.

Lemma scaled_compare (N1 N2 c : Z) :
  (inject_Z N1 * pow2 c ?= inject_Z N2 * pow2 c)%Q = (N1 ?= N2).
Proof.
  pose proof (pow2_pos c) as HP.
  destruct (Z.compare_spec N1 N2) as [E | L | G].
  - subst. rewrite <- Qeq_alt. reflexivity.
  - rewrite <- Qlt_alt. apply Qmult_lt_compat_r; [exact HP |].
    rewrite <- Zlt_Qlt. exact L.
  - rewrite <- Qgt_alt. apply Qmult_lt_compat_r; [exact HP |].
    rewrite <- Zlt_Qlt. exact G.
Qed.

(** The order of two canonical representations is the order of the
    values: exponents first, then mantissas. *)
Lemma canonical_compare (p1 p2 : positive) (c1 c2 : Z) :
  canonical (Z.pos p1) c1 -> canonical (Z.pos p2) c2 ->
  match c1 ?= c2 with
  | Lt => Lt
  | Gt => Gt
  | Eq => Pos.compare_cont Eq p1 p2
  end
  = (inject_Z (Z.pos p1) * pow2 c1 ?= inject_Z (Z.pos p2) * pow2 c2)%Q.
Proof.
  intros K1 K2. symmetry.
  destruct (Z.compare_spec c1 c2) as [E | L | G].
  - subst. rewrite scaled_compare. reflexivity.
  - rewrite <- Qlt_alt. apply canonical_lt; assumption.
  - rewrite <- Qgt_alt. apply canonical_lt; assumption.
Qed.

Lemma bounded_canonical (m : positive) (e : Z) :
  bounded prec emax m e = true -> canonical (Z.pos m) e /\ e <= 971.
Proof.
  unfold bounded, canonical_mantissa. rewrite andb_true_iff, Z.eqb_eq, Z.leb_le.
  rewrite fexp_eq. change (emax - prec) with 971.
  change (Z.pos (digits2_pos m)) with (Zdigits2 (Z.pos m)).
  intros [Hc He].
  pose proof (Zdigits2_bounds (Z.pos m) ltac:(lia)) as [Hlo Hhi].
  pose proof (Zdigits2_ge (Z.pos m) 0 ltac:(lia) ltac:(lia)) as Hd.
  repeat split; try lia.
  - assert (2 ^ Zdigits2 (Z.pos m) <= 2 ^ 53) by (apply Z.pow_le_mono_r; lia). lia.
  - intros Hn. replace (Zdigits2 (Z.pos m)) with 53 in Hlo by lia. exact Hlo.
Qed.

(** ** Values *)

Lemma mantissa_pos (m : positive) (e : Z) : (0 < inject_Z (Z.pos m) * pow2 e)%Q.
Proof.
  apply Qmult_lt_0_compat; [| apply pow2_pos].
  change 0%Q with (inject_Z 0). rewrite <- Zlt_Qlt. lia.
Qed.

(** On finite floats the comparison is the comparison of values. *)
Theorem SFcompare_value (a b : spec_float) :
  valid_binary a = true -> valid_binary b = true ->
  SFfinite a = true -> SFfinite b = true ->
  SFcompare a b = Some (SF2Q a ?= SF2Q b)%Q.
Proof.
  intros Va Vb Fa Fb.
  destruct a as [sa | | | sa ma ea]; try discriminate;
    destruct b as [sb | | | sb mb eb]; try discriminate;
    cbn [SFcompare SF2Q valid_binary] in *.
  - reflexivity.
  - pose proof (mantissa_pos mb eb). f_equal. symmetry.
    destruct sb; [rewrite <- Qgt_alt | rewrite <- Qlt_alt]; lra.
  - pose proof (mantissa_pos ma ea). f_equal. symmetry.
    destruct sa; [rewrite <- Qlt_alt | rewrite <- Qgt_alt]; lra.
  - pose proof (mantissa_pos ma ea). pose proof (mantissa_pos mb eb).
    destruct (bounded_canonical _ _ Va) as [Ka _].
    destruct (bounded_canonical _ _ Vb) as [Kb _].
    f_equal. destruct sa, sb.
    + pose proof (canonical_compare _ _ _ _ Ka Kb) as E. symmetry in E.
      destruct (ea ?= eb); [ | symmetry; qcmp; rewrite <- Qgt_alt; lra
                             | symmetry; qcmp; rewrite <- Qlt_alt; lra ].
      destruct (Pos.compare_cont Eq ma mb); cbn [CompOpp]; symmetry; qcmp;
        [rewrite <- Qeq_alt | rewrite <- Qgt_alt | rewrite <- Qlt_alt]; lra.
    + symmetry. rewrite <- Qlt_alt. lra.
    + symmetry. rewrite <- Qgt_alt. lra.
    + apply canonical_compare; assumption.
Qed.

(** ** Correctly rounded results *)

Lemma rounded_comp (s : bool) (r : spec_float) (x y : Q) :
  (x == y)%Q -> rounded s r x -> rounded s r y.
Proof.
  intros E (mu & (G0 & G1 & G2) & ->). exists mu. split.
  - repeat split; try lra. destruct G2 as [G2 | G2]; [left; lra | right; exact G2].
  - f_equal. apply rne_comp. rewrite E. reflexivity.
Qed.

Lemma binary_round_aux_rounded (s : bool) (m e : Z) (l : location) (x : Q) :
  0 <= m ->
  inbetween m e l x ->
  e <= fexp prec emax (Zdigits2 m + e) ->
  rounded s (binary_round_aux prec emax s m e l) x.
Proof.
  intros Hm Hx Hle. exists (Zdigits2 m + e). split.
  - apply (inbetween_grid m e l); assumption.
  - apply binary_round_aux_spec; assumption.
Qed.

(** What [round_pack] builds. *)
Lemma round_pack_cases (s : bool) (N c : Z) :
  -1074 <= c -> 0 <= N <= 2 ^ 53 -> (-1074 < c -> 2 ^ 52 <= N) ->
  (N = 0 /\ round_pack s N c = S754_zero s)
  \/ (exists p c',
        canonical (Z.pos p) c'
        /\ (inject_Z (Z.pos p) * pow2 c' == inject_Z N * pow2 c)%Q
        /\ round_pack s N c
           = if c' <=? 971 then S754_finite s p c' else S754_infinity s).
Proof.
  intros Hc HN Hn.
  destruct (Z.eq_dec N 0) as [-> | N0]; [left; split; reflexivity | right].
  destruct (Z.eq_dec N (2 ^ 53)) as [-> | N1].
  - exists 4503599627370496%positive, (c + 1). split; [| split].
    + unfold canonical. change (2 ^ 53) with 9007199254740992.
      change (2 ^ 52) with 4503599627370496. lia.
    + rewrite pow2_succ. change (2 ^ 53) with (2 * 4503599627370496).
      rewrite inject_Z_mult. ring.
    + reflexivity.
  - destruct N as [|p|p]; try lia. exists p, c. split; [| split].
    + unfold canonical. lia.
    + reflexivity.
    + cbn [round_pack].
      replace (Z.pos p <? 2 ^ 53) with true by (symmetry; apply Z.ltb_lt; lia).
      reflexivity.
Qed.

(** A rounded magnitude: the rounded value [v], and the float that
    carries it. *)
Lemma rounded_inv (s : bool) (r : spec_float) (x : Q) :
  rounded s r x ->
  exists mu,
    grid mu x
    /\ ((rne (x / pow2 (fexp prec emax mu)) = 0 /\ r = S754_zero s)
        \/ exists p c,
             canonical (Z.pos p) c
             /\ (inject_Z (Z.pos p) * pow2 c
                 == inject_Z (rne (x / pow2 (fexp prec emax mu)))
                    * pow2 (fexp prec emax mu))%Q
             /\ r = if c <=? 971 then S754_finite s p c else S754_infinity s).
Proof.
  intros (mu & G & ->). exists mu. split; [exact G |].
  destruct (grid_mantissa mu x G) as (Hc & HN & Hn).
  apply round_pack_cases; assumption.
Qed.

(** Rounding preserves the order. *)
Theorem rounded_le (r1 r2 : spec_float) (x1 x2 : Q) :
  rounded false r1 x1 -> rounded false r2 x2 -> (x1 <= x2)%Q ->
  SFleb r1 r2 = true.
Proof.
  intros R1 R2 Hle.
  destruct (rounded_inv _ _ _ R1) as (mu1 & G1 & C1).
  destruct (rounded_inv _ _ _ R2) as (mu2 & G2 & C2).
  pose proof (round_mono mu1 mu2 x1 x2 G1 G2 Hle) as Hv. cbv zeta in Hv.
  destruct C1 as [[N1 ->] | (p1 & c1 & K1 & V1 & ->)];
    destruct C2 as [[N2 ->] | (p2 & c2 & K2 & V2 & ->)].
  - reflexivity.
  - destruct (c2 <=? 971); reflexivity.
  - exfalso. rewrite N2, <- V1 in Hv. pose proof (mantissa_pos p1 c1).
    change (inject_Z 0) with 0%Q in Hv. lra.
  - rewrite <- V1, <- V2 in Hv.
    pose proof (canonical_compare _ _ _ _ K1 K2) as E.
    destruct (c1 <=? 971) eqn:B1; destruct (c2 <=? 971) eqn:B2;
      unfold SFleb; cbn [SFcompare]; try reflexivity.
    + rewrite E.
      destruct (inject_Z (Z.pos p1) * pow2 c1 ?= inject_Z (Z.pos p2) * pow2 c2)%Q
        eqn:C; try reflexivity.
      exfalso. qcmp. lra.
    + exfalso. apply Z.leb_gt in B1. apply Z.leb_le in B2.
      pose proof (canonical_lt _ _ _ _ K2 K1 ltac:(lia)). lra.
Qed.

(** A float of the format is its own rounding. *)
Lemma rounded_id (s : bool) (m : positive) (e : Z) :
  bounded prec emax m e = true ->
  rounded s (S754_finite s m e) (inject_Z (Z.pos m) * pow2 e).
Proof.
  intros B. destruct (bounded_canonical _ _ B) as [K He].
  pose proof B as B'. unfold bounded, canonical_mantissa in B'.
  rewrite andb_true_iff, Z.eqb_eq in B'. destruct B' as [Hc _].
  change (Z.pos (digits2_pos m)) with (Zdigits2 (Z.pos m)) in Hc.
  exists (Zdigits2 (Z.pos m) + e). split.
  - apply (inbetween_grid (Z.pos m) e loc_Exact); [lia | reflexivity | lia].
  - rewrite Hc.
    assert (E : rne (inject_Z (Z.pos m) * pow2 e / pow2 e) = Z.pos m).
    { rewrite <- (rne_Z (Z.pos m)) at 2. apply rne_comp.
      pose proof (pow2_pos e). field. lra. }
    rewrite E. cbn [round_pack]. destruct K as ([_ K] & _).
    replace (Z.pos m <? 2 ^ 53) with true by (symmetry; apply Z.ltb_lt; lia).
    replace (e <=? 971) with true by (symmetry; apply Z.leb_le; lia).
    reflexivity.
Qed.

Lemma rounded_zero (s : bool) : rounded s (S754_zero s) 0.
Proof.
  exists (-1074). split.
  - split; [lra |]. split; [apply pow2_pos | right; lia].
  - reflexivity.
Qed.

(** ** The operations *)

Lemma inject_Z_pos_mul (a b : positive) :
  (inject_Z (Z.pos (a * b)) == inject_Z (Z.pos a) * inject_Z (Z.pos b))%Q.
Proof. rewrite Pos2Z.inj_mul, inject_Z_mult. reflexivity. Qed.

(** The product of two floats of the format has enough digits. *)
Lemma mul_shift_ok (mx my : positive) (ex ey : Z) :
  bounded prec emax mx ex = true -> bounded prec emax my ey = true ->
  ex + ey <= fexp prec emax (Zdigits2 (Z.pos (mx * my)) + (ex + ey)).
Proof.
  intros Bx By. rewrite fexp_eq.
  destruct (bounded_canonical _ _ Bx) as [([_ Hx1] & Hx2 & Hx3) _].
  destruct (bounded_canonical _ _ By) as [([_ Hy1] & Hy2 & Hy3) _].
  destruct (Z_le_gt_dec (2 ^ 52) (Z.pos (mx * my))) as [Hbig | Hsmall].
  - pose proof (Zdigits2_ge _ 52 ltac:(lia) Hbig). lia.
  - rewrite Pos2Z.inj_mul in Hsmall.
    assert (Z.pos mx < 2 ^ 52) by nia. assert (Z.pos my < 2 ^ 52) by nia.
    lia.
Qed.

Theorem SFmul_rounded (sx sy : bool) (mx my : positive) (ex ey : Z) :
  bounded prec emax mx ex = true -> bounded prec emax my ey = true ->
  rounded (xorb sx sy)
    (SFmul prec emax (S754_finite sx mx ex) (S754_finite sy my ey))
    (inject_Z (Z.pos mx) * pow2 ex * (inject_Z (Z.pos my) * pow2 ey)).
Proof.
  intros Bx By. cbn [SFmul].
  apply binary_round_aux_rounded; [lia | | apply mul_shift_ok; assumption].
  cbn [inbetween]. rewrite inject_Z_pos_mul, pow2_add. ring.
Qed.

(** The quotient computed by the division, and where the exact
    quotient lies. *)
Lemma ratio_bounds (r m : Z) :
  0 <= r < m ->
  (0 <= inject_Z r / inject_Z m)%Q /\ (inject_Z r / inject_Z m < 1)%Q
  /\ (0 < r -> (0 < inject_Z r / inject_Z m)%Q).
Proof.
  intros [H0 H1].
  assert (Hm : (0 < inject_Z m)%Q)
    by (change 0%Q with (inject_Z 0); rewrite <- Zlt_Qlt; lia).
  assert (Hr : (0 <= inject_Z r)%Q)
    by (change 0%Q with (inject_Z 0); rewrite <- Zle_Qle; lia).
  assert (Hrm : (inject_Z r < inject_Z m)%Q) by (rewrite <- Zlt_Qlt; lia).
  split; [apply Qle_shift_div_l; [exact Hm | lra] |].
  split; [apply Qlt_shift_div_r; [exact Hm | lra] |].
  intros Hp. apply Qlt_shift_div_l; [exact Hm |].
  assert (0 < inject_Z r)%Q
    by (change 0%Q with (inject_Z 0); rewrite <- Zlt_Qlt; lia).
  lra.
Qed.

Lemma ratio_compare_half (r m : Z) :
  0 < m -> (inject_Z r / inject_Z m ?= 1 # 2)%Q = (2 * r ?= m).
Proof.
  intros H.
  assert (Hm : (0 < inject_Z m)%Q)
    by (change 0%Q with (inject_Z 0); rewrite <- Zlt_Qlt; lia).
  destruct (Z.compare_spec (2 * r) m) as [C | C | C].
  - rewrite <- Qeq_alt, <- C, inject_Z_mult.
    rewrite <- C, inject_Z_mult in Hm. qsplit. field. lra.
  - rewrite <- Qlt_alt. apply Qlt_shift_div_r; [exact Hm |].
    rewrite Zlt_Qlt, inject_Z_mult in C. qsplit. lra.
  - rewrite <- Qgt_alt. apply Qlt_shift_div_l; [exact Hm |].
    rewrite Zlt_Qlt, inject_Z_mult in C. qsplit. lra.
Qed.

(** Where the remainder [r] of a division by [m2] puts the exact
    quotient. *)
Lemma new_location_spec (m2 r : Z) :
  0 <= r < m2 ->
  let rho := (inject_Z r / inject_Z m2)%Q in
  match new_location m2 r with
  | loc_Exact => (rho == 0)%Q
  | loc_Inexact Lt => (0 < rho)%Q /\ (rho < 1 # 2)%Q
  | loc_Inexact Eq => (rho == 1 # 2)%Q
  | loc_Inexact Gt => ((1 # 2) < rho)%Q /\ (rho < 1)%Q
  end.
Proof.
  intros Hr rho.
  destruct (ratio_bounds r m2 Hr) as (B0 & B1 & B2). fold rho in B0, B1, B2.
  pose proof (ratio_compare_half r m2 ltac:(lia)) as Cmp. fold rho in Cmp.
  assert (Hzero : r = 0 -> (rho == 0)%Q)
    by (intros E; unfold rho; rewrite E; reflexivity).
  unfold new_location.
  destruct (Z.even m2) eqn:Ev; unfold new_location_even, new_location_odd;
    (destruct (Z.eqb_spec r 0) as [E | Hne]; [exact (Hzero E) |]);
    specialize (B2 ltac:(lia)).
  - rewrite <- Cmp.
    destruct (rho ?= 1 # 2)%Q eqn:C; qcmp; repeat split; assumption.
  - assert (Hodd : 2 * r <> m2).
    { intros <-. rewrite Z.even_mul in Ev. discriminate. }
    destruct (Z.compare_spec (2 * r + 1) m2) as [C | C | C].
    + assert (C' : (2 * r ?= m2) = Lt) by (apply Z.compare_lt_iff; lia).
      rewrite C' in Cmp. qcmp. split; assumption.
    + assert (C' : (2 * r ?= m2) = Lt) by (apply Z.compare_lt_iff; lia).
      rewrite C' in Cmp. qcmp. split; assumption.
    + assert (C' : (2 * r ?= m2) = Gt) by (apply Z.compare_gt_iff; lia).
      rewrite C' in Cmp. qcmp. split; assumption.
Qed.

Lemma SFdiv_core_binary_spec (m1 m2 e1 e2 : Z) :
  0 < m1 -> 0 < m2 ->
  let x := (inject_Z m1 * pow2 e1 / (inject_Z m2 * pow2 e2))%Q in
  let '(q, e', l) := SFdiv_core_binary prec emax m1 e1 m2 e2 in
  0 <= q /\ inbetween q e' l x /\ e' <= fexp prec emax (Zdigits2 q + e').
Proof.
  intros H1 H2 x. unfold SFdiv_core_binary.
  set (d1 := Zdigits2 m1). set (d2 := Zdigits2 m2).
  set (e' := Z.min (fexp prec emax (d1 + e1 - (d2 + e2))) (e1 - e2)).
  assert (Ee' : e' = Z.min (Z.max (d1 + e1 - (d2 + e2) - 53) (-1074)) (e1 - e2))
    by reflexivity.
  clearbody e'.
  set (s := e1 - e2 - e').
  assert (Es : s = e1 - e2 - e') by reflexivity.
  clearbody s.
  assert (Hs : 0 <= s) by lia.
  set (m' := match s with Z.pos _ => Z.shiftl m1 s | Z0 => m1 | Z.neg _ => 0 end).
  assert (Em' : m' = m1 * 2 ^ s).
  { unfold m'. destruct s as [|p|p]; try lia.
    apply Z.shiftl_mul_pow2. lia. }
  clearbody m'.
  pose proof (Z.pow_pos_nonneg 2 s ltac:(lia) Hs) as Hpow.
  pose proof (Z_div_mod m' m2 ltac:(lia)) as Hdm.
  destruct (Z.div_eucl m' m2) as [q r]. destruct Hdm as [Eq Hr].
  assert (Hq : 0 <= q) by nia.
  split; [exact Hq |].
  pose proof (pow2_pos e1) as HP1. pose proof (pow2_pos e2) as HP2.
  pose proof (pow2_pos e') as HP'.
  assert (Hm1 : (0 < inject_Z m1)%Q)
    by (change 0%Q with (inject_Z 0); rewrite <- Zlt_Qlt; lia).
  assert (Hm2 : (0 < inject_Z m2)%Q)
    by (change 0%Q with (inject_Z 0); rewrite <- Zlt_Qlt; lia).
  set (rho := (inject_Z r / inject_Z m2)%Q).
  assert (Ex : (x == (inject_Z q + rho) * pow2 e')%Q).
  { unfold x, rho.
    assert (Ee : e1 = e' + s + e2) by lia.
    rewrite Ee at 1. rewrite !pow2_add, (pow2_Z s) by exact Hs.
    assert (Em : (inject_Z m1 * inject_Z (2 ^ s)
                  == inject_Z m2 * inject_Z q + inject_Z r)%Q).
    { rewrite <- !inject_Z_mult, <- inject_Z_plus, <- Em', Eq. reflexivity. }
    assert (Eg : (inject_Z m1 * (pow2 e' * inject_Z (2 ^ s) * pow2 e2)
                  == (inject_Z m1 * inject_Z (2 ^ s)) * pow2 e' * pow2 e2)%Q) by ring.
    rewrite Eg, Em. field. lra. }
  split.
  - pose proof (new_location_spec m2 r Hr) as L. cbv zeta in L. fold rho in L.
    destruct (new_location m2 r) as [|[| |]]; cbn [inbetween]; qsplit;
      repeat split; rewrite ?Ex; try rewrite L; try ring;
      try (apply Qmult_lt_compat_r; [exact HP' | lra]).
  - rewrite fexp_eq.
    destruct (Z_le_gt_dec e' (-1074)) as [Hsmall | Hbig]; [lia |].
    assert (Hq52 : 2 ^ 52 <= q).
    { assert (Hd1 := Zdigits2_bounds m1 H1). assert (Hd2 := Zdigits2_bounds m2 H2).
      fold d1 in Hd1. fold d2 in Hd2.
      assert (Hd1' : 1 <= d1) by (apply (Zdigits2_ge m1 0); lia).
      assert (Hd2' : 1 <= d2) by (apply (Zdigits2_ge m2 0); lia).
      assert (Hs' : 52 + d2 <= d1 - 1 + s) by lia.
      assert (Hp : 2 ^ (52 + d2) <= 2 ^ (d1 - 1 + s))
        by (apply Z.pow_le_mono_r; lia).
      rewrite (Z.pow_add_r 2 52 d2), (Z.pow_add_r 2 (d1 - 1) s) in Hp by lia.
      change (2 ^ 52) with 4503599627370496 in *.
      assert (Hm'' : 4503599627370496 * 2 ^ d2 <= m') by nia.
      nia. }
    pose proof (Zdigits2_ge q 52 ltac:(lia) Hq52). lia.
Qed.

Theorem SFdiv_rounded (sx sy : bool) (mx my : positive) (ex ey : Z) :
  rounded (xorb sx sy)
    (SFdiv prec emax (S754_finite sx mx ex) (S754_finite sy my ey))
    (inject_Z (Z.pos mx) * pow2 ex / (inject_Z (Z.pos my) * pow2 ey)).
Proof.
  cbn [SFdiv].
  pose proof (SFdiv_core_binary_spec (Z.pos mx) (Z.pos my) ex ey
                ltac:(lia) ltac:(lia)) as H.
  cbv zeta in H.
  destruct (SFdiv_core_binary prec emax (Z.pos mx) ex (Z.pos my) ey)
    as [[q e'] l].
  destruct H as (Hq & Hx & Hle).
  apply binary_round_aux_rounded; assumption.
Qed.

(** Conversion of an integer. *)
Lemma Zdigits2_shift (m k : Z) :
  0 < m -> 0 <= k -> Zdigits2 (m * 2 ^ k) = Zdigits2 m + k.
Proof.
  intros Hm Hk. pose proof (Zdigits2_bounds m Hm) as [Hlo Hhi].
  assert (Hd : 1 <= Zdigits2 m) by (apply (Zdigits2_ge m 0); lia).
  pose proof (Z.pow_pos_nonneg 2 k ltac:(lia) Hk) as Hp.
  apply Z.le_antisymm.
  - apply Zdigits2_le; [lia |]. rewrite Z.pow_add_r by lia. nia.
  - replace (Zdigits2 m + k) with (Zdigits2 m - 1 + k + 1) by lia.
    apply Zdigits2_ge; [lia |]. rewrite Z.pow_add_r by lia. nia.
Qed.

Lemma pos_iter_xO (d m : positive) :
  Z.pos (Pos.iter xO m d) = Z.pos m * 2 ^ Z.pos d.
Proof.
  induction d as [|d IH] using Pos.peano_ind.
  - cbn. lia.
  - rewrite Pos.iter_succ, Pos2Z.inj_xO, IH, Pos2Z.inj_succ, Z.pow_succ_r by lia.
    lia.
Qed.

Theorem binary_round_rounded (s : bool) (mx : positive) (ex : Z) :
  rounded s (binary_round prec emax s mx ex) (inject_Z (Z.pos mx) * pow2 ex).
Proof.
  unfold binary_round, shl_align.
  change (Z.pos (digits2_pos mx)) with (Zdigits2 (Z.pos mx)).
  set (ex' := fexp prec emax (Zdigits2 (Z.pos mx) + ex)).
  assert (Eex' : ex' = fexp prec emax (Zdigits2 (Z.pos mx) + ex)) by reflexivity.
  clearbody ex'.
  destruct (ex' - ex) as [|d|d] eqn:Ed.
  - apply binary_round_aux_rounded; [lia | reflexivity | lia].
  - apply binary_round_aux_rounded; [lia | reflexivity | lia].
  - assert (Edig : Zdigits2 (Z.pos (Pos.iter xO mx d)) + ex'
                   = Zdigits2 (Z.pos mx) + ex).
    { rewrite pos_iter_xO, Zdigits2_shift by lia. lia. }
    apply binary_round_aux_rounded; [lia | | rewrite Edig; lia].
    cbn [inbetween]. rewrite pos_iter_xO, inject_Z_mult.
    replace ex with (ex' + Z.pos d) by lia.
    rewrite (pow2_shift ex' (Z.pos d)) by lia. ring.
Qed.

Theorem binary_normalize_rounded (z : Z) :
  0 <= z -> rounded false (binary_normalize prec emax z 0 false) (inject_Z z).
Proof.
  intros Hz. destruct z as [|p|p]; try lia; cbn [binary_normalize].
  - apply rounded_zero.
  - eapply rounded_comp; [| apply binary_round_rounded].
    rewrite pow2_0. ring.
Qed.

(** ** Negation *)

Lemma SFcompare_opp (a b : spec_float) :
  SFcompare (SFopp a) (SFopp b) = SFcompare b a.
Proof.
  destruct a as [sa | sa | | sa ma ea], b as [sb | sb | | sb mb eb];
    cbn [SFopp SFcompare]; try reflexivity;
    try (destruct sa; reflexivity); try (destruct sb; reflexivity);
    try (destruct sa, sb; reflexivity).
  assert (A : Pos.compare_cont Eq ma mb = CompOpp (Pos.compare_cont Eq mb ma))
    by (rewrite Pos.compare_cont_antisym; reflexivity).
  destruct sa, sb; cbn [negb]; try reflexivity;
    rewrite (Z.compare_antisym ea eb), A;
    destruct (ea ?= eb), (Pos.compare_cont Eq mb ma); reflexivity.
Qed.

Lemma round_pack_opp (s : bool) (N c : Z) :
  round_pack (negb s) N c = SFopp (round_pack s N c).
Proof.
  unfold round_pack. destruct N as [|p|p]; try reflexivity.
  destruct (Z.pos p <? 2 ^ 53); [destruct (c <=? 971) | destruct (c + 1 <=? 971)];
    reflexivity.
Qed.

Lemma rounded_opp (s : bool) (r : spec_float) (x : Q) :
  rounded s r x -> rounded (negb s) (SFopp r) x.
Proof.
  intros (mu & G & ->). exists mu. split; [exact G |].
  symmetry. apply round_pack_opp.
Qed.

(** For negative results the order is reversed. *)
Corollary rounded_le_neg (r1 r2 : spec_float) (x1 x2 : Q) :
  rounded true r1 x1 -> rounded true r2 x2 -> (x1 <= x2)%Q ->
  SFleb r2 r1 = true.
Proof.
  intros R1 R2 Hle.
  pose proof (rounded_le _ _ _ _ (rounded_opp _ _ _ R1) (rounded_opp _ _ _ R2) Hle)
    as H.
  unfold SFleb in *. rewrite SFcompare_opp in H. exact H.
Qed.

(** ** The order of numbers *)

Lemma spec_float_nan_dec (a : spec_float) : {a = S754_nan} + {a <> S754_nan}.
Proof. destruct a; (left; reflexivity) || (right; discriminate). Qed.

Lemma SFcompare_ext (a b : spec_float) :
  valid_binary a = true -> valid_binary b = true ->
  a <> S754_nan -> b <> S754_nan ->
  SFcompare a b
  = Some match SFclass a ?= SFclass b with
         | Eq => (SF2Q a ?= SF2Q b)%Q
         | c => c
         end.
Proof.
  intros Va Vb Na Nb.
  destruct a as [sa | sa | | sa ma ea]; try congruence;
    destruct b as [sb | sb | | sb mb eb]; try congruence;
    try (rewrite SFcompare_value by (assumption || reflexivity); reflexivity);
    try (destruct sa; reflexivity); try (destruct sb; reflexivity).
  destruct sa, sb; reflexivity.
Qed.

Lemma SFcompare_nan (a b : spec_float) :
  a = S754_nan \/ b = S754_nan -> SFcompare a b = None.
Proof. intros [-> | ->]; [| destruct a]; reflexivity. Qed.

Lemma SFleb_iff (a b : spec_float) :
  valid_binary a = true -> valid_binary b = true ->
  SFleb a b = true
  <-> a <> S754_nan /\ b <> S754_nan
      /\ (SFclass a < SFclass b
          \/ (SFclass a = SFclass b /\ (SF2Q a <= SF2Q b)%Q)).
Proof.
  intros Va Vb. unfold SFleb.
  destruct (spec_float_nan_dec a) as [Na | Na];
    [rewrite SFcompare_nan by auto; split; [discriminate | tauto] |].
  destruct (spec_float_nan_dec b) as [Nb | Nb];
    [rewrite SFcompare_nan by auto; split; [discriminate | tauto] |].
  rewrite SFcompare_ext by assumption.
  destruct (Z.compare_spec (SFclass a) (SFclass b)) as [C | C | C].
  - destruct (SF2Q a ?= SF2Q b)%Q eqn:D; qcmp.
    + split; [intros _ | reflexivity].
      split; [exact Na |]. split; [exact Nb |]. right. split; [exact C | lra].
    + split; [intros _ | reflexivity].
      split; [exact Na |]. split; [exact Nb |]. right. split; [exact C | lra].
    + split; [discriminate |]. intros (_ & _ & [H | [_ H]]); [lia | lra].
  - split; [intros _ | reflexivity]. auto.
  - split; [discriminate |]. intros (_ & _ & [H | [H _]]); lia.
Qed.

Lemma SFltb_iff (a b : spec_float) :
  valid_binary a = true -> valid_binary b = true ->
  SFltb a b = true
  <-> a <> S754_nan /\ b <> S754_nan
      /\ (SFclass a < SFclass b
          \/ (SFclass a = SFclass b /\ (SF2Q a < SF2Q b)%Q)).
Proof.
  intros Va Vb. unfold SFltb.
  destruct (spec_float_nan_dec a) as [Na | Na];
    [rewrite SFcompare_nan by auto; split; [discriminate | tauto] |].
  destruct (spec_float_nan_dec b) as [Nb | Nb];
    [rewrite SFcompare_nan by auto; split; [discriminate | tauto] |].
  rewrite SFcompare_ext by assumption.
  destruct (Z.compare_spec (SFclass a) (SFclass b)) as [C | C | C].
  - destruct (SF2Q a ?= SF2Q b)%Q eqn:D; qcmp.
    + split; [discriminate |]. intros (_ & _ & [H | [_ H]]); [lia | lra].
    + split; [intros _ | reflexivity].
      split; [exact Na |]. split; [exact Nb |]. right. split; [exact C | lra].
    + split; [discriminate |]. intros (_ & _ & [H | [_ H]]); [lia | lra].
  - split; [intros _ | reflexivity]. auto.
  - split; [discriminate |]. intros (_ & _ & [H | [H _]]); lia.
Qed.

Lemma SFeqb_iff (a b : spec_float) :
  valid_binary a = true -> valid_binary b = true ->
  SFeqb a b = true
  <-> a <> S754_nan /\ b <> S754_nan
      /\ SFclass a = SFclass b /\ (SF2Q a == SF2Q b)%Q.
Proof.
  intros Va Vb. unfold SFeqb.
  destruct (spec_float_nan_dec a) as [Na | Na];
    [rewrite SFcompare_nan by auto; split; [discriminate | tauto] |].
  destruct (spec_float_nan_dec b) as [Nb | Nb];
    [rewrite SFcompare_nan by auto; split; [discriminate | tauto] |].
  rewrite SFcompare_ext by assumption.
  destruct (Z.compare_spec (SFclass a) (SFclass b)) as [C | C | C].
  - destruct (SF2Q a ?= SF2Q b)%Q eqn:D; qcmp.
    + split; [intros _ | reflexivity]. auto.
    + split; [discriminate |]. intros (_ & _ & _ & H). lra.
    + split; [discriminate |]. intros (_ & _ & _ & H). lra.
  - split; [discriminate |]. intros (_ & _ & H & _). lia.
  - split; [discriminate |]. intros (_ & _ & H & _). lia.
Qed.

Lemma leb_num_le (x y : float) : (x <=? y)%float = true <-> num_le x y.
Proof.
  rewrite FloatAxioms.leb_spec. apply SFleb_iff; apply Prim2SF_valid.
Qed.

Lemma ltb_num_lt (x y : float) : (x <? y)%float = true <-> num_lt x y.
Proof.
  rewrite FloatAxioms.ltb_spec. apply SFltb_iff; apply Prim2SF_valid.
Qed.

Lemma is_nan_number (x : float) : is_nan x = false <-> is_number x.
Proof.
  unfold is_nan, is_number. rewrite negb_false_iff, FloatAxioms.eqb_spec.
  rewrite SFeqb_iff by apply Prim2SF_valid. split.
  - tauto.
  - intros H. repeat split; assumption.
Qed.

(** The order of numbers. *)
Lemma num_le_refl (x : float) : is_number x -> num_le x x.
Proof. intros H. repeat split; try assumption. right. split; [reflexivity | lra]. Qed.

Lemma num_le_trans (x y z : float) : num_le x y -> num_le y z -> num_le x z.
Proof.
  intros (Nx & Ny & H1) (_ & Nz & H2). repeat split; try assumption.
  destruct H1 as [H1 | [H1 V1]], H2 as [H2 | [H2 V2]];
    [left; lia | left; lia | left; lia | right; split; [lia | lra]].
Qed.

Lemma num_lt_le_trans (x y z : float) : num_lt x y -> num_le y z -> num_lt x z.
Proof.
  intros (Nx & Ny & H1) (_ & Nz & H2). repeat split; try assumption.
  destruct H1 as [H1 | [H1 V1]], H2 as [H2 | [H2 V2]];
    [left; lia | left; lia | left; lia | right; split; [lia | lra]].
Qed.

Lemma num_le_lt_trans (x y z : float) : num_le x y -> num_lt y z -> num_lt x z.
Proof.
  intros (Nx & Ny & H1) (_ & Nz & H2). repeat split; try assumption.
  destruct H1 as [H1 | [H1 V1]], H2 as [H2 | [H2 V2]];
    [left; lia | left; lia | left; lia | right; split; [lia | lra]].
Qed.

Lemma num_lt_le (x y : float) : num_lt x y -> num_le x y.
Proof.
  intros (Nx & Ny & [H | [H V]]); repeat split; try assumption;
    [left; exact H | right; split; [exact H | lra]].
Qed.

Lemma num_le_not_lt (x y : float) : num_le x y -> ~ num_lt y x.
Proof.
  intros (_ & _ & [H | [H V]]) (_ & _ & [H' | [H' V']]); try lia. lra.
Qed.

Lemma num_le_or_lt (x y : float) :
  is_number x -> is_number y -> num_le x y \/ num_lt y x.
Proof.
  intros Nx Ny. unfold num_le, num_lt.
  destruct (Z.lt_total (class_of x) (class_of y)) as [H | [H | H]];
    [left; tauto | | right; tauto].
  destruct (Qlt_le_dec (value_of y) (value_of x)) as [V | V];
    [right | left]; repeat split; auto.
Qed.

(** ** Multiplication by a positive constant *)

Lemma Prim2SF_zero : Prim2SF 0 = S754_zero false.
Proof. reflexivity. Qed.

Lemma SFcompare_zero_r (a : spec_float) (s s' : bool) :
  SFcompare a (S754_zero s) = SFcompare a (S754_zero s').
Proof. destruct a; reflexivity. Qed.

Lemma SFcompare_zero_l (a : spec_float) (s s' : bool) :
  SFcompare (S754_zero s) a = SFcompare (S754_zero s') a.
Proof. destruct a; reflexivity. Qed.

(** The floats that are at least zero, and those that are at most
    zero. *)
Lemma nonneg_cases (x : float) :
  num_le 0 x ->
  (exists s, Prim2SF x = S754_zero s)
  \/ Prim2SF x = S754_infinity false
  \/ exists m e, Prim2SF x = S754_finite false m e
                 /\ bounded prec emax m e = true.
Proof.
  intros (_ & N & H). unfold is_number, class_of, value_of in *.
  rewrite Prim2SF_zero in H. pose proof (Prim2SF_valid x) as V.
  destruct (Prim2SF x) as [s | s | | s m e]; try congruence.
  - left. exists s. reflexivity.
  - destruct s; [cbn in H; lia | auto].
  - destruct s.
    + exfalso. cbn in H. pose proof (mantissa_pos m e).
      destruct H as [H | [_ H]]; [lia | lra].
    + right. right. exists m, e. auto.
Qed.

Lemma nonpos_cases (x : float) :
  num_le x 0 ->
  (exists s, Prim2SF x = S754_zero s)
  \/ Prim2SF x = S754_infinity true
  \/ exists m e, Prim2SF x = S754_finite true m e
                 /\ bounded prec emax m e = true.
Proof.
  intros (N & _ & H). unfold is_number, class_of, value_of in *.
  rewrite Prim2SF_zero in H. pose proof (Prim2SF_valid x) as V.
  destruct (Prim2SF x) as [s | s | | s m e]; try congruence.
  - left. exists s. reflexivity.
  - destruct s; [auto | cbn in H; lia].
  - destruct s.
    + right. right. exists m, e. auto.
    + exfalso. cbn in H. pose proof (mantissa_pos m e).
      destruct H as [H | [_ H]]; [lia | lra].
Qed.

Lemma number_cases (x : float) : is_number x -> num_le 0 x \/ num_le x 0.
Proof.
  intros N.
  assert (N0 : is_number 0) by (unfold is_number; rewrite Prim2SF_zero; discriminate).
  destruct (num_le_or_lt 0 x N0 N) as [H | H]; [left; exact H |].
  right. apply num_lt_le. exact H.
Qed.

Section Scaling.

Variables (c : float) (mc : positive) (ec : Z).
Hypothesis Hc : Prim2SF c = S754_finite false mc ec.

Lemma const_bounded : bounded prec emax mc ec = true.
Proof. pose proof (Prim2SF_valid c) as V. rewrite Hc in V. exact V. Qed.

(** The product with a positive constant has the sign of the number. *)
Lemma mul_nonneg (x : float) : num_le 0 x -> num_le 0 (x * c).
Proof.
  intros H. apply leb_num_le.
  rewrite FloatAxioms.leb_spec, FloatAxioms.mul_spec, Prim2SF_zero.
  unfold SF64mul. rewrite Hc. pose proof const_bounded as B1.
  destruct (nonneg_cases x H) as [[s ->] | [-> | (m & e & -> & B)]].
  - destruct s; reflexivity.
  - reflexivity.
  - apply (rounded_le _ _ _ _ (rounded_zero false)
             (SFmul_rounded false false m mc e ec B B1)).
    pose proof (mantissa_pos m e). pose proof (mantissa_pos mc ec).
    apply Qlt_le_weak, Qmult_lt_0_compat; assumption.
Qed.

Lemma mul_nonpos (x : float) : num_le x 0 -> num_le (x * c) 0.
Proof.
  intros H. apply leb_num_le.
  rewrite FloatAxioms.leb_spec, FloatAxioms.mul_spec, Prim2SF_zero.
  unfold SF64mul. rewrite Hc. pose proof const_bounded as B1.
  destruct (nonpos_cases x H) as [[s ->] | [-> | (m & e & -> & B)]].
  - destruct s; reflexivity.
  - reflexivity.
  - unfold SFleb. rewrite (SFcompare_zero_r _ false true).
    apply (rounded_le_neg _ _ _ _ (rounded_zero true)
             (SFmul_rounded true false m mc e ec B B1)).
    pose proof (mantissa_pos m e). pose proof (mantissa_pos mc ec).
    apply Qlt_le_weak, Qmult_lt_0_compat; assumption.
Qed.

(** A constant that is at most one does not enlarge the number. *)
Hypothesis Hone : (value_of c <= 1)%Q.

Lemma mul_le_self (x : float) : num_le 0 x -> num_le (x * c) x.
Proof.
  intros H. apply leb_num_le. rewrite FloatAxioms.leb_spec, FloatAxioms.mul_spec.
  unfold SF64mul. rewrite Hc. pose proof const_bounded as B1.
  unfold value_of in Hone. rewrite Hc in Hone. cbn [SF2Q] in Hone.
  destruct (nonneg_cases x H) as [[s E] | [E | (m & e & E & B)]]; rewrite E.
  - destruct s; reflexivity.
  - reflexivity.
  - pose proof (mantissa_pos m e).
    apply (rounded_le _ _ _ _ (SFmul_rounded false false m mc e ec B B1)
             (rounded_id false m e B)).
    nra.
Qed.

Lemma mul_ge_self (x : float) : num_le x 0 -> num_le x (x * c).
Proof.
  intros H. apply leb_num_le. rewrite FloatAxioms.leb_spec, FloatAxioms.mul_spec.
  unfold SF64mul. rewrite Hc. pose proof const_bounded as B1.
  unfold value_of in Hone. rewrite Hc in Hone. cbn [SF2Q] in Hone.
  destruct (nonpos_cases x H) as [[s E] | [E | (m & e & E & B)]]; rewrite E.
  - destruct s; reflexivity.
  - reflexivity.
  - pose proof (mantissa_pos m e).
    apply (rounded_le_neg _ _ _ _ (SFmul_rounded true false m mc e ec B B1)
             (rounded_id true m e B)).
    nra.
Qed.

End Scaling.

Section Products.

Variables (c1 c2 : float) (m1 m2 : positive) (e1 e2 : Z).
Hypothesis Hc1 : Prim2SF c1 = S754_finite false m1 e1.
Hypothesis Hc2 : Prim2SF c2 = S754_finite false m2 e2.
Hypothesis Hle : (value_of c1 <= value_of c2)%Q.

Lemma const_values :
  (inject_Z (Z.pos m1) * pow2 e1 <= inject_Z (Z.pos m2) * pow2 e2)%Q.
Proof. unfold value_of in Hle. rewrite Hc1, Hc2 in Hle. exact Hle. Qed.

(** Multiplying a number that is at least zero by a larger positive
    constant gives no smaller a product. *)
Lemma mul_mono_nonneg (x : float) :
  num_le 0 x -> num_le (x * c1) (x * c2).
Proof.
  intros H. apply leb_num_le. rewrite FloatAxioms.leb_spec, !FloatAxioms.mul_spec.
  unfold SF64mul. rewrite Hc1, Hc2.
  pose proof (const_bounded c1 m1 e1 Hc1) as B1.
  pose proof (const_bounded c2 m2 e2 Hc2) as B2. pose proof const_values as Hv.
  destruct (nonneg_cases x H) as [[s ->] | [-> | (m & e & -> & B)]].
  - destruct s; reflexivity.
  - reflexivity.
  - pose proof (mantissa_pos m e).
    apply (rounded_le _ _ _ _ (SFmul_rounded false false m m1 e e1 B B1)
             (SFmul_rounded false false m m2 e e2 B B2)).
    apply Qmult_le_l; assumption.
Qed.

(** For a number that is at most zero the order is reversed. *)
Lemma mul_mono_nonpos (x : float) :
  num_le x 0 -> num_le (x * c2) (x * c1).
Proof.
  intros H. apply leb_num_le. rewrite FloatAxioms.leb_spec, !FloatAxioms.mul_spec.
  unfold SF64mul. rewrite Hc1, Hc2.
  pose proof (const_bounded c1 m1 e1 Hc1) as B1.
  pose proof (const_bounded c2 m2 e2 Hc2) as B2. pose proof const_values as Hv.
  destruct (nonpos_cases x H) as [[s ->] | [-> | (m & e & -> & B)]].
  - destruct s; reflexivity.
  - reflexivity.
  - pose proof (mantissa_pos m e).
    apply (rounded_le_neg _ _ _ _ (SFmul_rounded true false m m1 e e1 B B1)
             (SFmul_rounded true false m m2 e e2 B B2)).
    apply Qmult_le_l; assumption.
Qed.

End Products.

(** ** Lengths and their quotients *)

Lemma Prim2SF_length {A} (xs : list A) :
  Prim2SF (Js.length xs)
  = binary_normalize prec emax (Z.min (Z.of_nat (length xs)) 4294967295) 0 false.
Proof.
  unfold Js.length, Js.of_Z.
  set (k := Z.min (Z.of_nat (length xs)) 4294967295).
  assert (Hk : 0 <= k < 4294967296) by lia.
  replace (k <? 0) with false by (symmetry; apply Z.ltb_ge; lia).
  rewrite FloatAxioms.of_uint63_spec, Uint63.of_Z_spec.
  rewrite Z.mod_small; [reflexivity |].
  change Uint63.wB with 9223372036854775808. lia.
Qed.

Lemma length_rounded {A} (xs : list A) :
  rounded false (Prim2SF (Js.length xs))
    (inject_Z (Z.min (Z.of_nat (length xs)) 4294967295)).
Proof. rewrite Prim2SF_length. apply binary_normalize_rounded. lia. Qed.

Lemma length_mono {A B} (xs : list A) (ys : list B) :
  (length xs <= length ys)%nat -> num_le (Js.length xs) (Js.length ys).
Proof.
  intros H. apply leb_num_le. rewrite FloatAxioms.leb_spec.
  apply (rounded_le _ _ _ _ (length_rounded xs) (length_rounded ys)).
  rewrite <- Zle_Qle. lia.
Qed.

Lemma rounded_one : rounded false (Prim2SF 1) 1.
Proof.
  apply (rounded_comp false _ (inject_Z 4503599627370496 * pow2 (-52))).
  - reflexivity.
  - apply (rounded_id false 4503599627370496 (-52)). reflexivity.
Qed.

Lemma rounded_hundred : rounded false (Prim2SF 100) 100.
Proof.
  apply (rounded_comp false _ (inject_Z 7036874417766400 * pow2 (-46))).
  - reflexivity.
  - apply (rounded_id false 7036874417766400 (-46)). reflexivity.
Qed.

Lemma rounded_max_length : rounded false (Prim2SF 4294967295) 4294967295.
Proof.
  apply (rounded_comp false _ (inject_Z 9007199252643840 * pow2 (-21))).
  - reflexivity.
  - apply (rounded_id false 9007199252643840 (-21)). reflexivity.
Qed.

(** The length of a list is zero or a positive finite number. *)
Lemma length_cases {A} (xs : list A) :
  (xs = [] /\ Prim2SF (Js.length xs) = S754_zero false)
  \/ (xs <> []
      /\ exists m e, Prim2SF (Js.length xs) = S754_finite false m e
                     /\ bounded prec emax m e = true).
Proof.
  destruct xs as [|x xs]; [left; split; reflexivity | right].
  split; [discriminate |].
  pose proof (length_rounded (x :: xs)) as R.
  assert (L1 : SFleb (Prim2SF 1) (Prim2SF (Js.length (x :: xs))) = true).
  { apply (rounded_le _ _ _ _ rounded_one R).
    change 1%Q with (inject_Z 1). rewrite <- Zle_Qle. cbn [length]. lia. }
  assert (L2 : SFleb (Prim2SF (Js.length (x :: xs))) (Prim2SF 4294967295) = true).
  { apply (rounded_le _ _ _ _ R rounded_max_length).
    change 4294967295%Q with (inject_Z 4294967295). rewrite <- Zle_Qle. lia. }
  pose proof (Prim2SF_valid (Js.length (x :: xs))) as V.
  destruct (Prim2SF (Js.length (x :: xs))) as [s | s | | s m e];
    try discriminate L1; try (destruct s; discriminate).
  destruct s; [discriminate L1 |]. exists m, e. auto.
Qed.

(** A part of a list, divided by the whole, is between 0 and 1. *)
Theorem length_ratio_bounds {A B} (xs : list A) (ys : list B) :
  (length xs <= length ys)%nat -> ys <> [] ->
  num_le 0 (Js.length xs / Js.length ys)
  /\ num_le (Js.length xs / Js.length ys) 1.
Proof.
  intros Hlen Hne.
  pose proof (length_mono xs ys Hlen) as (_ & _ & Hv).
  unfold class_of, value_of in Hv.
  rewrite <- !leb_num_le, !FloatAxioms.leb_spec, FloatAxioms.div_spec. unfold SF64div.
  destruct (length_cases ys) as [[E _] | (_ & mt & et & Et & Bt)]; [contradiction |].
  rewrite Et in *.
  destruct (length_cases xs) as [[_ Ep] | (_ & mp & ep & Ep & Bp)]; rewrite Ep in *.
  - split; reflexivity.
  - cbn [SFclass SF2Q] in Hv. destruct Hv as [Hv | [_ Hv]]; [lia |].
    pose proof (mantissa_pos mp ep). pose proof (mantissa_pos mt et).
    pose proof (SFdiv_rounded false false mp mt ep et) as R. cbn [xorb] in R.
    split.
    + rewrite Prim2SF_zero.
      apply (rounded_le _ _ _ _ (rounded_zero false) R).
      apply Qle_shift_div_l; [assumption | lra].
    + apply (rounded_le _ _ _ _ R rounded_one).
      apply Qle_shift_div_r; [assumption | lra].
Qed.

(** So is the percentage between 0 and 100. *)
Theorem percent_bounds (y : float) :
  num_le 0 y -> num_le y 1 -> num_le 0 (y * 100) /\ num_le (y * 100) 100.
Proof.
  intros H0 H1. split.
  - apply (mul_nonneg 100 7036874417766400 (-46)); [reflexivity | exact H0].
  - destruct H1 as (_ & _ & H1). unfold class_of, value_of in H1.
    apply leb_num_le. rewrite FloatAxioms.leb_spec, FloatAxioms.mul_spec.
    unfold SF64mul.
    change (Prim2SF 1) with (S754_finite false 4503599627370496 (-52)) in H1.
    change (Prim2SF 100) with (S754_finite false 7036874417766400 (-46)).
    destruct (nonneg_cases y H0) as [[s E] | [E | (m & e & E & B)]];
      rewrite E in *.
    + destruct s; reflexivity.
    + cbn in H1. lia.
    + cbn [SFclass SF2Q] in H1. destruct H1 as [H1 | [_ H1]]; [lia |].
      assert (E1 : (inject_Z 4503599627370496 * pow2 (-52) == 1)%Q) by reflexivity.
      rewrite E1 in H1.
      apply (rounded_le _ _ _ _
               (SFmul_rounded false false m 7036874417766400 e (-46) B eq_refl)
               (rounded_id false 7036874417766400 (-46) eq_refl)).
      pose proof (mantissa_pos 7036874417766400 (-46)).
      pose proof (mantissa_pos m e).
      rewrite <- (Qmult_1_l (inject_Z 7036874417766400 * pow2 (-46))) at 2.
      apply Qmult_le_compat_r; lra.
Qed.

(** ** Rounding to an integer *)

Lemma small_of_Z (n : Z) :
  0 <= n <= 100 -> num_le 0 (Js.of_Z n) /\ num_le (Js.of_Z n) 100.
Proof.
  intros Hn.
  assert (H : forallb
                (fun k => (0 <=? Js.of_Z (Z.of_nat k))%float
                          && (Js.of_Z (Z.of_nat k) <=? 100)%float)
                (seq 0 101) = true) by (vm_compute; reflexivity).
  rewrite forallb_forall in H. specialize (H (Z.to_nat n)).
  rewrite Z2Nat.id, andb_true_iff, !leb_num_le in H by lia.
  apply H. apply in_seq. lia.
Qed.

Theorem Math_round_bounds (z : float) :
  num_le 0 z -> num_le z 100 ->
  num_le 0 (Js.Math_round z) /\ num_le (Js.Math_round z) 100.
Proof.
  intros H0 H1. unfold Js.Math_round.
  destruct (nonneg_cases z H0) as [[s E] | [E | (m & e & E & B)]]; rewrite E.
  - auto.
  - auto.
  - destruct (Z.leb_spec 0 e) as [He | He]; [auto |].
    cbn [cond_Zopp].
    set (k := - e). assert (Hk : 0 < k) by lia.
    replace (- e - 1) with (k - 1) by lia.
    pose proof (Z.pow_pos_nonneg 2 k ltac:(lia) ltac:(lia)) as Hp.
    assert (Hhalf : 2 ^ k = 2 * 2 ^ (k - 1)).
    { replace k with (k - 1 + 1) at 1 by lia. rewrite Z.pow_add_r by lia. lia. }
    assert (Hm : Z.pos m <= 100 * 2 ^ k).
    { destruct H1 as (_ & _ & H1). unfold class_of, value_of in H1.
      rewrite E in H1.
      change (Prim2SF 100) with (S754_finite false 7036874417766400 (-46)) in H1.
      cbn [SFclass SF2Q] in H1. destruct H1 as [H1 | [_ H1]]; [lia |].
      assert (E100 : (inject_Z 7036874417766400 * pow2 (-46) == 100)%Q)
        by reflexivity.
      rewrite E100 in H1.
      pose proof (pow2_pos e) as HPe. pose proof (pow2_pos k) as HPk.
      assert (Ek : (pow2 e * pow2 k == 1)%Q).
      { rewrite <- pow2_add. replace (e + k) with 0 by lia. reflexivity. }
      apply Qmult_le_compat_r with (z := pow2 k) in H1; [| lra].
      assert (E1 : (inject_Z (Z.pos m) * pow2 e * pow2 k == inject_Z (Z.pos m))%Q).
      { rewrite <- Qmult_assoc, Ek. ring. }
      rewrite E1, (pow2_Z k) in H1 by lia.
      change 100%Q with (inject_Z 100) in H1.
      rewrite <- inject_Z_mult, <- Zle_Qle in H1. exact H1. }
    set (n := (Z.pos m + 2 ^ (k - 1)) / 2 ^ k).
    assert (Hn0 : 0 <= n) by (apply Z.div_pos; lia).
    assert (Hn1 : n <= 100).
    { assert (n < 101); [| lia]. apply Z.div_lt_upper_bound; lia. }
    destruct (Z.eqb_spec n 0) as [_ | Hne].
    + split; apply leb_num_le; reflexivity.
    + apply small_of_Z. lia.
Qed.

(** ** Maxima and minima *)

Lemma nan_not_number (x : float) : is_nan x = true <-> ~ is_number x.
Proof.
  rewrite <- is_nan_number. destruct (is_nan x); split; congruence.
Qed.

Lemma ltb_false_le (x y : float) :
  is_number x -> is_number y -> (x <? y)%float = false -> num_le y x.
Proof.
  intros Nx Ny H. destruct (num_le_or_lt y x Ny Nx) as [L | L]; [exact L |].
  apply ltb_num_lt in L. congruence.
Qed.

Lemma max2_spec (a x : float) :
  is_number a -> is_number x ->
  is_number (Js.max2 a x) /\ num_le a (Js.max2 a x) /\ num_le x (Js.max2 a x).
Proof.
  intros Na Nx. unfold Js.max2.
  rewrite (proj2 (is_nan_number a) Na), (proj2 (is_nan_number x) Nx). cbn [orb].
  destruct (a <? x)%float eqn:L1.
  - apply ltb_num_lt in L1. split; [exact Nx |].
    split; [apply num_lt_le; exact L1 | apply num_le_refl; exact Nx].
  - pose proof (ltb_false_le _ _ Na Nx L1) as Hxa.
    destruct (x <? a)%float eqn:L2.
    + split; [exact Na |]. split; [apply num_le_refl; exact Na | exact Hxa].
    + pose proof (ltb_false_le _ _ Nx Na L2) as Hax.
      destruct (get_sign a).
      * split; [exact Nx |]. split; [exact Hax | apply num_le_refl; exact Nx].
      * split; [exact Na |]. split; [apply num_le_refl; exact Na | exact Hxa].
Qed.

Lemma min2_spec (a x : float) :
  is_number a -> is_number x ->
  is_number (Js.min2 a x) /\ num_le (Js.min2 a x) a /\ num_le (Js.min2 a x) x.
Proof.
  intros Na Nx. unfold Js.min2.
  rewrite (proj2 (is_nan_number a) Na), (proj2 (is_nan_number x) Nx). cbn [orb].
  destruct (x <? a)%float eqn:L1.
  - apply ltb_num_lt in L1. split; [exact Nx |].
    split; [apply num_lt_le; exact L1 | apply num_le_refl; exact Nx].
  - pose proof (ltb_false_le _ _ Nx Na L1) as Hax.
    destruct (a <? x)%float eqn:L2.
    + split; [exact Na |]. split; [apply num_le_refl; exact Na | exact Hax].
    + pose proof (ltb_false_le _ _ Na Nx L2) as Hxa.
      destruct (get_sign a).
      * split; [exact Na |]. split; [apply num_le_refl; exact Na | exact Hax].
      * split; [exact Nx |]. split; [exact Hxa | apply num_le_refl; exact Nx].
Qed.

Lemma fold_max2_spec (xs : list float) :
  forall a,
    is_number a -> Forall is_number xs ->
    is_number (fold_left Js.max2 xs a)
    /\ num_le a (fold_left Js.max2 xs a)
    /\ Forall (fun x => num_le x (fold_left Js.max2 xs a)) xs.
Proof.
  induction xs as [|x xs IH]; intros a Na Hxs; cbn [fold_left].
  - split; [exact Na |]. split; [apply num_le_refl; exact Na | constructor].
  - inversion Hxs as [|? ? Nx Hxs']; subst.
    destruct (max2_spec a x Na Nx) as (Nm & Ha & Hx).
    destruct (IH _ Nm Hxs') as (Nr & Hm & Hall).
    split; [exact Nr |].
    split; [exact (num_le_trans _ _ _ Ha Hm) |].
    constructor; [exact (num_le_trans _ _ _ Hx Hm) | exact Hall].
Qed.

Lemma fold_min2_spec (xs : list float) :
  forall a,
    is_number a -> Forall is_number xs ->
    is_number (fold_left Js.min2 xs a)
    /\ num_le (fold_left Js.min2 xs a) a
    /\ Forall (fun x => num_le (fold_left Js.min2 xs a) x) xs.
Proof.
  induction xs as [|x xs IH]; intros a Na Hxs; cbn [fold_left].
  - split; [exact Na |]. split; [apply num_le_refl; exact Na | constructor].
  - inversion Hxs as [|? ? Nx Hxs']; subst.
    destruct (min2_spec a x Na Nx) as (Nm & Ha & Hx).
    destruct (IH _ Nm Hxs') as (Nr & Hm & Hall).
    split; [exact Nr |].
    split; [exact (num_le_trans _ _ _ Hm Ha) |].
    constructor; [exact (num_le_trans _ _ _ Hm Hx) | exact Hall].
Qed.

Lemma max2_nan_l (x : float) : Js.max2 nan x = nan.
Proof. reflexivity. Qed.

Lemma min2_nan_l (x : float) : Js.min2 nan x = nan.
Proof. reflexivity. Qed.

Lemma fold_max2_nan (xs : list float) : fold_left Js.max2 xs nan = nan.
Proof. induction xs as [|x xs IH]; cbn [fold_left]; [| rewrite max2_nan_l]; auto. Qed.

Lemma fold_min2_nan (xs : list float) : fold_left Js.min2 xs nan = nan.
Proof. induction xs as [|x xs IH]; cbn [fold_left]; [| rewrite min2_nan_l]; auto. Qed.

(** A value that is not a number makes the maximum and the minimum
    not a number. *)
Lemma fold_max2_not_number (xs : list float) :
  forall a, Exists (fun x => is_nan x = true) xs -> fold_left Js.max2 xs a = nan.
Proof.
  induction xs as [|x xs IH]; intros a H; inversion H as [? ? Hx | ? ? Hx]; subst;
    cbn [fold_left].
  - unfold Js.max2 at 2. rewrite Hx, orb_true_r. apply fold_max2_nan.
  - apply IH. exact Hx.
Qed.

Lemma fold_min2_not_number (xs : list float) :
  forall a, Exists (fun x => is_nan x = true) xs -> fold_left Js.min2 xs a = nan.
Proof.
  induction xs as [|x xs IH]; intros a H; inversion H as [? ? Hx | ? ? Hx]; subst;
    cbn [fold_left].
  - unfold Js.min2 at 2. rewrite Hx, orb_true_r. apply fold_min2_nan.
  - apply IH. exact Hx.
Qed.

(** ** Rounding errors and strict order *)

Lemma rne_error (q : Q) :
  (inject_Z (rne q) - q <= 1 # 2)%Q /\ (q - inject_Z (rne q) <= 1 # 2)%Q.
Proof.
  pose proof (Qfloor_le q) as H1. pose proof (Qlt_floor q) as H2.
  rewrite inject_Z_plus in H2. change (inject_Z 1) with 1%Q in H2.
  unfold rne. cbv zeta.
  destruct (q - inject_Z (Qfloor q) ?= 1 # 2)%Q eqn:C; qcmp;
    [destruct (Z.even (Qfloor q)) | |];
    rewrite ?inject_Z_plus; change (inject_Z 1) with 1%Q; split; lra.
Qed.

(** In the normal range the rounded value differs from the exact one
    by at most the fraction 2^-53 of it, unless it overflows. *)
Theorem rounded_near (r : spec_float) (x : Q) :
  rounded false r x ->
  (pow2 (-1021) <= x)%Q ->
  r = S754_infinity false
  \/ exists p c,
       r = S754_finite false p c
       /\ (x - inject_Z (Z.pos p) * pow2 c <= x * pow2 (-53))%Q
       /\ (inject_Z (Z.pos p) * pow2 c - x <= x * pow2 (-53))%Q.
Proof.
  intros R Hx.
  destruct (rounded_inv _ _ _ R) as (mu & (G0 & G1 & G2) & C).
  assert (Hmu : -1021 < mu).
  { destruct (Z_lt_le_dec (-1021) mu) as [|Hle]; [assumption | exfalso].
    pose proof (pow2_le _ _ Hle). lra. }
  assert (Ec : fexp prec emax mu = mu - 53) by (rewrite fexp_eq; lia).
  rewrite Ec in C. destruct G2 as [G2 | G2]; [| lia].
  pose proof (pow2_pos (mu - 53)) as HP.
  set (y := (x / pow2 (mu - 53))%Q) in *.
  assert (Ey : (x == y * pow2 (mu - 53))%Q) by (unfold y; field; lra).
  destruct (rne_error y) as [E1 E2].
  assert (Hhalf : (pow2 (mu - 53) * (1 # 2) <= x * pow2 (-53))%Q).
  { assert (E : (pow2 (mu - 1) * pow2 (-53) == pow2 (mu - 53) * (1 # 2))%Q).
    { rewrite <- pow2_add. replace (mu - 1 + -53) with (mu - 53 + -1) by lia.
      rewrite pow2_add. reflexivity. }
    rewrite <- E. apply Qmult_le_compat_r; [exact G2 |].
    apply Qlt_le_weak, pow2_pos. }
  assert (Hy : (inject_Z (2 ^ 52) <= y)%Q).
  { unfold y. apply Qle_shift_div_l; [exact HP |].
    rewrite <- (pow2_shift (mu - 53) 52) by lia.
    replace (mu - 53 + 52) with (mu - 1) by lia. exact G2. }
  destruct C as [[N0 _] | (p & c & _ & V & ->)].
  - exfalso. rewrite N0 in E2.
    change (inject_Z 0) with 0%Q in E2.
    change (inject_Z (2 ^ 52)) with 4503599627370496%Q in Hy. lra.
  - destruct (c <=? 971); [right | left; reflexivity].
    exists p, c. split; [reflexivity |]. rewrite V.
    set (N := inject_Z (rne y)) in *.
    assert (A : (x - N * pow2 (mu - 53) == (y - N) * pow2 (mu - 53))%Q)
      by (rewrite Ey at 1; ring).
    assert (B : (N * pow2 (mu - 53) - x == (N - y) * pow2 (mu - 53))%Q)
      by (rewrite Ey at 1; ring).
    rewrite A, B.
    assert ((y - N) * pow2 (mu - 53) <= (1 # 2) * pow2 (mu - 53))%Q
      by (apply Qmult_le_compat_r; lra).
    assert ((N - y) * pow2 (mu - 53) <= (1 # 2) * pow2 (mu - 53))%Q
      by (apply Qmult_le_compat_r; lra).
    split; lra.
Qed.

(** Equal numbers. *)
Lemma eqb_num (x y : float) :
  (x =? y)%float = true
  <-> is_number x /\ is_number y
      /\ class_of x = class_of y /\ (value_of x == value_of y)%Q.
Proof.
  rewrite FloatAxioms.eqb_spec. apply SFeqb_iff; apply Prim2SF_valid.
Qed.

Lemma eqb_num_le (x y : float) :
  (x =? y)%float = true -> num_le x y /\ num_le y x.
Proof.
  intros H. apply eqb_num in H. destruct H as (Nx & Ny & C & V).
  split; repeat split; try assumption; right; split; try lia; lra.
Qed.

Lemma leb_false_not_le (x y : float) : ~ num_le x y -> (x <=? y)%float = false.
Proof.
  intros H. destruct (x <=? y)%float eqn:E; [| reflexivity].
  apply leb_num_le in E. contradiction.
Qed.

Lemma ltb_false_not_lt (x y : float) : ~ num_lt x y -> (x <? y)%float = false.
Proof.
  intros H. destruct (x <? y)%float eqn:E; [| reflexivity].
  apply ltb_num_lt in E. contradiction.
Qed.

Lemma num_lt_not_le (x y : float) : num_lt x y -> ~ num_le y x.
Proof. intros H H'. exact (num_le_not_lt _ _ H' H). Qed.

Lemma num_le_number (x y : float) : num_le x y -> is_number x /\ is_number y.
Proof. intros (Nx & Ny & _). auto. Qed.

Lemma num_lt_number (x y : float) : num_lt x y -> is_number x /\ is_number y.
Proof. intros (Nx & Ny & _). auto. Qed.

Lemma number_zero : is_number 0.
Proof. unfold is_number. rewrite Prim2SF_zero. discriminate. Qed.

(** A product with something that is not a number is not a number. *)
Lemma mul_not_number (x c : float) : ~ is_number x -> ~ is_number (x * c).
Proof.
  unfold is_number. intros Hx. rewrite FloatAxioms.mul_spec.
  destruct (spec_float_nan_dec (Prim2SF x)) as [-> | N]; [| contradiction].
  intros H. apply H. unfold SF64mul. destruct (Prim2SF c); reflexivity.
Qed.

(** ** Strictly larger products *)

Section StrictProducts.

Variables (c1 c2 : float) (m1 m2 : positive) (e1 e2 : Z).
Hypothesis Hc1 : Prim2SF c1 = S754_finite false m1 e1.
Hypothesis Hc2 : Prim2SF c2 = S754_finite false m2 e2.
Hypothesis Hlow : (pow2 (-3) <= value_of c1)%Q.
Hypothesis Hgap : (5 * value_of c1 <= 4 * value_of c2)%Q.
Hypothesis Hone : (value_of c2 <= 1)%Q.

Lemma ordinary_cases (x : float) :
  ordinary x ->
  exists m e,
    Prim2SF x = S754_finite false m e /\ bounded prec emax m e = true
    /\ (pow2 (-1018) <= inject_Z (Z.pos m) * pow2 e)%Q.
Proof.
  intros [Hlo Hhi]. apply leb_num_le in Hlo. apply ltb_num_lt in Hhi.
  destruct Hlo as (_ & _ & Hlo). destruct Hhi as (_ & _ & Hhi).
  unfold class_of, value_of in *. pose proof (Prim2SF_valid x) as V.
  change (Prim2SF 0x1p-1018) with (S754_finite false 4503599627370496 (-1070)) in Hlo.
  change (Prim2SF infinity) with (S754_infinity false) in Hhi.
  assert (E : (inject_Z 4503599627370496 * pow2 (-1070) == pow2 (-1018))%Q).
  { change 4503599627370496 with (2 ^ 52). rewrite <- (pow2_shift (-1070) 52) by lia.
    reflexivity. }
  destruct (Prim2SF x) as [s | s | | s m e]; cbn [SFclass SF2Q] in *.
  - exfalso. pose proof (pow2_pos (-1018)).
    destruct Hlo as [Hlo | [_ Hlo]]; [lia | lra].
  - exfalso. destruct s; [destruct Hlo as [Hlo | [Hlo _]]; lia |].
    destruct Hhi as [Hhi | [_ Hhi]]; [lia | lra].
  - exfalso. destruct Hlo as [Hlo | [_ Hlo]]; [lia |].
    pose proof (pow2_pos (-1018)). lra.
  - destruct s.
    + exfalso. pose proof (mantissa_pos m e). pose proof (pow2_pos (-1018)).
      destruct Hlo as [Hlo | [_ Hlo]]; [lia | lra].
    + exists m, e. split; [reflexivity |]. split; [exact V |].
      destruct Hlo as [Hlo | [_ Hlo]]; [lia | lra].
Qed.

(** The product of an ordinary number with a constant between 1/8
    and 1 is finite, positive and close to the exact product. *)
Lemma ordinary_product (mc : positive) (ec : Z) (m : positive) (e : Z) :
  bounded prec emax mc ec = true ->
  (pow2 (-3) <= inject_Z (Z.pos mc) * pow2 ec)%Q ->
  (inject_Z (Z.pos mc) * pow2 ec <= 1)%Q ->
  bounded prec emax m e = true ->
  (pow2 (-1018) <= inject_Z (Z.pos m) * pow2 e)%Q ->
  exists p d,
    SFmul prec emax (S754_finite false m e) (S754_finite false mc ec)
    = S754_finite false p d
    /\ (inject_Z (Z.pos m) * pow2 e * (inject_Z (Z.pos mc) * pow2 ec)
        - inject_Z (Z.pos p) * pow2 d
        <= inject_Z (Z.pos m) * pow2 e * (inject_Z (Z.pos mc) * pow2 ec)
           * pow2 (-53))%Q
    /\ (inject_Z (Z.pos p) * pow2 d
        - inject_Z (Z.pos m) * pow2 e * (inject_Z (Z.pos mc) * pow2 ec)
        <= inject_Z (Z.pos m) * pow2 e * (inject_Z (Z.pos mc) * pow2 ec)
           * pow2 (-53))%Q.
Proof.
  intros Bc Hc8 Hc1' B Hx.
  pose proof (SFmul_rounded false false m mc e ec B Bc) as R. cbn [xorb] in R.
  pose proof (mantissa_pos m e) as Hm. pose proof (mantissa_pos mc ec) as Hmc.
  set (x := (inject_Z (Z.pos m) * pow2 e * (inject_Z (Z.pos mc) * pow2 ec))%Q) in *.
  assert (Hxlo : (pow2 (-1021) <= x)%Q).
  { unfold x. replace (-1021) with (-1018 + -3) by lia. rewrite pow2_add.
    pose proof (pow2_pos (-1018)). pose proof (pow2_pos (-3)).
    apply Qle_trans with (inject_Z (Z.pos m) * pow2 e * pow2 (-3))%Q.
    - apply Qmult_le_compat_r; lra.
    - apply Qmult_le_l; lra. }
  destruct (rounded_near _ _ R Hxlo) as [Einf | (p & d & E & N1 & N2)].
  - (* the product is not above the number itself *)
    exfalso.
    assert (L : SFleb (SFmul prec emax (S754_finite false m e)
                         (S754_finite false mc ec))
                  (S754_finite false m e) = true).
    { apply (rounded_le _ _ _ _ R (rounded_id false m e B)).
      unfold x. rewrite <- (Qmult_1_r (inject_Z (Z.pos m) * pow2 e)) at 2.
      apply Qmult_le_l; lra. }
    rewrite Einf in L. discriminate L.
  - exists p, d. auto.
Qed.

Lemma strict_consts :
  bounded prec emax m1 e1 = true /\ bounded prec emax m2 e2 = true
  /\ (pow2 (-3) <= inject_Z (Z.pos m1) * pow2 e1)%Q
  /\ (5 * (inject_Z (Z.pos m1) * pow2 e1) <= 4 * (inject_Z (Z.pos m2) * pow2 e2))%Q
  /\ (inject_Z (Z.pos m2) * pow2 e2 <= 1)%Q.
Proof.
  pose proof (Prim2SF_valid c1) as V1. pose proof (Prim2SF_valid c2) as V2.
  unfold value_of in Hlow, Hgap, Hone. rewrite Hc1 in *. rewrite Hc2 in *.
  cbn [SF2Q valid_binary] in *. auto.
Qed.

(** For an ordinary number the larger constant gives the strictly
    larger product. *)
Theorem mul_strict (x : float) : ordinary x -> num_lt (x * c1) (x * c2).
Proof.
  intros Hx. destruct (ordinary_cases x Hx) as (m & e & Ex & B & Hlo).
  destruct strict_consts as (B1 & B2 & L1 & G & O2).
  pose proof (pow2_pos (-3)) as H3.
  destruct (ordinary_product m1 e1 m e B1 L1 ltac:(lra) B Hlo)
    as (p1 & d1 & E1 & A1 & A2).
  destruct (ordinary_product m2 e2 m e B2 ltac:(lra) O2 B Hlo)
    as (p2 & d2 & E2 & A3 & A4).
  unfold num_lt, is_number, class_of, value_of.
  rewrite !FloatAxioms.mul_spec. unfold SF64mul. rewrite Ex, Hc1, Hc2, E1, E2.
  split; [discriminate |]. split; [discriminate |]. right. split; [reflexivity |].
  cbn [SF2Q].
  pose proof (mantissa_pos m e) as Hm.
  set (v := (inject_Z (Z.pos m) * pow2 e)%Q) in *.
  set (k1 := (inject_Z (Z.pos m1) * pow2 e1)%Q) in *.
  set (k2 := (inject_Z (Z.pos m2) * pow2 e2)%Q) in *.
  assert (He : (pow2 (-53) <= 1 # 16)%Q) by (vm_compute; discriminate).
  pose proof (pow2_pos (-53)) as He0.
  assert (Hk1 : (0 < v * k1)%Q) by (apply Qmult_lt_0_compat; lra).
  assert (Hk2 : (0 < v * k2)%Q) by (apply Qmult_lt_0_compat; lra).
  assert (T1 : (v * k1 * pow2 (-53) <= v * k1 * (1 # 16))%Q)
    by (apply Qmult_le_l; lra).
  assert (T2 : (v * k2 * pow2 (-53) <= v * k2 * (1 # 16))%Q)
    by (apply Qmult_le_l; lra).
  assert (G' : (5 * (v * k1) <= 4 * (v * k2))%Q).
  { assert (v * (5 * k1) <= v * (4 * k2))%Q by (apply Qmult_le_l; lra). lra. }
  lra.
Qed.

End StrictProducts.

(** The product of an ordinary number with a constant between 1/8 and
    1 is positive. *)
Theorem mul_positive (c : float) (mc : positive) (ec : Z) (x : float) :
  Prim2SF c = S754_finite false mc ec ->
  (pow2 (-3) <= value_of c)%Q -> (value_of c <= 1)%Q ->
  ordinary x -> num_lt 0 (x * c).
Proof.
  intros Hc Hlow Hone Hx.
  destruct (ordinary_cases x Hx) as (m & e & Ex & B & Hlo).
  pose proof (const_bounded c mc ec Hc) as Bc.
  unfold value_of in Hlow, Hone. rewrite Hc in Hlow, Hone. cbn [SF2Q] in Hlow, Hone.
  destruct (ordinary_product mc ec m e Bc Hlow Hone B Hlo)
    as (p1 & d1 & E1 & _ & _).
  unfold num_lt, is_number, class_of, value_of.
  rewrite !FloatAxioms.mul_spec. unfold SF64mul. rewrite Ex, Hc, E1, Prim2SF_zero.
  split; [discriminate |]. split; [discriminate |]. right. split; [reflexivity |].
  cbn [SF2Q]. apply mantissa_pos.
Qed.

(** ** Integers as numbers *)

(** A positive integer below 2^53 is converted exactly. *)
Lemma rounded_exact_int (r : spec_float) (n : Z) :
  rounded false r (inject_Z n) -> 0 < n < 2 ^ 53 ->
  exists p c, r = S754_finite false p c
              /\ (inject_Z (Z.pos p) * pow2 c == inject_Z n)%Q.
Proof.
  intros R [Hn0 Hn1].
  assert (Hn : (1 <= inject_Z n)%Q)
    by (change 1%Q with (inject_Z 1); rewrite <- Zle_Qle; lia).
  destruct (rounded_inv _ _ _ R) as (mu & (G0 & G1 & G2) & C).
  assert (Hmu : 0 < mu).
  { destruct (Z_lt_le_dec 0 mu) as [|Hle]; [assumption | exfalso].
    pose proof (pow2_le _ _ Hle) as H. rewrite pow2_0 in H. lra. }
  assert (Ec : fexp prec emax mu = mu - 53) by (rewrite fexp_eq; lia).
  rewrite Ec in C. destruct G2 as [G2 | G2]; [| lia].
  assert (Hmu53 : mu <= 53).
  { destruct (Z_le_gt_dec mu 53) as [|Hgt]; [assumption | exfalso].
    assert (H : (pow2 53 <= pow2 (mu - 1))%Q) by (apply pow2_le; lia).
    rewrite <- inject_Z_pow2 in H by lia.
    assert (H' : (inject_Z (2 ^ 53) <= inject_Z n)%Q) by lra.
    rewrite <- Zle_Qle in H'. lia. }
  pose proof (pow2_pos (mu - 53)) as HP.
  assert (Ey : (inject_Z n / pow2 (mu - 53) == inject_Z (n * 2 ^ (53 - mu)))%Q).
  { rewrite inject_Z_mult, inject_Z_pow2 by lia.
    assert (E : (pow2 (53 - mu) * pow2 (mu - 53) == 1)%Q).
    { rewrite <- pow2_add. replace (53 - mu + (mu - 53)) with 0 by lia. reflexivity. }
    apply Qmult_inj_r with (pow2 (mu - 53)); [lra |].
    rewrite <- Qmult_assoc, E. field. lra. }
  rewrite (rne_comp _ _ Ey), rne_Z in C.
  assert (Ev : (inject_Z (n * 2 ^ (53 - mu)) * pow2 (mu - 53) == inject_Z n)%Q).
  { rewrite <- Ey. field. lra. }
  pose proof (Z.pow_pos_nonneg 2 (53 - mu) ltac:(lia) ltac:(lia)) as Hp.
  destruct C as [[N0 _] | (p & c & K & V & ->)]; [nia |].
  exists p, c. rewrite V, Ev. split; [| reflexivity].
  destruct (Z.leb_spec c 971) as [_ | Hc]; [reflexivity | exfalso].
  destruct K as ([Kp _] & _ & K52). specialize (K52 ltac:(lia)).
  assert (H1 : (inject_Z (2 ^ 52) * pow2 c <= inject_Z (Z.pos p) * pow2 c)%Q).
  { apply Qmult_le_compat_r; [rewrite <- Zle_Qle; exact K52 |].
    apply Qlt_le_weak, pow2_pos. }
  assert (H2 : (pow2 972 <= pow2 c)%Q) by (apply pow2_le; lia).
  rewrite <- inject_Z_pow2 in H2 by lia.
  assert (H3 : (inject_Z (2 ^ 52) * inject_Z (2 ^ 972) <= inject_Z (2 ^ 52) * pow2 c)%Q).
  { apply Qmult_le_l; [| exact H2].
    change 0%Q with (inject_Z 0). rewrite <- Zlt_Qlt. reflexivity. }
  rewrite V, Ev in H1. rewrite <- inject_Z_mult in H3.
  assert (H4 : (inject_Z (2 ^ 52 * 2 ^ 972) <= inject_Z n)%Q) by lra.
  rewrite <- Zle_Qle in H4.
  assert (2 ^ 53 <= 2 ^ 52 * 2 ^ 972); [| lia].
  rewrite <- Z.pow_add_r by lia. apply Z.pow_le_mono_r; lia.
Qed.

(** The number made from an integer of magnitude below 2^53 is
    finite and has the integer as its value. *)
Theorem of_Z_value (n : Z) :
  - 2 ^ 53 < n < 2 ^ 53 ->
  is_number (Js.of_Z n) /\ class_of (Js.of_Z n) = 0
  /\ (value_of (Js.of_Z n) == inject_Z n)%Q.
Proof.
  intros Hn. unfold Js.of_Z, is_number, class_of, value_of.
  assert (Hconv : forall k, 0 <= k < 2 ^ 53 ->
            Prim2SF (of_uint63 (Uint63.of_Z k)) = binary_normalize prec emax k 0 false).
  { intros k Hk. rewrite FloatAxioms.of_uint63_spec, Uint63.of_Z_spec.
    rewrite Z.mod_small; [reflexivity |].
    change Uint63.wB with 9223372036854775808.
    change (2 ^ 53) with 9007199254740992 in Hk. lia. }
  destruct (Z.ltb_spec n 0) as [Hneg | Hpos].
  - rewrite FloatAxioms.opp_spec, Hconv by lia.
    destruct (rounded_exact_int _ (- n)
                (binary_normalize_rounded (- n) ltac:(lia)) ltac:(lia))
      as (p & c & -> & V).
    cbn [SFopp negb SFclass SF2Q]. split; [discriminate |]. split; [reflexivity |].
    rewrite V, inject_Z_opp. ring.
  - rewrite Hconv by lia.
    destruct (Z.eq_dec n 0) as [-> | Hnz].
    + cbn. split; [discriminate |]. split; reflexivity.
    + destruct (rounded_exact_int _ n
                  (binary_normalize_rounded n ltac:(lia)) ltac:(lia))
        as (p & c & -> & V).
      cbn [SFclass SF2Q]. split; [discriminate |]. split; [reflexivity | exact V].
Qed.

(** ** Rounding to an integer, exactly *)

Lemma Qfloor_div (a b : Z) :
  0 < b -> Qfloor (inject_Z a / inject_Z b) = a / b.
Proof.
  intros Hb.
  assert (Hb' : (0 < inject_Z b)%Q)
    by (change 0%Q with (inject_Z 0); rewrite <- Zlt_Qlt; lia).
  pose proof (Z.div_mod a b ltac:(lia)) as Hdm.
  pose proof (Z.mod_pos_bound a b Hb) as Hmod.
  apply Qfloor_unique.
  - apply Qle_shift_div_l; [exact Hb' |].
    rewrite <- inject_Z_mult, <- Zle_Qle. nia.
  - apply Qlt_shift_div_r; [exact Hb' |].
    change 1%Q with (inject_Z 1).
    rewrite <- inject_Z_plus, <- inject_Z_mult, <- Zlt_Qlt. nia.
Qed.

(** [Math.round] of a finite number is the integer nearest to it, a
    half being rounded up. *)
Theorem Math_round_value (x : float) :
  is_number x -> class_of x = 0 ->
  is_number (Js.Math_round x) /\ class_of (Js.Math_round x) = 0
  /\ (value_of (Js.Math_round x) == inject_Z (Qfloor (value_of x + (1 # 2))))%Q.
Proof.
  intros Nx Cx. unfold Js.Math_round.
  pose proof (Prim2SF_valid x) as V.
  unfold is_number, class_of, value_of in *.
  destruct (Prim2SF x) as [s | s | | s m e] eqn:Ex.
  - rewrite Ex. cbn [SFclass SF2Q]. split; [discriminate |]. split; reflexivity.
  - destruct s; discriminate Cx.
  - contradiction.
  - cbn [valid_binary] in V. destruct (bounded_canonical _ _ V) as [K _].
    destruct K as ([_ Km] & Ke & _).
    destruct (Z.leb_spec 0 e) as [He | He].
    + (* an integer already *)
      rewrite Ex. cbn [SFclass]. split; [discriminate |]. split; [reflexivity |].
      set (z := Z.pos m * 2 ^ e).
      assert (Ez : (inject_Z (Z.pos m) * pow2 e == inject_Z z)%Q).
      { unfold z. rewrite (pow2_Z e He), <- inject_Z_mult. reflexivity. }
      destruct s; cbn [SF2Q].
      * rewrite (Qfloor_unique _ (- z));
          rewrite ?inject_Z_opp; rewrite Ez; try reflexivity; lra.
      * rewrite (Qfloor_unique _ z); rewrite Ez; try reflexivity; lra.
    + set (k := - e). assert (Hk : 0 < k) by lia.
      replace (- e - 1) with (k - 1) by lia.
      pose proof (Z.pow_pos_nonneg 2 k ltac:(lia) ltac:(lia)) as Hp.
      pose proof (Z.pow_pos_nonneg 2 (k - 1) ltac:(lia) ltac:(lia)) as Hp1.
      assert (Hhalf : 2 ^ k = 2 * 2 ^ (k - 1)).
      { replace k with (k - 1 + 1) at 1 by lia. rewrite Z.pow_add_r by lia. lia. }
      set (a := cond_Zopp s (Z.pos m)).
      assert (Ha : - 2 ^ 53 < a < 2 ^ 53) by (unfold a; destruct s; cbn; lia).
      set (n := (a + 2 ^ (k - 1)) / 2 ^ k).
      assert (Hfloor :
        Qfloor (SF2Q (S754_finite s m e) + (1 # 2)) = n).
      { unfold n. rewrite <- Qfloor_div by exact Hp. apply Qfloor_comp.
        assert (Epow : (pow2 e == / inject_Z (2 ^ k))%Q).
        { rewrite inject_Z_pow2 by lia.
          assert (E : (pow2 e * pow2 k == 1)%Q).
          { rewrite <- pow2_add. replace (e + k) with 0 by lia. reflexivity. }
          pose proof (pow2_pos k).
          apply Qmult_inj_r with (pow2 k); [lra |]. rewrite E. field. lra. }
        assert (Ehalf : (inject_Z (2 ^ k) == 2 * inject_Z (2 ^ (k - 1)))%Q).
        { rewrite Hhalf at 1. rewrite inject_Z_mult. reflexivity. }
        assert (Hq : (0 < inject_Z (2 ^ (k - 1)))%Q)
          by (change 0%Q with (inject_Z 0); rewrite <- Zlt_Qlt; lia).
        rewrite inject_Z_plus.
        assert (Ea : (SF2Q (S754_finite s m e) == inject_Z a * pow2 e)%Q).
        { unfold a. destruct s; cbn [SF2Q cond_Zopp].
          - rewrite inject_Z_opp. ring.
          - reflexivity. }
        rewrite Ea, Epow, Ehalf. field. lra. }
      rewrite Hfloor.
      assert (Hn : - 2 ^ 53 < n < 2 ^ 53).
      { unfold n. split.
        - apply Z.lt_le_trans with (- 2 ^ 53 + 1); [lia |].
          apply Z.div_le_lower_bound; [lia |]. nia.
        - apply Z.div_lt_upper_bound; [lia |]. nia. }
      destruct (Z.eqb_spec n 0) as [-> | Hnz].
      * destruct s; cbn; (split; [discriminate |]); split; reflexivity.
      * apply of_Z_value. exact Hn.
Qed.

(** ** The length of a list as a number *)

Lemma length_positive {A} (xs : list A) :
  Js.gt (Js.length xs) 0 = negb (Js.is_nil xs).
Proof.
  unfold Js.gt. rewrite FloatAxioms.ltb_spec, Prim2SF_zero.
  destruct (length_cases xs) as [[-> E] | (Hne & m & e & E & _)]; rewrite E.
  - reflexivity.
  - destruct xs; [contradiction | reflexivity].
Qed.

(** ** The operations at some inputs *)

Example number_examples :
  Js.Math_round 2.5 = 3%float /\ Js.Math_round (-2.5) = (-2)%float
  /\ Js.Math_round 0.5 = 1%float /\ Js.Math_round (-0.5) = neg_zero
  /\ Js.Math_round 0x1.fffffffffffffp-2 = 0%float
  /\ Js.Math_round 4503599627370495.5 = 4503599627370496%float
  /\ Js.Math_round 1e300 = 1e300%float
  /\ Js.Math_round nan = nan /\ Js.Math_round infinity = infinity
  /\ (23 / 40 * 100 = 57.49999999999999)%float
  /\ Js.Math_round (23 / 40 * 100) = 57%float
  /\ ((0 + 0.1 + 0.3 + 1.4 + 0.2) / 4 = 0.49999999999999994)%float
  /\ Js.Math_round ((0 + 0.1 + 0.3 + 1.4 + 0.2) / 4) = 0%float
  /\ (3 * 0.6 = 1.7999999999999998)%float
  /\ (3 * 0.6 <? 1.8)%float = true
  /\ Js.Math_max [1; 3; 2]%float = 3%float
  /\ Js.Math_max [neg_zero; zero] = zero /\ Js.Math_min [zero; neg_zero] = neg_zero
  /\ Js.Math_max [1; nan; 2]%float = nan
  /\ Js.Math_max [] = neg_infinity /\ Js.Math_min [] = infinity
  /\ Js.length [1; 2; 3] = 3%float.
Proof. vm_compute. repeat split. Qed.

(** ** Exact results *)

(** A value that the format can hold is not changed by rounding. *)
Lemma rounded_exact (r : spec_float) (N c : Z) :
  rounded false r (inject_Z N * pow2 c) ->
  0 < N < 2 ^ 53 -> -1074 <= c <= 900 ->
  exists p d, r = S754_finite false p d
              /\ (inject_Z (Z.pos p) * pow2 d == inject_Z N * pow2 c)%Q.
Proof.
  intros R [HN0 HN1] [Hc0 Hc1].
  set (x := (inject_Z N * pow2 c)%Q) in *.
  pose proof (pow2_pos c) as HPc.
  assert (HNq : (1 <= inject_Z N)%Q)
    by (change 1%Q with (inject_Z 1); rewrite <- Zle_Qle; lia).
  assert (HNq' : (inject_Z N < inject_Z (2 ^ 53))%Q) by (rewrite <- Zlt_Qlt; lia).
  assert (Hxhi : (x < pow2 (53 + c))%Q).
  { unfold x. rewrite pow2_add, <- (inject_Z_pow2 53) by lia.
    apply Qmult_lt_compat_r; assumption. }
  destruct (rounded_inv _ _ _ R) as (mu & (G0 & G1 & G2) & C).
  set (cm := fexp prec emax mu) in *.
  assert (Ecm : cm = Z.max (mu - 53) (-1074)) by apply fexp_eq.
  clearbody cm.
  assert (Hcm : cm <= c).
  { destruct (Z_le_gt_dec (mu - 53) (-1074)) as [Hs | Hn]; [lia |].
    destruct G2 as [G2 | G2]; [| lia].
    destruct (Z_le_gt_dec mu (53 + c)) as [|Hgt]; [lia | exfalso].
    assert (H : (pow2 (53 + c) <= pow2 (mu - 1))%Q) by (apply pow2_le; lia).
    lra. }
  pose proof (pow2_pos cm) as HPm.
  assert (Ey : (x / pow2 cm == inject_Z (N * 2 ^ (c - cm)))%Q).
  { unfold x. rewrite inject_Z_mult, inject_Z_pow2 by lia.
    rewrite pow2_sub. field. lra. }
  rewrite (rne_comp _ _ Ey), rne_Z in C.
  assert (Ev : (inject_Z (N * 2 ^ (c - cm)) * pow2 cm == x)%Q).
  { rewrite <- Ey. field. lra. }
  pose proof (Z.pow_pos_nonneg 2 (c - cm) ltac:(lia) ltac:(lia)) as Hp.
  destruct C as [[N0 _] | (p & d & K & V & ->)]; [nia |].
  exists p, d. rewrite V, Ev. split; [| reflexivity].
  destruct (Z.leb_spec d 971) as [_ | Hd]; [reflexivity | exfalso].
  destruct K as ([Kp _] & _ & K52). specialize (K52 ltac:(lia)).
  assert (H1 : (inject_Z (2 ^ 52) * pow2 d <= inject_Z (Z.pos p) * pow2 d)%Q).
  { apply Qmult_le_compat_r; [rewrite <- Zle_Qle; exact K52 |].
    apply Qlt_le_weak, pow2_pos. }
  rewrite V, Ev in H1.
  assert (H2 : (pow2 (53 + c) <= pow2 (52 + d))%Q) by (apply pow2_le; lia).
  rewrite (pow2_add 52 d), <- (inject_Z_pow2 52) in H2 by lia.
  lra.
Qed.

(** Aligning a mantissa to a smaller exponent keeps the value. *)
Lemma shl_align_value (m : positive) (e e' : Z) :
  e' <= e ->
  (inject_Z (Z.pos (fst (shl_align m e e'))) * pow2 e'
   == inject_Z (Z.pos m) * pow2 e)%Q.
Proof.
  intros H. unfold shl_align.
  destruct (e' - e) as [|d|d] eqn:E; cbn [fst]; try lia.
  - replace e' with e by lia. reflexivity.
  - rewrite pos_iter_xO, inject_Z_mult.
    replace e with (e' + Z.pos d) by lia.
    rewrite (pow2_shift e' (Z.pos d)) by lia. ring.
Qed.

(** What a number with a natural value looks like. *)
Lemma nat_valued_cases (x : float) (n : Z) :
  nat_valued x n ->
  (n = 0 /\ exists s, Prim2SF x = S754_zero s)
  \/ (0 < n
      /\ exists m e, Prim2SF x = S754_finite false m e
                     /\ bounded prec emax m e = true
                     /\ (inject_Z (Z.pos m) * pow2 e == inject_Z n)%Q).
Proof.
  intros (H0 & C & V). unfold class_of, value_of in *.
  destruct (nonneg_cases x H0) as [[s E] | [E | (m & e & E & B)]]; rewrite E in *.
  - left. cbn [SF2Q] in V. split; [| eauto].
    change 0%Q with (inject_Z 0) in V. apply -> inject_Z_injective in V. lia.
  - discriminate C.
  - right. cbn [SF2Q] in V. pose proof (mantissa_pos m e) as Hm.
    split; [| eauto].
    rewrite V in Hm. change 0%Q with (inject_Z 0) in Hm.
    rewrite <- Zlt_Qlt in Hm. exact Hm.
Qed.

Lemma nat_valued_nonneg (x : float) (n : Z) : nat_valued x n -> 0 <= n.
Proof.
  intros H. destruct (nat_valued_cases _ _ H) as [[-> _] | [Hn _]]; lia.
Qed.

Lemma nat_valued_intro (x : float) (n : Z) (p : positive) (d : Z) :
  Prim2SF x = S754_finite false p d ->
  (inject_Z (Z.pos p) * pow2 d == inject_Z n)%Q ->
  nat_valued x n.
Proof.
  intros E V. unfold nat_valued, num_le, is_number, class_of, value_of.
  rewrite E, Prim2SF_zero. cbn [SFclass SF2Q].
  pose proof (mantissa_pos p d).
  split; [| split; [reflexivity | exact V]].
  split; [discriminate |]. split; [discriminate |]. right. split; [reflexivity | lra].
Qed.

Lemma nat_valued_zero (x : float) (s : bool) :
  Prim2SF x = S754_zero s -> nat_valued x 0.
Proof.
  intros E. unfold nat_valued, num_le, is_number, class_of, value_of.
  rewrite E, Prim2SF_zero. cbn [SFclass SF2Q].
  split; [| split; reflexivity].
  split; [discriminate |]. split; [discriminate |]. right. split; [reflexivity | lra].
Qed.

(** Natural numbers below 2^53 are added without error. *)
Theorem add_nat_valued (x y : float) (a b : Z) :
  nat_valued x a -> nat_valued y b -> a + b < 2 ^ 53 ->
  nat_valued (x + y) (a + b).
Proof.
  intros Hx Hy Hsum.
  destruct (nat_valued_cases _ _ Hx) as [[-> [sx Ex]] | (Ha & mx & ex & Ex & Bx & Vx)];
    destruct (nat_valued_cases _ _ Hy) as [[-> [sy Ey]] | (Hb & my & ey & Ey & By & Vy)].
  - apply (nat_valued_zero _ (if sx then sy else false)).
    rewrite FloatAxioms.add_spec, Ex, Ey. destruct sx, sy; reflexivity.
  - apply (nat_valued_intro _ _ my ey); [| rewrite Vy; reflexivity].
    rewrite FloatAxioms.add_spec, Ex, Ey. reflexivity.
  - replace (a + 0) with a by lia.
    apply (nat_valued_intro _ _ mx ex); [| exact Vx].
    rewrite FloatAxioms.add_spec, Ex, Ey. reflexivity.
  - set (ez := Z.min ex ey).
    assert (R : rounded false (Prim2SF (x + y)) (inject_Z (a + b) * pow2 0)).
    { rewrite FloatAxioms.add_spec, Ex, Ey. unfold SF64add. cbn [SFadd cond_Zopp].
      fold ez. cbn [Z.add binary_normalize].
      eapply rounded_comp; [| apply binary_round_rounded].
      rewrite Pos2Z.inj_add, inject_Z_plus, Qmult_plus_distr_l.
      rewrite (shl_align_value mx ex ez), (shl_align_value my ey ez) by (unfold ez; lia).
      rewrite Vx, Vy, inject_Z_plus, pow2_0. ring. }
    destruct (rounded_exact _ _ _ R ltac:(lia) ltac:(lia)) as (p & d & E & V).
    apply (nat_valued_intro _ _ p d E). rewrite V, pow2_0. ring.
Qed.

(** A natural number below 2^53 is divided by 4 without error. *)
Theorem quarter_nat_valued (x : float) (n : Z) :
  nat_valued x n -> n < 2 ^ 53 ->
  is_number (x / 4) /\ class_of (x / 4) = 0
  /\ (value_of (x / 4) == inject_Z n / 4)%Q.
Proof.
  intros Hx Hn. unfold is_number, class_of, value_of.
  rewrite FloatAxioms.div_spec. unfold SF64div.
  change (Prim2SF 4) with (S754_finite false 4503599627370496 (-50)).
  destruct (nat_valued_cases _ _ Hx) as [[-> [s Ex]] | (Ha & m & e & Ex & B & V)];
    rewrite Ex.
  - cbn. split; [discriminate |]. split; reflexivity.
  - assert (R : rounded false
                  (SFdiv prec emax (S754_finite false m e)
                     (S754_finite false 4503599627370496 (-50)))
                  (inject_Z n * pow2 (-2))).
    { eapply rounded_comp; [| apply (SFdiv_rounded false false)].
      rewrite V.
      assert (E4 : (inject_Z 4503599627370496 * pow2 (-50) == 4)%Q) by reflexivity.
      rewrite E4. change (pow2 (-2)) with (1 # 4)%Q. field. }
    destruct (rounded_exact _ _ _ R ltac:(lia) ltac:(lia)) as (p & d & -> & Vp).
    cbn [SFclass SF2Q]. split; [discriminate |]. split; [reflexivity |].
    rewrite Vp. change (pow2 (-2)) with (1 # 4)%Q. field.
Qed.

(** The mean of four natural numbers, rounded: a half is rounded up. *)
Theorem rounded_mean_of_four (t1 t2 t3 t4 : float) (n1 n2 n3 n4 : Z) :
  nat_valued t1 n1 -> nat_valued t2 n2 -> nat_valued t3 n3 -> nat_valued t4 n4 ->
  n1 + n2 + n3 + n4 < 2 ^ 53 ->
  let mean := ((0 + t1 + t2 + t3 + t4) / 4)%float in
  is_number (Js.Math_round mean) /\ class_of (Js.Math_round mean) = 0
  /\ (value_of (Js.Math_round mean) == inject_Z ((n1 + n2 + n3 + n4 + 2) / 4))%Q.
Proof.
  intros H1 H2 H3 H4 Hsum mean.
  pose proof (nat_valued_nonneg _ _ H1) as P1.
  pose proof (nat_valued_nonneg _ _ H2) as P2.
  pose proof (nat_valued_nonneg _ _ H3) as P3.
  pose proof (nat_valued_nonneg _ _ H4) as P4.
  assert (Z0 : nat_valued 0 0) by (apply (nat_valued_zero _ false); reflexivity).
  pose proof (add_nat_valued _ _ _ _ Z0 H1 ltac:(lia)) as S1.
  pose proof (add_nat_valued _ _ _ _ S1 H2 ltac:(lia)) as S2.
  pose proof (add_nat_valued _ _ _ _ S2 H3 ltac:(lia)) as S3.
  pose proof (add_nat_valued _ _ _ _ S3 H4 ltac:(lia)) as S4.
  destruct (quarter_nat_valued _ _ S4 ltac:(lia)) as (Nm & Cm & Vm).
  fold mean in Nm, Cm, Vm.
  destruct (Math_round_value mean Nm Cm) as (Nr & Cr & Vr).
  split; [exact Nr |]. split; [exact Cr |].
  rewrite Vr. apply inject_Z_injective.
  rewrite <- (Qfloor_div (n1 + n2 + n3 + n4 + 2) 4) by lia.
  apply Qfloor_comp. rewrite Vm.
  replace (0 + n1 + n2 + n3 + n4) with (n1 + n2 + n3 + n4) by lia.
  rewrite (inject_Z_plus _ 2). change (inject_Z 4) with 4%Q.
  change (inject_Z 2) with 2%Q. field.
Qed.

(** * Properties of the services *)

(** ** Lesson controller: authorisation precedes the service *)

Section ControllerGuards.
Import PhysicsLessonController.


(** C8. An update or delete request for a lesson that does not exist
    fails with 404, and a request by a user who is neither the
    creator of the lesson nor an admin fails with 403; in both cases
    no service operation has been invoked. *)
Theorem lesson_write_guarded (w : world) (req : request) :
  (w _ (LessonFindById (params_id req)) = None ->
     fails_before_service w (updateLesson req) 404
     /\ fails_before_service w (deleteLesson req) 404)
  /\ (forall l : lesson,
        w _ (LessonFindById (params_id req)) = Some l ->
        createdBy l <> id (req_user req) ->
        role (req_user req) <> "admin" ->
        fails_before_service w (updateLesson req) 403
        /\ fails_before_service w (deleteLesson req) 403).
Proof.
  split.
  - intros Hnone.
    split; unfold fails_before_service, updateLesson, deleteLesson;
      cbn [run]; rewrite Hnone; cbn; eauto.
  - intros l Hsome Hown Hrole.
    assert (Hguard : not_owner_nor_admin l (req_user req) = true).
    { unfold not_owner_nor_admin.
      apply andb_true_intro; split; apply negb_true_iff, String.eqb_neq; auto. }
    split; unfold fails_before_service, updateLesson, deleteLesson;
      cbn [run]; rewrite Hsome, Hguard; cbn; eauto.
Qed.

End ControllerGuards.

Lemma lesson_write_guarded_witness :
  (sample_world _ (PhysicsLessonController.LessonFindById "l9") = None
   /\ fails_before_service sample_world
        (PhysicsLessonController.updateLesson (sample_request "l9" "u2" "student")) 404
   /\ fails_before_service sample_world
        (PhysicsLessonController.deleteLesson (sample_request "l9" "u2" "student")) 404)
  /\ (sample_world _ (PhysicsLessonController.LessonFindById "l1")
        = Some (PhysicsLessonController.mkLesson "u1")
      /\ "u1" <> "u2" /\ "student" <> "admin"
      /\ fails_before_service sample_world
           (PhysicsLessonController.updateLesson (sample_request "l1" "u2" "student")) 403
      /\ fails_before_service sample_world
           (PhysicsLessonController.deleteLesson (sample_request "l1" "u2" "student")) 403).
Proof.
  split.
  - split; [reflexivity |].
    apply (proj1 (lesson_write_guarded sample_world (sample_request "l9" "u2" "student"))).
    reflexivity.
  - split; [reflexivity |].
    split; [discriminate |].
    split; [discriminate |].
    apply (proj2 (lesson_write_guarded sample_world (sample_request "l1" "u2" "student"))
             (PhysicsLessonController.mkLesson "u1"));
      [reflexivity | discriminate | discriminate].
Defined.

(** ** Quiz service *)

Section QuizProperties.
Import Quiz QuizService.

Lemma find_quiz_none (quizId : ObjectId) (s : db) :
  no_results quizId s ->
  List.filter (fun r => String.eqb (QuizResult.quizId r) quizId) (quizResults s) = [].
Proof.
  unfold no_results. induction 1 as [|r rs Hr _ IH]; [reflexivity |].
  cbn. apply String.eqb_neq in Hr. rewrite Hr. exact IH.
Qed.

Lemma find_quiz_some (quizId : ObjectId) (s : db) :
  has_results quizId s ->
  List.filter (fun r => String.eqb (QuizResult.quizId r) quizId) (quizResults s) <> [].
Proof.
  unfold has_results. induction 1 as [r rs Hr | r rs _ IH]; cbn.
  - apply String.eqb_eq in Hr. rewrite Hr. discriminate.
  - destruct (String.eqb (QuizResult.quizId r) quizId); [discriminate | exact IH].
Qed.

(** C10. For a quiz without results, updateQuizAnalytics returns
    `undefined` and leaves the store, hence the stored analytics of the
    quiz, as it was. *)
Theorem updateQuizAnalytics_no_results (quizId : ObjectId) (s : db) :
  no_results quizId s ->
  updateQuizAnalytics quizId s = (Returned None, s).
Proof.
  intros Hno.
  unfold updateQuizAnalytics, try_catch, bind, QuizResultModel.find_quiz.
  rewrite (find_quiz_none _ _ Hno). reflexivity.
Qed.

Lemma updateQuizAnalytics_no_results_witness :
  no_results "q2" sample_db
  /\ updateQuizAnalytics "q2" sample_db = (Returned None, sample_db).
Proof.
  assert (H : no_results "q2" sample_db).
  { unfold no_results. cbn. repeat constructor; discriminate. }
  split; [exact H | exact (updateQuizAnalytics_no_results "q2" sample_db H)].
Defined.

(** C4. Deleting a stored quiz that no result refers to removes it,
    and getQuizById then fails with 404; deleting one that some result
    refers to keeps it retrievable with isActive = false.  The two
    outcomes carry different messages. *)
Theorem deleteQuiz_hard_or_soft (quizId : ObjectId) (s : db) (q : Quiz.t) :
  quizzes s !! quizId = Some q ->
  Quiz._id q = quizId ->
  (no_results quizId s ->
     exists s',
       deleteQuiz quizId s
         = (Returned (mkResponse 200 tt (Some "Quiz deleted successfully")), s')
       /\ quizResults s' = quizResults s
       /\ forall includeQuestions,
            getQuizById quizId includeQuestions s'
              = (Thrown (ApiError 404 "Quiz not found" []), s'))
  /\ (has_results quizId s ->
        exists s',
          deleteQuiz quizId s
            = (Returned
                 (mkResponse 200 tt
                    (Some "Quiz deactivated successfully (has existing results)")), s')
          /\ forall includeQuestions,
               getQuizById quizId includeQuestions s'
                 = (Returned
                      (mkResponse 200 (set_isActive false q)
                         (Some "Quiz retrieved successfully")), s')
               /\ isActive (set_isActive false q) = false)
  /\ "Quiz deleted successfully"
       <> "Quiz deactivated successfully (has existing results)".
Proof.
  intros Hq Hid. split; [| split; [| discriminate]].
  - intros Hno.
    eexists. split; [| split].
    + unfold deleteQuiz, try_catch, bind, QuizModel.findById,
        QuizResultModel.exists_quiz, QuizResultModel.find_quiz.
      rewrite Hq. cbn. rewrite (find_quiz_none _ _ Hno). reflexivity.
    + reflexivity.
    + intros incl.
      unfold getQuizById, try_catch, bind, QuizModel.findById. cbn.
      rewrite lookup_delete_eq. reflexivity.
  - intros Hsome.
    pose proof (find_quiz_some _ _ Hsome) as Hne.
    eexists. split.
    + unfold deleteQuiz, try_catch, bind, QuizModel.findById,
        QuizResultModel.exists_quiz, QuizResultModel.find_quiz.
      rewrite Hq. cbn.
      destruct (List.filter _ (quizResults s)); [congruence |].
      reflexivity.
    + intros incl. split; [| reflexivity].
      unfold getQuizById, try_catch, bind, QuizModel.findById. cbn.
      rewrite Hid, lookup_insert_eq. reflexivity.
Qed.

Lemma deleteQuiz_hard_or_soft_witness :
  (quizzes sample_db !! "q2" = Some (sample_quiz "q2" 1 ["x1"])
   /\ no_results "q2" sample_db
   /\ exists s',
        deleteQuiz "q2" sample_db
          = (Returned (mkResponse 200 tt (Some "Quiz deleted successfully")), s')
        /\ quizResults s' = quizResults sample_db
        /\ forall includeQuestions,
             getQuizById "q2" includeQuestions s'
               = (Thrown (ApiError 404 "Quiz not found" []), s'))
  /\ (quizzes sample_db !! "q1" = Some (sample_quiz "q1" 1 ["x1"])
      /\ has_results "q1" sample_db
      /\ exists s',
           deleteQuiz "q1" sample_db
             = (Returned
                  (mkResponse 200 tt
                     (Some "Quiz deactivated successfully (has existing results)")), s')
           /\ forall includeQuestions,
                getQuizById "q1" includeQuestions s'
                  = (Returned
                       (mkResponse 200 (set_isActive false (sample_quiz "q1" 1 ["x1"]))
                          (Some "Quiz retrieved successfully")), s')
                /\ isActive (set_isActive false (sample_quiz "q1" 1 ["x1"])) = false).
Proof.
  assert (H2 : quizzes sample_db !! "q2" = Some (sample_quiz "q2" 1 ["x1"]))
    by (vm_compute; reflexivity).
  assert (H1 : quizzes sample_db !! "q1" = Some (sample_quiz "q1" 1 ["x1"]))
    by (vm_compute; reflexivity).
  assert (Hno : no_results "q2" sample_db)
    by (unfold no_results; cbn; repeat constructor; discriminate).
  assert (Hsome : has_results "q1" sample_db)
    by (unfold has_results; cbn; constructor; reflexivity).
  split.
  - split; [exact H2 |]. split; [exact Hno |].
    exact (proj1 (deleteQuiz_hard_or_soft "q2" sample_db _ H2 eq_refl) Hno).
  - split; [exact H1 |]. split; [exact Hsome |].
    exact (proj1 (proj2 (deleteQuiz_hard_or_soft "q1" sample_db _ H1 eq_refl)) Hsome).
Defined.

(** What [recount] leaves in the update document when both fields are
    supplied and the count is not zero. *)
Lemma recount_both (u : patch) (ids : list ObjectId) (n : Z) :
  p_questionIds u = Some ids ->
  p_totalQuestions u = Some n ->
  n <> 0 ->
  p_totalQuestions (recount u) = Some (Z.of_nat (length ids))
  /\ p_questionIds (recount u) = Some ids.
Proof.
  intros Hids Hn Hnz. unfold recount. rewrite Hids, Hn. cbn.
  destruct (Z.eqb_spec n 0) as [|_]; [contradiction |]. cbn.
  destruct (Z.eqb_spec (Z.of_nat (length ids)) n) as [Heq | Hne]; cbn.
  - rewrite Hids, Hn, Heq. auto.
  - rewrite Hids. auto.
Qed.

(** An update that returns has stored the patched document. *)
Lemma updateQuiz_returned (validators : patch -> list string)
    (quizId : ObjectId) (u : patch) (now : Z) (s s' : db)
    (resp : ApiResponse Quiz.t) :
  updateQuiz validators quizId u now s = (Returned resp, s') ->
  exists q,
    quizzes s !! quizId = Some q
    /\ quizzes s' !! quizId = Some (apply_patch (recount u) now q)
    /\ data resp = apply_patch (recount u) now q.
Proof.
  unfold updateQuiz, try_catch, bind, QuizModel.findByIdAndUpdate.
  destruct (validators (recount u)) as [|m ms]; cbn.
  - destruct (quizzes s !! quizId) as [q|] eqn:Hq; cbn; [| discriminate].
    intros [= <- <-]. exists q. cbn. rewrite lookup_insert_eq. auto.
  - discriminate.
Qed.

(** C1, as amended.  When an update supplies questionIds together
    with a non-zero totalQuestions and returns, the stored
    totalQuestions is the length of the supplied questionIds, whatever
    count was passed. *)
Theorem updateQuiz_recounts_when_both_supplied
    (validators : patch -> list string) (quizId : ObjectId) (u : patch)
    (now : Z) (s s' : db) (resp : ApiResponse Quiz.t)
    (ids : list ObjectId) (n : Z) :
  p_questionIds u = Some ids ->
  p_totalQuestions u = Some n ->
  n <> 0 ->
  updateQuiz validators quizId u now s = (Returned resp, s') ->
  exists q',
    quizzes s' !! quizId = Some q'
    /\ questionIds q' = ids
    /\ totalQuestions q' = Z.of_nat (length ids).
Proof.
  intros Hids Hn Hnz Hret.
  destruct (updateQuiz_returned _ _ _ _ _ _ _ Hret) as (q & _ & Hq' & _).
  destruct (recount_both u ids n Hids Hn Hnz) as [Htq Hqi].
  eexists. split; [exact Hq' |].
  cbn. rewrite Htq, Hqi. auto.
Qed.

(** An update that supplies no totalQuestions keeps the stored one. *)
Lemma updateQuiz_without_count (validators : patch -> list string)
    (quizId : ObjectId) (u : patch) (now : Z) (s s' : db)
    (resp : ApiResponse Quiz.t) (q : Quiz.t) :
  p_totalQuestions u = None ->
  quizzes s !! quizId = Some q ->
  updateQuiz validators quizId u now s = (Returned resp, s') ->
  exists q',
    quizzes s' !! quizId = Some q'
    /\ totalQuestions q' = totalQuestions q.
Proof.
  intros Hnone Hq Hret.
  destruct (updateQuiz_returned _ _ _ _ _ _ _ Hret) as (q0 & Hq0 & Hq' & _).
  assert (q0 = q) as -> by congruence.
  eexists. split; [exact Hq' |].
  unfold recount. rewrite Hnone. cbn [Js.truthy_number andb].
  rewrite andb_false_r. cbn. now rewrite Hnone.
Qed.

Lemma updateQuiz_recounts_when_both_supplied_witness :
  7 <> 0
  /\ exists q',
       quizzes (snd sample_update_both) !! "q1" = Some q'
       /\ questionIds q' = ["x1"; "x2"; "x3"]
       /\ totalQuestions q' = 3.
Proof.
  split; [discriminate |].
  apply (updateQuiz_recounts_when_both_supplied accept_all "q1"
           (questions_patch ["x1"; "x2"; "x3"] (Some 7)) 9000 sample_db
           (snd sample_update_both)
           (mkResponse 200
              (apply_patch (questions_patch ["x1"; "x2"; "x3"] (Some 3)) 9000
                 (sample_quiz "q1" 1 ["x1"]))
              (Some "Quiz updated successfully"))
           ["x1"; "x2"; "x3"] 7 eq_refl eq_refl).
  - discriminate.
  - vm_compute. reflexivity.
Defined.

(** C1 as worded fails: an update that supplies three questionIds and
    no totalQuestions leaves the stored count, 1, in place. *)
Lemma updateQuiz_without_count_keeps_old_count :
  ~ recount_on_every_change.
Proof.
  intros H.
  destruct (H accept_all "q1" (questions_patch ["x1"; "x2"; "x3"] None) 9000
              sample_db (snd sample_update_ids_only)
              (mkResponse 200
                 (apply_patch (questions_patch ["x1"; "x2"; "x3"] None) 9000
                    (sample_quiz "q1" 1 ["x1"]))
                 (Some "Quiz updated successfully"))
              (sample_quiz "q1" 1 ["x1"]) ["x1"; "x2"; "x3"])
    as (q' & Hq' & Hcount).
  - vm_compute. reflexivity.
  - reflexivity.
  - discriminate.
  - vm_compute. reflexivity.
  - vm_compute in Hq'. injection Hq' as <-. discriminate Hcount.
Qed.

(** C6. For a quiz whose four results have the scores 10, 15, 18 and
    20, updateQuizAnalytics returns and stores totalAttempts = 4,
    averageScore = 16, completionRate = 100, and as averageTime the
    mean of the four timeTaken values (their sum, added up from 0 in
    the order of the results, divided by 4) rounded by `Math.round`:
    where that mean is finite, the integer nearest to it, a half
    being rounded up.  When the four times are whole numbers, not
    negative and with a sum below 2^53, nothing is lost in adding and
    dividing them, and averageTime is their exact mean rounded:
    (n1 + n2 + n3 + n4 + 2) div 4. *)
Theorem updateQuizAnalytics_four_results (quizId : ObjectId) (s : db)
    (r1 r2 r3 r4 : QuizResult.t) :
  List.filter (fun r => String.eqb (QuizResult.quizId r) quizId) (quizResults s)
    = [r1; r2; r3; r4] ->
  QuizResult.score r1 = 10%float ->
  QuizResult.score r2 = 15%float ->
  QuizResult.score r3 = 18%float ->
  QuizResult.score r4 = 20%float ->
  let meanTime :=
    ((0 + QuizResult.timeTaken r1 + QuizResult.timeTaken r2
      + QuizResult.timeTaken r3 + QuizResult.timeTaken r4) / 4)%float in
  exists (a : analytics) (s' : db),
    updateQuizAnalytics quizId s
      = (Returned
           (Some (mkResponse 200 a (Some "Quiz analytics updated successfully"))),
         s')
    /\ totalAttempts a = 4
    /\ averageScore a = 16%float
    /\ completionRate a = 100%float
    /\ averageTime a = Js.Math_round meanTime
    /\ (is_number meanTime -> class_of meanTime = 0 ->
        is_number (averageTime a) /\ class_of (averageTime a) = 0
        /\ (value_of (averageTime a)
            == inject_Z (Qfloor (value_of meanTime + (1 # 2))))%Q)
    /\ (forall n1 n2 n3 n4 : Z,
          nat_valued (QuizResult.timeTaken r1) n1 ->
          nat_valued (QuizResult.timeTaken r2) n2 ->
          nat_valued (QuizResult.timeTaken r3) n3 ->
          nat_valued (QuizResult.timeTaken r4) n4 ->
          n1 + n2 + n3 + n4 < 2 ^ 53 ->
          is_number (averageTime a) /\ class_of (averageTime a) = 0
          /\ (value_of (averageTime a)
              == inject_Z ((n1 + n2 + n3 + n4 + 2) / 4))%Q)
    /\ (forall q, quizzes s !! quizId = Some q ->
                  quizzes s' !! quizId = Some (set_analytics a q)).
Proof.
  intros Hrs H1 H2 H3 H4 meanTime.
  exists (compute_analytics [r1; r2; r3; r4]).
  exists (snd (QuizModel.findByIdAndUpdate quizId
                 (set_analytics (compute_analytics [r1; r2; r3; r4])) s)).
  split; [| split; [| split; [| split; [| split; [| split; [| split]]]]]].
  - unfold updateQuizAnalytics, try_catch, bind, QuizResultModel.find_quiz.
    rewrite Hrs. cbn [length Nat.eqb]. cbv beta iota.
    unfold QuizModel.findByIdAndUpdate.
    destruct (quizzes s !! quizId); reflexivity.
  - reflexivity.
  - unfold compute_analytics, sum_by. cbn [averageScore fold_left].
    rewrite H1, H2, H3, H4. vm_compute. reflexivity.
  - unfold compute_analytics. cbn [completionRate List.filter].
    rewrite H1, H2, H3, H4. vm_compute. reflexivity.
  - reflexivity.
  - intros Nm Cm. apply Math_round_value; assumption.
  - intros n1 n2 n3 n4 T1 T2 T3 T4 Hsum.
    exact (rounded_mean_of_four _ _ _ _ _ _ _ _ T1 T2 T3 T4 Hsum).
  - intros q Hq. cbn [snd]. unfold QuizModel.findByIdAndUpdate. rewrite Hq.
    cbn [quizzes]. apply lookup_insert_eq.
Qed.

Lemma updateQuizAnalytics_four_results_witness :
  List.filter (fun r => String.eqb (QuizResult.quizId r) "q1") (quizResults sample_db)
    = [ sample_result "r1" "u1" 10 30 2000; sample_result "r2" "u2" 15 45 3000;
        sample_result "r3" "u1" 18 50 5000; sample_result "r4" "u3" 20 62 4000 ]%float
  /\ ((0 + 30 + 45 + 50 + 62) / 4 = 46.75)%float
  /\ exists (a : analytics) (s' : db),
       updateQuizAnalytics "q1" sample_db
         = (Returned
              (Some (mkResponse 200 a (Some "Quiz analytics updated successfully"))),
            s')
       /\ totalAttempts a = 4
       /\ averageScore a = 16%float
       /\ completionRate a = 100%float
       /\ averageTime a = 47%float
       /\ (forall q, quizzes sample_db !! "q1" = Some q ->
                     quizzes s' !! "q1" = Some (set_analytics a q)).
Proof.
  split; [reflexivity |]. split; [vm_compute; reflexivity |].
  destruct (updateQuizAnalytics_four_results "q1" sample_db
              (sample_result "r1" "u1" 10 30 2000) (sample_result "r2" "u2" 15 45 3000)
              (sample_result "r3" "u1" 18 50 5000) (sample_result "r4" "u3" 20 62 4000)
              eq_refl eq_refl eq_refl eq_refl eq_refl)
    as (a & s' & Hret & Hn & Hscore & Hrate & Htime & _ & _ & Hstore).
  exists a, s'. repeat split; assumption.
Defined.

(** The count a bucket reports is the number of results that pass the
    range test of the bucket. *)
Lemma bucket_count (results : list QuizResult.t) (totalPoints : float)
    (j : nat) (rg : range) :
  ranges totalPoints !! j = Some rg ->
  calculateScoreDistribution results totalPoints !! j
  = Some (label rg, length (List.filter (in_range rg) results)).
Proof.
  intros Hj. unfold calculateScoreDistribution.
  change (map ?f ?l) with (f <$> l). rewrite list_lookup_fmap, Hj. reflexivity.
Qed.

(** The bounds of the five buckets increase strictly when totalPoints
    is an ordinary number. *)
Lemma ranges_increasing (totalPoints : float) (k : nat) (rg : range) :
  ordinary totalPoints ->
  ranges totalPoints !! k = Some rg ->
  (k < 4)%nat ->
  (min rg <? max rg)%float = true.
Proof.
  intros Hord Hk Hlt. apply ltb_num_lt.
  destruct k as [|[|[|[|k]]]]; try lia; injection Hk as <-; cbn [min max].
  - apply (mul_positive 0.2 7205759403792794 (-55));
      try reflexivity; try exact Hord; vm_compute; discriminate.
  - apply (mul_strict 0.2 0.4 7205759403792794 7205759403792794 (-55) (-54));
      try reflexivity; try exact Hord; vm_compute; discriminate.
  - apply (mul_strict 0.4 0.6 7205759403792794 5404319552844595 (-54) (-53));
      try reflexivity; try exact Hord; vm_compute; discriminate.
  - apply (mul_strict 0.6 0.8 5404319552844595 7205759403792794 (-53) (-53));
      try reflexivity; try exact Hord; vm_compute; discriminate.
Qed.

(** C5, as amended.  Each of the five buckets counts the results that
    pass the test min < score <= max, the bounds being 0,
    totalPoints * 0.2, ..., totalPoints * 0.8, totalPoints.  For a
    finite totalPoints of at least 2^-1018 (every totalPoints >= 1 is
    one), a result whose score equals the common bound of two buckets
    is counted in the lower one and not in the upper one: adding it to
    the results raises the count of the lower bucket by one and leaves
    that of the upper bucket as it is. *)
Theorem boundary_score_in_lower_bucket (totalPoints : float)
    (results : list QuizResult.t) (r : QuizResult.t) (k : nat)
    (lower upper : range) :
  ordinary totalPoints ->
  ranges totalPoints !! k = Some lower ->
  ranges totalPoints !! S k = Some upper ->
  (QuizResult.score r =? max lower)%float = true ->
  let counted (rg : range) (rs : list QuizResult.t) : nat :=
    length
      (List.filter
         (fun r' => (min rg <? QuizResult.score r')%float
                    && (QuizResult.score r' <=? max rg)%float) rs) in
  (forall j rg rs,
     ranges totalPoints !! j = Some rg ->
     calculateScoreDistribution rs totalPoints !! j = Some (label rg, counted rg rs))
  /\ max lower = (totalPoints * nth k [0.2; 0.4; 0.6; 0.8] 0)%float
  /\ min upper = max lower
  /\ in_range lower r = true
  /\ in_range upper r = false
  /\ calculateScoreDistribution (r :: results) totalPoints !! k
     = Some (label lower, S (counted lower results))
  /\ calculateScoreDistribution (r :: results) totalPoints !! S k
     = Some (label upper, counted upper results).
Proof.
  intros Hord Hlo Hup Hscore counted.
  assert (Hk : (k < 4)%nat).
  { apply lookup_lt_Some in Hup. cbn in Hup. lia. }
  assert (Hadj : min upper = max lower).
  { destruct k as [|[|[|[|k]]]]; try lia;
      injection Hlo as <-; injection Hup as <-; reflexivity. }
  assert (Hmax : max lower = (totalPoints * nth k [0.2; 0.4; 0.6; 0.8] 0)%float).
  { destruct k as [|[|[|[|k]]]]; try lia; injection Hlo as <-; reflexivity. }
  pose proof (ranges_increasing _ _ _ Hord Hlo Hk) as Hinc.
  apply ltb_num_lt in Hinc.
  destruct (eqb_num_le _ _ Hscore) as [Hle Hge].
  assert (Hin : in_range lower r = true).
  { unfold in_range, Js.gt, Js.le. apply andb_true_intro. split.
    - apply ltb_num_lt. exact (num_lt_le_trans _ _ _ Hinc Hge).
    - apply leb_num_le. exact Hle. }
  assert (Hout : in_range upper r = false).
  { unfold in_range, Js.gt. rewrite Hadj. apply andb_false_intro1.
    apply ltb_false_not_lt. apply num_le_not_lt. exact Hle. }
  split; [intros j rg rs Hj; apply bucket_count; exact Hj |].
  split; [exact Hmax |]. split; [exact Hadj |].
  split; [exact Hin |]. split; [exact Hout |].
  rewrite (bucket_count _ _ _ _ Hlo), (bucket_count _ _ _ _ Hup).
  cbn [List.filter]. rewrite Hin, Hout. split; reflexivity.
Qed.

Lemma boundary_score_in_lower_bucket_witness :
  ordinary 3
  /\ (3 * 0.6 = 1.7999999999999998)%float
  /\ in_range (mkRange "41-60%" (3 * 0.4) (3 * 0.6))
       (sample_result "r5" "u4" (3 * 0.6) 10 6000) = true
  /\ in_range (mkRange "61-80%" (3 * 0.6) (3 * 0.8))
       (sample_result "r5" "u4" (3 * 0.6) 10 6000) = false
  /\ calculateScoreDistribution
       [sample_result "r5" "u4" (3 * 0.6) 10 6000; sample_result "r6" "u5" 1.8 10 7000] 3
     = [("0-20%", 0); ("21-40%", 0); ("41-60%", 1); ("61-80%", 1); ("81-100%", 0)]%nat.
Proof.
  assert (Hord : ordinary 3) by (split; vm_compute; reflexivity).
  destruct (boundary_score_in_lower_bucket 3
              [sample_result "r6" "u5" 1.8 10 7000]
              (sample_result "r5" "u4" (3 * 0.6) 10 6000) 2
              (mkRange "41-60%" (3 * 0.4) (3 * 0.6))
              (mkRange "61-80%" (3 * 0.6) (3 * 0.8))
              Hord eq_refl eq_refl ltac:(vm_compute; reflexivity))
    as (_ & _ & _ & Hin & Hout & _ & _).
  split; [exact Hord |]. split; [vm_compute; reflexivity |].
  split; [exact Hin |]. split; [exact Hout |].
  vm_compute. reflexivity.
Defined.

(** C5 as worded fails for a quiz with totalPoints = 0: every bound
    is 0, so a score of 0 lies on the common bound of the first two
    buckets and is counted in neither, nor in any other bucket.  The
    same happens for a totalPoints so small that totalPoints * 0.2 is
    rounded to 0. *)
Lemma boundary_score_of_zero_points :
  ranges 0 !! 0%nat = Some (mkRange "0-20%" 0 (0 * 0.2))
  /\ (0 * 0.2 = 0)%float
  /\ calculateScoreDistribution [sample_result "r5" "u4" 0 10 6000] 0
     = [("0-20%", 0); ("21-40%", 0); ("41-60%", 0); ("61-80%", 0); ("81-100%", 0)]%nat
  /\ (0 <? 5e-324)%float = true /\ (5e-324 * 0.2 = 0)%float
  /\ calculateScoreDistribution [sample_result "r5" "u4" 0 10 6000] 5e-324
     = [("0-20%", 0); ("21-40%", 0); ("41-60%", 0); ("61-80%", 0); ("81-100%", 0)]%nat
  /\ ~ boundary_always_in_lower.
Proof.
  split; [reflexivity |]. split; [vm_compute; reflexivity |].
  split; [vm_compute; reflexivity |]. split; [vm_compute; reflexivity |].
  split; [vm_compute; reflexivity |]. split; [vm_compute; reflexivity |].
  intros H.
  destruct (H 0%float (sample_result "r5" "u4" 0 10 6000) 0%nat
              (mkRange "0-20%" 0 (0 * 0.2)) (mkRange "21-40%" (0 * 0.2) (0 * 0.4))
              eq_refl eq_refl) as [Hin _].
  - vm_compute. reflexivity.
  - vm_compute in Hin. discriminate Hin.
Qed.





End QuizProperties.

(** ** Listing: pagination and the filter on the status *)

Section Listing.


Lemma limit_length {A} (n : Z) (l : list A) :
  0 < n -> Z.of_nat (length (Mongo.limit n l)) <= n.
Proof.
  intros Hn. unfold Mongo.limit.
  destruct (Z.eqb_spec n 0); [lia |].
  rewrite length_take. lia.
Qed.

Lemma limit_subseteq {A} (n : Z) (l : list A) : Mongo.limit n l ⊆ l.
Proof.
  unfold Mongo.limit. destruct (n =? 0); [reflexivity | apply subseteq_take].
Qed.

Lemma skip_subseteq {A} (n : Z) (l l' : list A) :
  Mongo.skip n l = Returned l' -> l' ⊆ l.
Proof.
  unfold Mongo.skip. destruct (n <? 0); [discriminate |].
  intros [= <-]. apply subseteq_drop.
Qed.

Lemma sort_Permutation {A} (key : A -> Mongo.key) (dir : Z) (l : list A) :
  Mongo.sort key dir l ≡ₚ l.
Proof.
  unfold Mongo.sort. destruct (dir =? 1); apply merge_sort_Permutation.
Qed.

(** The page of a listing is drawn from the selected documents. *)
Lemma page_subseteq {A} (key : A -> Mongo.key) (dir skip limit : Z)
    (found skipped : list A) :
  Mongo.skip skip (Mongo.sort key dir found) = Returned skipped ->
  Mongo.limit limit skipped ⊆ found.
Proof.
  intros Hskip x Hx.
  apply limit_subseteq in Hx. apply (skip_subseteq _ _ _ Hskip) in Hx.
  now rewrite sort_Permutation in Hx.
Qed.

(** What a returning getSubjects has computed. *)
Lemma getSubjects_returned (q : SubjectService.query) (docs docs' : list Subject.t)
    (subjects : list Subject.t) (pg : SubjectService.pagination) :
  SubjectService.getSubjects q docs = (Returned (subjects, pg), docs') ->
  let page := default 1 (SubjectService.q_page q) in
  let limit := default 10 (SubjectService.q_limit q) in
  exists found skipped,
    SubjectService.select (SubjectService.build_filter q) docs = Returned found
    /\ Mongo.skip ((page - 1) * limit)
         (Mongo.sort
            (SubjectService.sort_key (default "name" (SubjectService.q_sortBy q)))
            (if String.eqb (default "asc" (SubjectService.q_sortOrder q)) "desc"
             then -1 else 1)
            found)
       = Returned skipped
    /\ subjects = Mongo.limit limit skipped
    /\ pg = {| SubjectService.currentPage := page;
               SubjectService.totalPages := Js.ceil_div (Z.of_nat (length found)) limit;
               SubjectService.totalCount := Z.of_nat (length found);
               SubjectService.hasNextPage :=
                 Js.lt_num page (Js.ceil_div (Z.of_nat (length found)) limit);
               SubjectService.hasPrevPage := 1 <? page |}
    /\ docs' = docs.
Proof.
  intros Hret page limit. revert Hret. subst page limit.
  unfold SubjectService.getSubjects, bind, get, lift, ret.
  destruct (SubjectService.select _ docs) as [found|e] eqn:Hsel; [| discriminate].
  destruct (Mongo.skip _ _) as [skipped|e] eqn:Hskip; [| discriminate].
  intros [= <- <- <-]. exists found, skipped. auto 10.
Qed.

(** What a returning getAllQuizzes has computed. *)
Lemma getAllQuizzes_returned (filters : QuizService.query)
    (o : QuizService.options) (s s' : db)
    (resp : ApiResponse (list Quiz.t * QuizService.pagination)) :
  QuizService.getAllQuizzes filters o s = (Returned resp, s') ->
  let page := default 1 (QuizService.o_page o) in
  let limit := default 10 (QuizService.o_limit o) in
  exists found skipped,
    QuizService.select (QuizService.assign (QuizService.build_query o) filters)
      (snd <$> map_to_list (quizzes s)) = Returned found
    /\ Mongo.skip ((page - 1) * limit)
         (Mongo.sort
            (QuizService.sort_key (default "createdAt" (QuizService.o_sortBy o)))
            (if String.eqb (default "desc" (QuizService.o_sortOrder o)) "desc"
             then -1 else 1)
            found)
       = Returned skipped
    /\ resp = mkResponse 200
         (Mongo.limit limit skipped,
          {| QuizService.currentPage := page;
             QuizService.totalPages := Js.ceil_div (Z.of_nat (length found)) limit;
             QuizService.totalItems := Z.of_nat (length found);
             QuizService.itemsPerPage := limit;
             QuizService.hasNext :=
               Js.lt_num page (Js.ceil_div (Z.of_nat (length found)) limit);
             QuizService.hasPrev := 1 <? page |})
         (Some "Quizzes retrieved successfully")
    /\ s' = s.
Proof.
  intros Hret page limit. revert Hret. subst page limit.
  unfold QuizService.getAllQuizzes, try_catch, bind, lift, ret, QuizModel.all,
    QuizService.wrap_all, throw.
  destruct (Js.truthy_string (QuizService.o_search o)).
  - destruct (Mongo.regex_of _) as [re|e]; [| discriminate].
    destruct (QuizService.select _ _) as [found|e] eqn:Hsel; [| discriminate].
    destruct (Mongo.skip _ _) as [skipped|e] eqn:Hskip; [| discriminate].
    intros [= <- <-]. exists found, skipped. auto 10.
  - destruct (QuizService.select _ _) as [found|e] eqn:Hsel; [| discriminate].
    destruct (Mongo.skip _ _) as [skipped|e] eqn:Hskip; [| discriminate].
    intros [= <- <-]. exists found, skipped. auto 10.
Qed.





(** The documents a filter selects are documents of the collection
    that satisfy its field clauses. *)
Lemma select_sound (f : SubjectService.filter) (docs found : list Subject.t) :
  SubjectService.select f docs = Returned found ->
  forall s, s ∈ found -> s ∈ docs /\ SubjectService.matches_fields f s = true.
Proof.
  unfold SubjectService.select.
  destruct (SubjectService.f_or f) as [term|].
  - destruct (Mongo.regex_of term) as [re|e]; [| discriminate].
    intros [= <-] s Hs. apply list_elem_of_In, filter_In in Hs.
    destruct Hs as [Hin Hm]. apply andb_true_iff in Hm.
    split; [apply list_elem_of_In, Hin | apply Hm].
  - intros [= <-] s Hs. apply list_elem_of_In, filter_In in Hs.
    destruct Hs as [Hin Hm]. split; [apply list_elem_of_In, Hin | exact Hm].
Qed.

Lemma matches_fields_status (f : SubjectService.filter) (s : Subject.t) :
  SubjectService.matches_fields f s = true ->
  Subject.status s = SubjectService.f_status f.
Proof.
  unfold SubjectService.matches_fields. rewrite !andb_true_iff.
  intros H. apply String.eqb_eq. tauto.
Qed.

(** Every listed subject is a stored subject whose status is "active". *)
Lemma getSubjects_listed (q : SubjectService.query) (docs docs' : list Subject.t)
    (subjects : list Subject.t) (pg : SubjectService.pagination) :
  SubjectService.getSubjects q docs = (Returned (subjects, pg), docs') ->
  forall s, s ∈ subjects -> s ∈ docs /\ Subject.status s = "active".
Proof.
  intros Hret s Hs.
  destruct (getSubjects_returned _ _ _ _ _ Hret)
    as (found & skipped & Hsel & Hskip & -> & _ & _).
  apply (page_subseteq _ _ _ _ _ _ Hskip) in Hs.
  destruct (select_sound _ _ _ Hsel s Hs) as [Hin Hm].
  split; [exact Hin |]. apply (matches_fields_status _ _ Hm).
Qed.

(** After deleteSubject, every stored subject with the identifier is
    inactive, provided identifiers are unique in the collection. *)
Lemma deleteSubject_inactive (subjectId : ObjectId) (docs docs' : list Subject.t) :
  NoDup (Subject._id <$> docs) ->
  SubjectService.deleteSubject subjectId docs = (Returned tt, docs') ->
  forall s, s ∈ docs' -> Subject._id s = subjectId ->
            Subject.status s = "inactive" /\ Subject.isActive s = false.
Proof.
  unfold SubjectService.deleteSubject, bind, Subject.findById, Subject.findOne,
    Subject.findByIdAndUpdate, modify, throw.
  intros Hnodup.
  destruct (List.find _ docs); [| discriminate].
  intros [= <-]. clear -Hnodup.
  induction docs as [|d rest IH]; cbn; intros s Hs Hid.
  - inversion Hs.
  - apply NoDup_cons in Hnodup. destruct Hnodup as [Hfresh Hnodup].
    destruct (String.eqb_spec (Subject._id d) subjectId) as [Hd | Hd].
    + apply elem_of_cons in Hs. destruct Hs as [-> | Hs]; [auto |].
      exfalso. apply Hfresh. rewrite Hd, <- Hid.
      apply list_elem_of_fmap. exists s. auto.
    + apply elem_of_cons in Hs. destruct Hs as [-> | Hs]; [contradiction |].
      apply IH; assumption.
Qed.

(** C9. The filter built by getSubjects always has the status
    "active", whatever the request; every subject a list call returns
    has the status "active"; and a subject deleted by deleteSubject,
    whose status is then "inactive", is in no later list result. *)
Theorem getSubjects_only_active :
  (forall q : SubjectService.query,
     SubjectService.f_status (SubjectService.build_filter q) = "active")
  /\ (forall (q : SubjectService.query) (docs docs' : list Subject.t)
             (subjects : list Subject.t) (pg : SubjectService.pagination),
        SubjectService.getSubjects q docs = (Returned (subjects, pg), docs') ->
        Forall (fun s => Subject.status s = "active") subjects)
  /\ (forall (subjectId : ObjectId) (q : SubjectService.query)
             (docs docs1 docs2 : list Subject.t)
             (subjects : list Subject.t) (pg : SubjectService.pagination),
        NoDup (Subject._id <$> docs) ->
        SubjectService.deleteSubject subjectId docs = (Returned tt, docs1) ->
        SubjectService.getSubjects q docs1 = (Returned (subjects, pg), docs2) ->
        Forall (fun s => Subject._id s <> subjectId) subjects).
Proof.
  split; [reflexivity |]. split.
  - intros q docs docs' subjects pg Hret.
    apply Forall_forall. intros s Hs.
    apply (getSubjects_listed _ _ _ _ _ Hret s Hs).
  - intros subjectId q docs docs1 docs2 subjects pg Hnodup Hdel Hret.
    apply Forall_forall. intros s Hs Hid.
    destruct (getSubjects_listed _ _ _ _ _ Hret s Hs) as [Hin Hactive].
    destruct (deleteSubject_inactive _ _ _ Hnodup Hdel s Hin Hid) as [Hinactive _].
    congruence.
Qed.

Lemma getSubjects_only_active_witness :
  NoDup (Subject._id <$> sample_subjects)
  /\ SubjectService.deleteSubject "s2" sample_subjects
     = (Returned tt,
        [ sample_subject "s1" "Sciences (SVT)" "SVT" "active" true;
          sample_subject "s2" "Physique" "PHY" "inactive" false;
          sample_subject "s3" "Histoire" "HIS" "inactive" false;
          sample_subject "s4" "Chimie" "CHI" "active" true ])
  /\ SubjectService.getSubjects (page_query 1 10)
       [ sample_subject "s1" "Sciences (SVT)" "SVT" "active" true;
         sample_subject "s2" "Physique" "PHY" "inactive" false;
         sample_subject "s3" "Histoire" "HIS" "inactive" false;
         sample_subject "s4" "Chimie" "CHI" "active" true ]
     = (Returned
          ([ sample_subject "s4" "Chimie" "CHI" "active" true;
             sample_subject "s1" "Sciences (SVT)" "SVT" "active" true ],
           SubjectService.mkPagination 1 (Js.Fin 1) 2 false false),
        [ sample_subject "s1" "Sciences (SVT)" "SVT" "active" true;
          sample_subject "s2" "Physique" "PHY" "inactive" false;
          sample_subject "s3" "Histoire" "HIS" "inactive" false;
          sample_subject "s4" "Chimie" "CHI" "active" true ])
  /\ Forall (fun s => Subject.status s = "active")
       [ sample_subject "s4" "Chimie" "CHI" "active" true;
         sample_subject "s1" "Sciences (SVT)" "SVT" "active" true ]
  /\ Forall (fun s => Subject._id s <> "s2")
       [ sample_subject "s4" "Chimie" "CHI" "active" true;
         sample_subject "s1" "Sciences (SVT)" "SVT" "active" true ].
Proof.
  assert (Hnodup : NoDup (Subject._id <$> sample_subjects)).
  { apply (bool_decide_unpack _). vm_compute. exact I. }
  assert (Hdel :
    SubjectService.deleteSubject "s2" sample_subjects
    = (Returned tt,
       [ sample_subject "s1" "Sciences (SVT)" "SVT" "active" true;
         sample_subject "s2" "Physique" "PHY" "inactive" false;
         sample_subject "s3" "Histoire" "HIS" "inactive" false;
         sample_subject "s4" "Chimie" "CHI" "active" true ]))
    by (vm_compute; reflexivity).
  assert (Hlist :
    SubjectService.getSubjects (page_query 1 10)
      [ sample_subject "s1" "Sciences (SVT)" "SVT" "active" true;
        sample_subject "s2" "Physique" "PHY" "inactive" false;
        sample_subject "s3" "Histoire" "HIS" "inactive" false;
        sample_subject "s4" "Chimie" "CHI" "active" true ]
    = (Returned
         ([ sample_subject "s4" "Chimie" "CHI" "active" true;
            sample_subject "s1" "Sciences (SVT)" "SVT" "active" true ],
          SubjectService.mkPagination 1 (Js.Fin 1) 2 false false),
       [ sample_subject "s1" "Sciences (SVT)" "SVT" "active" true;
         sample_subject "s2" "Physique" "PHY" "inactive" false;
         sample_subject "s3" "Histoire" "HIS" "inactive" false;
         sample_subject "s4" "Chimie" "CHI" "active" true ]))
    by (vm_compute; reflexivity).
  split; [exact Hnodup |]. split; [exact Hdel |]. split; [exact Hlist |].
  split.
  - exact (proj1 (proj2 getSubjects_only_active) _ _ _ _ _ Hlist).
  - exact (proj2 (proj2 getSubjects_only_active) "s2" _ _ _ _ _ _ Hnodup Hdel Hlist).
Defined.

End Listing.

(** ** Patterns made from a plain name *)

Section PlainPatterns.
Import RegExp.

Lemma parse_plain_char (c : ascii) (rest : list ascii) (alts : list regex)
    (ts : list term) (stack : list frame) :
  is_special c = false ->
  parse (c :: rest) alts ts stack = parse rest alts ((RChar c, QAtom) :: ts) stack.
Proof.
  unfold is_special. cbn [list_ascii_of_string existsb].
  intros H.
  repeat (apply orb_false_elim in H; destruct H as [? H]).
  cbn [parse].
  repeat match goal with
         | E : Ascii.eqb c _ = false |- _ => rewrite E; clear E
         end.
  reflexivity.
Qed.

Lemma parse_plain (cs rest : list ascii) (alts : list regex) (ts : list term)
    (stack : list frame) :
  Forall (fun c => is_special c = false) cs ->
  parse (cs ++ rest) alts ts stack
  = parse rest alts (rev ((fun c => (RChar c, QAtom)) <$> cs) ++ ts) stack.
Proof.
  intros Hcs. revert ts.
  induction Hcs as [|c cs Hc _ IH]; intros ts; [reflexivity |].
  cbn [app]. rewrite (parse_plain_char _ _ _ _ _ Hc), IH.
  cbn [fmap list_fmap rev]. now rewrite <- app_assoc.
Qed.

Lemma mk_seq_lit (cs : list ascii) (acc : regex) :
  fold_left (fun a (t : term) => RCat (fst t) a)
    (rev ((fun c => (RChar c, QAtom)) <$> cs)) acc
  = fold_right (fun c a => RCat (RChar c) a) acc cs.
Proof.
  induction cs as [|c cs IH]; [reflexivity |].
  cbn [fmap list_fmap rev fold_right]. rewrite fold_left_app. cbn. now rewrite IH.
Qed.

Lemma lit_fold (cs : list ascii) :
  fold_right (fun c a => RCat (RChar c) a) (RCat REol REps) cs = lit cs.
Proof. induction cs as [|c cs IH]; cbn; congruence. Qed.

Lemma list_ascii_of_string_app (a b : string) :
  list_ascii_of_string (a ++ b)%string
  = (list_ascii_of_string a ++ list_ascii_of_string b)%list.
Proof.
  induction a as [|c a IH]; [reflexivity |].
  change (c :: list_ascii_of_string (a ++ b)%string
          = c :: (list_ascii_of_string a ++ list_ascii_of_string b)%list).
  now rewrite IH.
Qed.

(** The pattern `^name$` of a plain name. *)
Lemma compile_plain (name : string) :
  plain name ->
  compile ("^" ++ name ++ "$") = Compiled (RCat RBol (lit (list_ascii_of_string name))).
Proof.
  intros Hplain. unfold compile.
  change ("^" ++ name ++ "$")%string with (String "^" (name ++ "$")).
  cbn [list_ascii_of_string]. rewrite list_ascii_of_string_app.
  cbn [parse]. cbn [Ascii.eqb Bool.eqb].
  rewrite (parse_plain _ _ _ _ _ Hplain).
  cbn [list_ascii_of_string parse Ascii.eqb Bool.eqb].
  unfold mk_alt, mk_seq. cbn [fold_left fst].
  rewrite fold_left_app. cbn [fold_left fst].
  now rewrite mk_seq_lit, lit_fold.
Qed.


Lemma derivs_cat_none (X : regex) (cs : list ascii) :
  derivs cs (RCat RNone X) = RCat RNone X.
Proof. induction cs as [|c cs IH]; [reflexivity | exact IH]. Qed.

Lemma dead_cat_none (X : regex) : dead (RCat RNone X).
Proof. intros cs eol. now rewrite derivs_cat_none. Qed.

Lemma dead_none : dead RNone.
Proof. intros cs eol. induction cs as [|c cs IH]; [reflexivity | exact IH]. Qed.

(** A pattern that starts with `^` is dead away from the start. *)
Lemma dead_anchored (X : regex) : dead (RCat RBol X).
Proof.
  intros [|c cs] eol; [reflexivity |].
  cbn [derivs deriv nullable]. apply dead_cat_none.
Qed.

Lemma dead_deriv (d : regex) (c : ascii) : dead d -> dead (deriv true false c d).
Proof. intros Hd cs eol. apply (Hd (c :: cs)). Qed.

Lemma dead_nullable (d : regex) (eol : bool) : dead d -> nullable false eol d = false.
Proof. intros Hd. apply (Hd []). Qed.

Lemma scan_alt_dead_r (x d : regex) (cs : list ascii) :
  dead d -> scan (RAlt x d) cs = scan x cs.
Proof.
  revert x d. induction cs as [|c cs IH]; intros x d Hd; cbn [scan nullable deriv].
  - now rewrite (dead_nullable d _ Hd), orb_false_r.
  - rewrite (dead_nullable d _ Hd), orb_false_r.
    now rewrite (IH _ _ (dead_deriv _ c Hd)).
Qed.

Lemma scan_alt_dead_l (d x : regex) (cs : list ascii) :
  dead d -> scan (RAlt d x) cs = scan x cs.
Proof.
  revert x d. induction cs as [|c cs IH]; intros x d Hd; cbn [scan nullable deriv].
  - now rewrite (dead_nullable d _ Hd).
  - rewrite (dead_nullable d _ Hd). cbn [orb].
    now rewrite (IH _ _ (dead_deriv _ c Hd)).
Qed.

Lemma scan_dead (d : regex) (cs : list ascii) : dead d -> scan d cs = false.
Proof.
  revert d. induction cs as [|c cs IH]; intros d Hd; cbn [scan].
  - now rewrite (dead_nullable d _ Hd).
  - rewrite (dead_nullable d _ Hd). cbn [orb]. apply IH, dead_deriv, Hd.
Qed.

(** Away from the start, new attempts of a dead pattern add nothing. *)
Lemma search_scan (r active : regex) (cs : list ascii) :
  dead r -> search true false r active cs = scan active cs.
Proof.
  intros Hr. revert active.
  induction cs as [|c cs IH]; intros active; cbn [search scan nullable Js.is_nil].
  - rewrite (dead_nullable r _ Hr), !orb_false_r.
    now destruct (nullable false true active).
  - rewrite (dead_nullable r _ Hr), orb_false_r.
    destruct (nullable false false active); [reflexivity |].
    cbn [orb deriv]. rewrite IH. apply scan_alt_dead_r, dead_deriv, Hr.
Qed.

Lemma scan_eps_cat (X : regex) (cs : list ascii) :
  scan (RCat REps X) cs = scan X cs.
Proof.
  destruct cs as [|c cs]; cbn [scan nullable deriv andb]; [reflexivity |].
  now rewrite (scan_alt_dead_l _ _ _ (dead_cat_none X)).
Qed.

(** A literal text is matched by the subjects equal to it up to case. *)
Lemma scan_lit (name cs : list ascii) :
  scan (lit name) cs = true
  <-> Forall2 (fun a c => char_eq true a c = true) name cs.
Proof.
  revert cs. induction name as [|a name IH]; intros [|c cs];
    cbn [lit scan nullable Js.is_nil deriv andb orb].
  - split; [constructor | reflexivity].
  - rewrite (scan_dead _ _ (dead_cat_none REps)).
    split; [discriminate | intros H; inversion H].
  - split; [discriminate | intros H; inversion H].
  - destruct (char_eq true a c) eqn:Hac.
    + rewrite scan_eps_cat, IH. split.
      * intros H. now constructor.
      * intros H. now inversion H.
    + rewrite (scan_dead _ _ (dead_cat_none _)).
      split; [discriminate | intros H; inversion H; congruence].
Qed.

Lemma deriv_lit_start (c : ascii) (name : list ascii) :
  deriv true true c (lit name) = deriv true false c (lit name).
Proof. destruct name; reflexivity. Qed.

Lemma nullable_lit_start (eol : bool) (name : list ascii) :
  nullable true eol (lit name) = nullable false eol (lit name).
Proof. destruct name; reflexivity. Qed.

(** `^name$` tested on a subject. *)
Lemma test_anchored_lit (name : list ascii) (subject : string) :
  test true (RCat RBol (lit name)) subject
  = scan (lit name) (list_ascii_of_string subject).
Proof.
  unfold test. destruct (list_ascii_of_string subject) as [|c cs];
    cbn [search scan nullable Js.is_nil orb andb].
  - rewrite nullable_lit_start.
    now destruct (nullable false true (lit name)).
  - rewrite nullable_lit_start.
    assert (Hnull : nullable false false (lit name) = false) by now destruct name.
    rewrite Hnull. cbn [orb deriv nullable].
    rewrite (search_scan _ _ _ (dead_anchored (lit name))).
    rewrite (scan_alt_dead_l _ _ _ dead_none).
    rewrite (scan_alt_dead_l _ _ _ (dead_cat_none _)).
    now rewrite deriv_lit_start.
Qed.

Lemma same_name_chars (a b : string) :
  Forall2 (fun x y => char_eq true x y = true)
    (list_ascii_of_string a) (list_ascii_of_string b)
  <-> same_name a b.
Proof.
  unfold same_name. revert b.
  induction a as [|x a IH]; intros [|y b]; cbn [list_ascii_of_string Js.toUpperCase].
  - split; [reflexivity | constructor].
  - split; [intros H; inversion H | discriminate].
  - split; [intros H; inversion H | discriminate].
  - split.
    + intros H. inversion H as [|? ? ? ? Hxy Hrest]; subst.
      apply IH in Hrest. apply Ascii.eqb_eq in Hxy. congruence.
    + intros [= Hxy Hrest]. constructor.
      * cbn [char_eq]. now apply Ascii.eqb_eq.
      * now apply IH.
Qed.

(** For a plain name, the name check of createSubject accepts exactly
    the stored names equal to it up to case. *)
Lemma plain_name_pattern (name stored : string) :
  plain name ->
  exists re,
    Mongo.regex_of ("^" ++ name ++ "$") = Returned re
    /\ (test true re stored = true <-> same_name name stored).
Proof.
  intros Hplain. exists (RCat RBol (lit (list_ascii_of_string name))).
  unfold Mongo.regex_of. rewrite (compile_plain _ Hplain).
  split; [reflexivity |].
  now rewrite test_anchored_lit, scan_lit, same_name_chars.
Qed.

End PlainPatterns.

(** ** Creating a subject *)

Section Creation.
Import Subject SubjectService.

Lemma find_some_elem (p : Subject.t -> bool) (docs : list Subject.t) (s : Subject.t) :
  s ∈ docs -> p s = true -> exists s', List.find p docs = Some s'.
Proof.
  intros Hin Hp. destruct (List.find p docs) as [s'|] eqn:Hfind; [eauto |].
  apply list_elem_of_In in Hin.
  pose proof (find_none p docs Hfind s Hin). congruence.
Qed.

(** A code that equals a stored code up to case is refused, and the
    collection stays as it is (stored codes are upper-case). *)
Lemma createSubject_code_conflict (newId : ObjectId) (d : data)
    (docs : list Subject.t) (s : Subject.t) :
  s ∈ docs ->
  code s = Js.toUpperCase (d_code d) ->
  createSubject newId d docs
    = (Thrown (ConflictError "Une matière avec ce code existe déjà"), docs).
Proof.
  intros Hin Hcode.
  unfold createSubject, bind, findOne.
  destruct (find_some_elem
              (fun s => String.eqb (code s) (Js.toUpperCase (d_code d))) docs s Hin)
    as [s' ->]; [apply String.eqb_eq, Hcode | reflexivity].
Qed.

(** A plain name that equals a stored name up to case is refused, the
    collection staying as it is. *)
Lemma createSubject_plain_name_conflict (newId : ObjectId) (d : data)
    (docs : list Subject.t) (s : Subject.t) :
  plain (d_name d) ->
  s ∈ docs ->
  same_name (d_name d) (name s) ->
  exists msg, createSubject newId d docs = (Thrown (ConflictError msg), docs).
Proof.
  intros Hplain Hin Hsame.
  destruct (plain_name_pattern (d_name d) (name s) Hplain) as (re & Hre & Htest).
  unfold createSubject, bind, findOne, lift.
  destruct (List.find _ docs); [eexists; reflexivity |].
  rewrite Hre.
  destruct (find_some_elem (fun s => RegExp.test true re (name s)) docs s Hin)
    as [s' ->]; [now apply Htest | eexists; reflexivity].
Qed.

Example createSubject_plain_name_conflict_physique :
  createSubject "s9" (subject_data "physique" "PH2") sample_subjects
  = (Thrown (ConflictError "Une matière avec ce nom existe déjà"),
     sample_subjects).
Proof. vm_compute. reflexivity. Qed.

(** C3 at the input where the code departs from it.  The active
    subject `s1` is named "Sciences (SVT)"; a create request named
    "sciences (svt)", the same name up to case, with a code not in use
    is not refused: the parentheses of the name are read as a group of
    the pattern, the check finds no subject, and the duplicate is
    stored. *)
Theorem createSubject_duplicate_name_with_parentheses :
  sample_subject "s1" "Sciences (SVT)" "SVT" "active" true ∈ sample_subjects
  /\ same_name "sciences (svt)" "Sciences (SVT)"
  /\ RegExp.compile "^sciences (svt)$"
     = RegExp.Compiled
         (RegExp.mk_seq
            ((RegExp.REol, RegExp.QDone)
             :: (RegExp.mk_seq
                   (rev ((fun c => (RegExp.RChar c, RegExp.QAtom))
                           <$> list_ascii_of_string "svt")),
                 RegExp.QAtom)
             :: (rev ((fun c => (RegExp.RChar c, RegExp.QAtom))
                        <$> list_ascii_of_string "sciences ")
                 ++ [(RegExp.RBol, RegExp.QDone)])%list))
  /\ createSubject "s9" (subject_data "sciences (svt)" "SVT2") sample_subjects
     = (Returned (new "s9" (subject_data "sciences (svt)" "SVT2")),
        (sample_subjects ++ [new "s9" (subject_data "sciences (svt)" "SVT2")])%list).
Proof.
  split; [left |]. split; [reflexivity |]. split; vm_compute; reflexivity.
Qed.

End Creation.

(** * Further properties *)

(** ** Subject service: lookup, update, soft delete, search *)

Section SubjectLifecycle.
Import Subject SubjectService SubjectServiceExt.

Lemma find_by_id (subjectId : ObjectId) (docs : list t) (s : t) :
  NoDup (_id <$> docs) ->
  s ∈ docs ->
  _id s = subjectId ->
  List.find (fun x => String.eqb (_id x) subjectId) docs = Some s.
Proof.
  intros Hnodup Hin Hid.
  induction docs as [|d rest IH]; [inversion Hin |].
  cbn [fmap list_fmap] in Hnodup. apply NoDup_cons in Hnodup.
  destruct Hnodup as [Hfresh Hnodup]. cbn [List.find].
  apply elem_of_cons in Hin. destruct Hin as [<- | Hin].
  - apply String.eqb_eq in Hid. now rewrite Hid.
  - destruct (String.eqb_spec (_id d) subjectId) as [Hd | _]; [| now apply IH].
    exfalso. apply Hfresh. rewrite Hd, <- Hid. apply list_elem_of_fmap. eauto.
Qed.

Lemma find_by_id_none (subjectId : ObjectId) (docs : list t) :
  Forall (fun x => _id x <> subjectId) docs ->
  List.find (fun x => String.eqb (_id x) subjectId) docs = None.
Proof.
  induction 1 as [|d rest Hd _ IH]; [reflexivity |].
  cbn [List.find]. apply String.eqb_neq in Hd. now rewrite Hd.
Qed.

Lemma find_app_fresh (p : t -> bool) (docs : list t) (s : t) :
  List.find p docs = None -> p s = true -> List.find p (docs ++ [s])%list = Some s.
Proof.
  induction docs as [|d rest IH]; cbn [List.find app]; intros Hnone Hp.
  - now rewrite Hp.
  - destruct (p d); [discriminate | now apply IH].
Qed.

(** What a returning createSubject has done. *)
Lemma createSubject_returned (newId : ObjectId) (d : data) (docs docs' : list t)
    (s : t) :
  createSubject newId d docs = (Returned s, docs') ->
  s = new newId d /\ docs' = (docs ++ [s])%list.
Proof.
  unfold createSubject, bind, findOne, lift, save, modify, ret, throw.
  destruct (List.find _ docs); [discriminate |].
  destruct (Mongo.regex_of _) as [re|e]; [| discriminate].
  destruct (List.find _ docs); [discriminate |].
  intros [= <- <-]. auto.
Qed.

(** X1. A subject that createSubject has stored under a fresh
    identifier is what getSubjectById returns for that identifier; it
    has been added at the end of the collection, which is otherwise
    as it was. *)
Theorem createSubject_then_getSubjectById (newId : ObjectId) (d : data)
    (docs docs' : list t) (s : t) :
  Forall (fun x => _id x <> newId) docs ->
  createSubject newId d docs = (Returned s, docs') ->
  getSubjectById newId docs' = (Returned s, docs')
  /\ docs' = (docs ++ [s])%list
  /\ _id s = newId.
Proof.
  intros Hfresh Hret.
  destruct (createSubject_returned _ _ _ _ _ Hret) as [-> ->].
  split; [| auto].
  unfold getSubjectById, bind, findById, findOne.
  rewrite (find_app_fresh _ _ _ (find_by_id_none _ _ Hfresh)); [reflexivity |].
  apply String.eqb_refl.
Qed.

Lemma createSubject_then_getSubjectById_witness :
  Forall (fun x => _id x <> "s9") sample_subjects
  /\ getSubjectById "s9"
       (sample_subjects ++ [new "s9" (subject_data "Philosophie" "phi")])%list
     = (Returned (new "s9" (subject_data "Philosophie" "phi")),
        (sample_subjects ++ [new "s9" (subject_data "Philosophie" "phi")])%list).
Proof.
  assert (Hfresh : Forall (fun x => _id x <> "s9") sample_subjects)
    by (repeat constructor; discriminate).
  assert (Hret :
    createSubject "s9" (subject_data "Philosophie" "phi") sample_subjects
    = (Returned (new "s9" (subject_data "Philosophie" "phi")),
       (sample_subjects ++ [new "s9" (subject_data "Philosophie" "phi")])%list))
    by (vm_compute; reflexivity).
  split; [exact Hfresh |].
  exact (proj1 (createSubject_then_getSubjectById _ _ _ _ _ Hfresh Hret)).
Defined.

(** Updating the document with a given identifier in place. *)
Lemma update_first_by_id (subjectId : ObjectId) (f : t -> t) (docs : list t) (s : t) :
  NoDup (_id <$> docs) ->
  s ∈ docs ->
  _id s = subjectId ->
  (forall x, _id (f x) = _id x) ->
  let docs' := update_first (fun x => String.eqb (_id x) subjectId) f docs in
  length docs' = length docs
  /\ _id <$> docs' = _id <$> docs
  /\ f s ∈ docs'
  /\ (forall x, _id x <> subjectId -> (x ∈ docs' <-> x ∈ docs)).
Proof.
  intros Hnodup Hin Hid Hf. cbn zeta.
  induction docs as [|d rest IH]; [inversion Hin |].
  cbn [fmap list_fmap] in Hnodup. apply NoDup_cons in Hnodup.
  destruct Hnodup as [Hfresh Hnodup]. cbn [update_first].
  destruct (String.eqb_spec (_id d) subjectId) as [Hd | Hd].
  - assert (d = s) as ->.
    { apply elem_of_cons in Hin. destruct Hin as [-> | Hin]; [reflexivity |].
      exfalso. apply Hfresh. rewrite Hd, <- Hid. apply list_elem_of_fmap. eauto. }
    repeat split.
    + cbn [fmap list_fmap]. now rewrite Hf.
    + left.
    + intros Hx. apply elem_of_cons in Hx. destruct Hx as [-> | Hx].
      * rewrite Hf in H. contradiction.
      * now right.
    + intros Hx. apply elem_of_cons in Hx. destruct Hx as [-> | Hx].
      * contradiction.
      * now right.
  - apply elem_of_cons in Hin. destruct Hin as [-> | Hin]; [congruence |].
    destruct (IH Hnodup Hin) as (Hlen & Hids & Hfs & Hother).
    repeat split.
    + cbn [length]. now rewrite Hlen.
    + cbn [fmap list_fmap]. now rewrite Hids.
    + now right.
    + intros Hx. apply elem_of_cons in Hx. destruct Hx as [-> | Hx];
        [left | right; now apply Hother].
    + intros Hx. apply elem_of_cons in Hx. destruct Hx as [-> | Hx];
        [left | right; now apply Hother].
Qed.

(** What deleteSubject does to a stored subject. *)
Lemma deleteSubject_effect (subjectId : ObjectId) (docs : list t) (s : t) :
  NoDup (_id <$> docs) ->
  s ∈ docs ->
  _id s = subjectId ->
  exists docs' s',
    deleteSubject subjectId docs = (Returned tt, docs')
    /\ length docs' = length docs
    /\ _id <$> docs' = _id <$> docs
    /\ getSubjectById subjectId docs' = (Returned s', docs')
    /\ isActive s' = false /\ status s' = "inactive"
    /\ name s' = name s /\ code s' = code s /\ category s' = category s
    /\ (forall x, _id x <> subjectId -> (x ∈ docs' <-> x ∈ docs)).
Proof.
  intros Hnodup Hin Hid.
  set (f := fun x : t =>
              {| _id := _id x; name := name x; code := code x;
                 description := description x; category := category x;
                 examTypes := examTypes x; countries := countries x;
                 educationLevels := educationLevels x; series := series x;
                 isActive := false; isPremium := isPremium x;
                 isFeatured := isFeatured x; status := "inactive" |}).
  destruct (update_first_by_id subjectId f docs s Hnodup Hin Hid (fun x => eq_refl))
    as (Hlen & Hids & Hfs & Hother).
  exists (update_first (fun x => String.eqb (_id x) subjectId) f docs), (f s).
  split.
  { unfold deleteSubject, bind, findById, findOne, findByIdAndUpdate, modify.
    now rewrite (find_by_id _ _ _ Hnodup Hin Hid). }
  split; [exact Hlen |]. split; [exact Hids |].
  split.
  { unfold getSubjectById, bind, findById, findOne.
    rewrite (find_by_id subjectId _ (f s)); [reflexivity | | exact Hfs | exact Hid].
    now rewrite Hids. }
  repeat split; try reflexivity; apply Hother; assumption.
Qed.

(** X2. deleteSubject is a soft delete: the collection keeps its
    length and its identifiers, the subject stays retrievable by
    getSubjectById, now inactive and otherwise as it was, and the
    other subjects are untouched. *)
Theorem deleteSubject_soft (subjectId : ObjectId) (docs : list t) (s : t) :
  NoDup (_id <$> docs) ->
  s ∈ docs ->
  _id s = subjectId ->
  exists docs' s',
    deleteSubject subjectId docs = (Returned tt, docs')
    /\ length docs' = length docs
    /\ _id <$> docs' = _id <$> docs
    /\ getSubjectById subjectId docs' = (Returned s', docs')
    /\ isActive s' = false /\ status s' = "inactive"
    /\ name s' = name s /\ code s' = code s /\ category s' = category s
    /\ (forall x, _id x <> subjectId -> (x ∈ docs' <-> x ∈ docs)).
Proof. exact (deleteSubject_effect subjectId docs s). Qed.

Lemma deleteSubject_soft_witness :
  NoDup (_id <$> sample_subjects)
  /\ exists docs' s',
       deleteSubject "s2" sample_subjects = (Returned tt, docs')
       /\ length docs' = length sample_subjects
       /\ _id <$> docs' = _id <$> sample_subjects
       /\ getSubjectById "s2" docs' = (Returned s', docs')
       /\ isActive s' = false /\ status s' = "inactive"
       /\ name s' = "Physique" /\ code s' = "PHY" /\ category s' = "science"
       /\ (forall x, _id x <> "s2" -> (x ∈ docs' <-> x ∈ sample_subjects)).
Proof.
  assert (Hnodup : NoDup (_id <$> sample_subjects)).
  { apply (bool_decide_unpack _). vm_compute. exact I. }
  split; [exact Hnodup |].
  apply (deleteSubject_soft "s2" sample_subjects
           (sample_subject "s2" "Physique" "PHY" "active" true) Hnodup).
  - right. left.
  - reflexivity.
Defined.

(** X3. For an identifier no stored subject has, getSubjectById,
    deleteSubject and updateSubject all fail with NotFound and leave
    the collection as it is. *)
Theorem subject_not_found (validators : update -> list string)
    (subjectId : ObjectId) (u : update) (docs : list t) :
  Forall (fun x => _id x <> subjectId) docs ->
  getSubjectById subjectId docs = (Thrown (NotFoundError "Matière non trouvée"), docs)
  /\ deleteSubject subjectId docs
     = (Thrown (NotFoundError "Matière non trouvée"), docs)
  /\ updateSubject validators subjectId u docs
     = (Thrown (NotFoundError "Matière non trouvée"), docs).
Proof.
  intros Hfresh. pose proof (find_by_id_none _ _ Hfresh) as Hnone.
  unfold getSubjectById, deleteSubject, updateSubject, bind, findById, findOne.
  rewrite Hnone. auto.
Qed.

Lemma subject_not_found_witness :
  Forall (fun x => _id x <> "s9") sample_subjects
  /\ getSubjectById "s9" sample_subjects
     = (Thrown (NotFoundError "Matière non trouvée"), sample_subjects).
Proof.
  assert (Hfresh : Forall (fun x => _id x <> "s9") sample_subjects)
    by (repeat constructor; discriminate).
  split; [exact Hfresh |].
  exact (proj1 (subject_not_found (fun _ => []) "s9"
                  (mkUpdate None None None None None None None None None None None None)
                  sample_subjects Hfresh)).
Defined.

(** X4. The code of a deleted subject stays taken: after deleteSubject,
    a create request with that code (in any case) is refused with
    Conflict and stores nothing. *)
Theorem deleted_code_stays_reserved (subjectId newId : ObjectId) (d : data)
    (docs docs' : list t) (s : t) :
  NoDup (_id <$> docs) ->
  s ∈ docs ->
  _id s = subjectId ->
  Js.toUpperCase (d_code d) = code s ->
  deleteSubject subjectId docs = (Returned tt, docs') ->
  createSubject newId d docs'
  = (Thrown (ConflictError "Une matière avec ce code existe déjà"), docs').
Proof.
  intros Hnodup Hin Hid Hcode Hdel.
  destruct (deleteSubject_effect _ _ _ Hnodup Hin Hid)
    as (docs1 & s' & Hdel' & _ & Hids & Hget & _ & _ & _ & Hcode' & _ & _).
  assert (docs1 = docs') as -> by congruence.
  assert (Hin' : s' ∈ docs').
  { revert Hget. unfold getSubjectById, bind, findById, findOne.
    destruct (List.find _ docs') as [x|] eqn:Hfind; [| discriminate].
    intros [= <-]. apply find_some in Hfind. now apply list_elem_of_In. }
  apply (createSubject_code_conflict newId d docs' s' Hin'). congruence.
Qed.

Lemma deleted_code_stays_reserved_witness :
  createSubject "s9" (subject_data "Physique appliquée" "phy")
    [ sample_subject "s1" "Sciences (SVT)" "SVT" "active" true;
      sample_subject "s2" "Physique" "PHY" "inactive" false;
      sample_subject "s3" "Histoire" "HIS" "inactive" false;
      sample_subject "s4" "Chimie" "CHI" "active" true ]
  = (Thrown (ConflictError "Une matière avec ce code existe déjà"),
     [ sample_subject "s1" "Sciences (SVT)" "SVT" "active" true;
       sample_subject "s2" "Physique" "PHY" "inactive" false;
       sample_subject "s3" "Histoire" "HIS" "inactive" false;
       sample_subject "s4" "Chimie" "CHI" "active" true ]).
Proof.
  apply (deleted_code_stays_reserved "s2" "s9" _ sample_subjects _
           (sample_subject "s2" "Physique" "PHY" "active" true)).
  - apply (bool_decide_unpack _). vm_compute. exact I.
  - right. left.
  - reflexivity.
  - reflexivity.
  - vm_compute. reflexivity.
Defined.

Lemma find_none_forall (p : t -> bool) (docs : list t) :
  (forall x, x ∈ docs -> p x = false) -> List.find p docs = None.
Proof.
  induction docs as [|d rest IH]; intros Hall; [reflexivity |].
  cbn [List.find]. rewrite (Hall d ltac:(left)). apply IH.
  intros x Hx. apply Hall. now right.
Qed.

(** What a returning updateSubject has done. *)
Lemma updateSubject_returned (validators : update -> list string)
    (subjectId : ObjectId) (u : update) (docs docs' : list t) (r : option t) :
  updateSubject validators subjectId u docs = (Returned r, docs') ->
  exists e,
    List.find (fun x => String.eqb (_id x) subjectId) docs = Some e
    /\ docs' = update_first (fun x => String.eqb (_id x) subjectId) (apply_update u) docs
    /\ r = List.find (fun x => String.eqb (_id x) subjectId) docs'.
Proof.
  unfold updateSubject, findByIdAndUpdate_new, bind, findById, findOne,
    findByIdAndUpdate, modify, lift, ret, throw.
  destruct (List.find _ docs) as [e|]; [| discriminate].
  destruct (_ && _).
  - destruct (List.find _ docs); [discriminate |].
    destruct (_ && _).
    + destruct (Mongo.regex_of _); [| discriminate].
      destruct (List.find _ docs); [discriminate |].
      destruct (validators u); [| discriminate].
      intros [= <- <-]. eauto.
    + destruct (validators u); [| discriminate].
      intros [= <- <-]. eauto.
  - destruct (_ && _).
    + destruct (Mongo.regex_of _); [| discriminate].
      destruct (List.find _ docs); [discriminate |].
      destruct (validators u); [| discriminate].
      intros [= <- <-]. eauto.
    + destruct (validators u); [| discriminate].
      intros [= <- <-]. eauto.
Qed.

(** X5. A returning updateSubject has merged the supplied fields into
    the stored subject and returns the merged document, which
    getSubjectById then gives; the collection keeps its length and its
    identifiers, and every other subject is untouched. *)
Theorem updateSubject_merges (validators : update -> list string)
    (subjectId : ObjectId) (u : update) (docs docs' : list t) (r : option t) :
  NoDup (_id <$> docs) ->
  updateSubject validators subjectId u docs = (Returned r, docs') ->
  exists e,
    e ∈ docs /\ _id e = subjectId
    /\ r = Some (apply_update u e)
    /\ getSubjectById subjectId docs' = (Returned (apply_update u e), docs')
    /\ length docs' = length docs
    /\ _id <$> docs' = _id <$> docs
    /\ (forall x, _id x <> subjectId -> (x ∈ docs' <-> x ∈ docs)).
Proof.
  intros Hnodup Hret.
  destruct (updateSubject_returned _ _ _ _ _ _ Hret) as (e & Hfind & -> & ->).
  apply find_some in Hfind. destruct Hfind as [Hin Hid].
  apply list_elem_of_In in Hin. apply String.eqb_eq in Hid.
  destruct (update_first_by_id subjectId (apply_update u) docs e Hnodup Hin Hid
              (fun x => eq_refl))
    as (Hlen & Hids & Hfe & Hother).
  assert (Hfind' :
    List.find (fun x => String.eqb (_id x) subjectId)
      (update_first (fun x => String.eqb (_id x) subjectId) (apply_update u) docs)
    = Some (apply_update u e)).
  { apply find_by_id; [now rewrite Hids | exact Hfe | exact Hid]. }
  exists e. split; [exact Hin |]. split; [exact Hid |].
  split; [exact Hfind' |].
  split.
  { unfold getSubjectById, bind, findById, findOne. now rewrite Hfind'. }
  auto.
Qed.

(** X6. An update that changes the code to one another subject holds
    (in any case) is refused with Conflict, and the collection stays as
    it is. *)
Theorem updateSubject_code_conflict (validators : update -> list string)
    (subjectId : ObjectId) (u : update) (docs : list t) (e other : t) (c : string) :
  NoDup (_id <$> docs) ->
  e ∈ docs -> _id e = subjectId ->
  other ∈ docs -> _id other <> subjectId ->
  u_code u = Some c -> c <> "" -> c <> code e ->
  code other = Js.toUpperCase c ->
  updateSubject validators subjectId u docs
  = (Thrown (ConflictError "Une matière avec ce code existe déjà"), docs).
Proof.
  intros Hnodup He Hid Ho Hoid Hc Hne Hchg Hdup.
  unfold updateSubject, bind, findById, findOne.
  rewrite (find_by_id _ _ _ Hnodup He Hid), Hc. cbn [Js.truthy_string from_option id].
  apply String.eqb_neq in Hne, Hchg. rewrite Hne, Hchg. cbn [negb andb].
  destruct (find_some_elem
              (fun s => String.eqb (code s) (Js.toUpperCase c)
                        && other_than subjectId s) docs other Ho)
    as [s' ->]; [| reflexivity].
  unfold other_than. apply andb_true_intro. split.
  - now apply String.eqb_eq.
  - now apply negb_true_iff, String.eqb_neq.
Qed.

(** X7. An update that only renames a subject to a plain ASCII name
    differing from the stored one is refused with Conflict, leaving
    the collection as it is, when another subject has that name up to
    the case of the letters a-z; when no other subject has it and the
    schema accepts the update, the rename goes through, also to the
    subject's own name in another case. *)
Theorem updateSubject_rename (validators : update -> list string)
    (subjectId : ObjectId) (u : update) (docs : list t) (e : t) (n : string) :
  NoDup (_id <$> docs) ->
  e ∈ docs -> _id e = subjectId ->
  u_code u = None -> u_name u = Some n ->
  n <> "" -> n <> name e -> plain n -> Js.is_ascii n = true ->
  ((exists other, other ∈ docs /\ _id other <> subjectId /\ same_name n (name other)) ->
   updateSubject validators subjectId u docs
   = (Thrown (ConflictError "Une matière avec ce nom existe déjà"), docs))
  /\ ((forall x, x ∈ docs -> _id x <> subjectId -> ~ same_name n (name x)) ->
      validators u = [] ->
      exists docs',
        updateSubject validators subjectId u docs
        = (Returned (Some (apply_update u e)), docs')
        /\ name (apply_update u e) = n).
Proof.
  intros Hnodup He Hid Hcode Hname Hne Hchg Hplain _.
  destruct (plain_name_pattern n "" Hplain) as (re & Hre & _).
  assert (Htest : forall stored, RegExp.test true re stored = true <-> same_name n stored).
  { intros stored. destruct (plain_name_pattern n stored Hplain) as (re' & Hre' & H').
    assert (re' = re) as -> by congruence. exact H'. }
  assert (Hstart :
    updateSubject validators subjectId u docs
    = (await duplicateName <-
         findOne (fun s => RegExp.test true re (name s) && other_than subjectId s);
       match duplicateName with
       | Some _ => throw (ConflictError "Une matière avec ce nom existe déjà")
       | None => await_ ret tt; findByIdAndUpdate_new validators subjectId u
       end) docs).
  { unfold updateSubject, bind, findById, findOne, lift.
    rewrite (find_by_id _ _ _ Hnodup He Hid), Hcode, Hname.
    cbn [Js.truthy_string from_option id andb].
    apply String.eqb_neq in Hne, Hchg. rewrite Hne, Hchg. cbn [negb andb].
    rewrite Hre. unfold ret, throw. cbn beta iota.
    destruct (List.find _ docs); reflexivity. }
  split.
  - intros (other & Ho & Hoid & Hsame).
    rewrite Hstart. unfold bind, findOne.
    destruct (find_some_elem
                (fun s => RegExp.test true re (name s) && other_than subjectId s)
                docs other Ho)
      as [s' ->]; [| reflexivity].
    apply andb_true_intro. split; [now apply Htest |].
    now apply negb_true_iff, String.eqb_neq.
  - intros Hnone Hvalid.
    rewrite Hstart. unfold bind, findOne.
    rewrite find_none_forall.
    + destruct (update_first_by_id subjectId (apply_update u) docs e Hnodup He Hid
                  (fun x => eq_refl))
        as (_ & Hids & Hfe & _).
      eexists. split.
      * unfold findByIdAndUpdate_new, bind, ret, findByIdAndUpdate, modify,
          findById, findOne.
        rewrite Hvalid. cbn beta iota.
        rewrite (find_by_id subjectId _ (apply_update u e));
          [reflexivity | now rewrite Hids | exact Hfe | exact Hid].
      * cbn. now rewrite Hname.
    + intros x Hx. unfold other_than.
      destruct (String.eqb_spec (_id x) subjectId) as [_ | Hxid];
        [apply andb_false_r |].
      apply andb_false_intro1.
      destruct (RegExp.test true re (name x)) eqn:Ht; [| reflexivity].
      apply Htest in Ht. exfalso. exact (Hnone x Hx Hxid Ht).
Qed.

Lemma updateSubject_merges_witness :
  NoDup (_id <$> sample_subjects)
  /\ updateSubject accept_update "s2" (rename_update "Physique-Chimie") sample_subjects
     = (Returned (Some (sample_subject "s2" "Physique-Chimie" "PHY" "active" true)),
        [ sample_subject "s1" "Sciences (SVT)" "SVT" "active" true;
          sample_subject "s2" "Physique-Chimie" "PHY" "active" true;
          sample_subject "s3" "Histoire" "HIS" "inactive" false;
          sample_subject "s4" "Chimie" "CHI" "active" true ])
  /\ exists e,
       e ∈ sample_subjects /\ _id e = "s2"
       /\ Some (sample_subject "s2" "Physique-Chimie" "PHY" "active" true)
          = Some (apply_update (rename_update "Physique-Chimie") e)
       /\ getSubjectById "s2"
            [ sample_subject "s1" "Sciences (SVT)" "SVT" "active" true;
              sample_subject "s2" "Physique-Chimie" "PHY" "active" true;
              sample_subject "s3" "Histoire" "HIS" "inactive" false;
              sample_subject "s4" "Chimie" "CHI" "active" true ]
          = (Returned (apply_update (rename_update "Physique-Chimie") e),
             [ sample_subject "s1" "Sciences (SVT)" "SVT" "active" true;
               sample_subject "s2" "Physique-Chimie" "PHY" "active" true;
               sample_subject "s3" "Histoire" "HIS" "inactive" false;
               sample_subject "s4" "Chimie" "CHI" "active" true ])
       /\ length
            [ sample_subject "s1" "Sciences (SVT)" "SVT" "active" true;
              sample_subject "s2" "Physique-Chimie" "PHY" "active" true;
              sample_subject "s3" "Histoire" "HIS" "inactive" false;
              sample_subject "s4" "Chimie" "CHI" "active" true ]
          = length sample_subjects
       /\ _id <$> [ sample_subject "s1" "Sciences (SVT)" "SVT" "active" true;
                    sample_subject "s2" "Physique-Chimie" "PHY" "active" true;
                    sample_subject "s3" "Histoire" "HIS" "inactive" false;
                    sample_subject "s4" "Chimie" "CHI" "active" true ]
          = _id <$> sample_subjects
       /\ (forall x, _id x <> "s2" ->
             (x ∈ [ sample_subject "s1" "Sciences (SVT)" "SVT" "active" true;
                    sample_subject "s2" "Physique-Chimie" "PHY" "active" true;
                    sample_subject "s3" "Histoire" "HIS" "inactive" false;
                    sample_subject "s4" "Chimie" "CHI" "active" true ]
              <-> x ∈ sample_subjects)).
Proof.
  assert (Hnodup : NoDup (_id <$> sample_subjects)).
  { apply (bool_decide_unpack _). vm_compute. exact I. }
  assert (Hret :
    updateSubject accept_update "s2" (rename_update "Physique-Chimie") sample_subjects
    = (Returned (Some (sample_subject "s2" "Physique-Chimie" "PHY" "active" true)),
       [ sample_subject "s1" "Sciences (SVT)" "SVT" "active" true;
         sample_subject "s2" "Physique-Chimie" "PHY" "active" true;
         sample_subject "s3" "Histoire" "HIS" "inactive" false;
         sample_subject "s4" "Chimie" "CHI" "active" true ]))
    by (vm_compute; reflexivity).
  split; [exact Hnodup |]. split; [exact Hret |].
  exact (updateSubject_merges accept_update "s2" _ _ _ _ Hnodup Hret).
Defined.

Lemma updateSubject_code_conflict_witness :
  updateSubject accept_update "s2" (code_update "chi") sample_subjects
  = (Thrown (ConflictError "Une matière avec ce code existe déjà"), sample_subjects).
Proof.
  apply (updateSubject_code_conflict accept_update "s2" (code_update "chi")
           sample_subjects
           (sample_subject "s2" "Physique" "PHY" "active" true)
           (sample_subject "s4" "Chimie" "CHI" "active" true) "chi").
  - apply (bool_decide_unpack _). vm_compute. exact I.
  - right. left.
  - reflexivity.
  - right. right. right. left.
  - discriminate.
  - reflexivity.
  - discriminate.
  - discriminate.
  - reflexivity.
Defined.

Lemma plain_letters (n : string) :
  forallb (fun c => negb (is_special c)) (list_ascii_of_string n) = true -> plain n.
Proof.
  unfold plain. intros H. apply Forall_forall. intros c Hc.
  rewrite forallb_forall in H. apply negb_true_iff, H, list_elem_of_In, Hc.
Qed.

Lemma updateSubject_rename_witness :
  updateSubject accept_update "s2" (rename_update "CHIMIE") sample_subjects
  = (Thrown (ConflictError "Une matière avec ce nom existe déjà"), sample_subjects)
  /\ exists docs',
       updateSubject accept_update "s2" (rename_update "PHYSIQUE") sample_subjects
       = (Returned
            (Some (apply_update (rename_update "PHYSIQUE")
                     (sample_subject "s2" "Physique" "PHY" "active" true))), docs')
       /\ name (apply_update (rename_update "PHYSIQUE")
                  (sample_subject "s2" "Physique" "PHY" "active" true))
          = "PHYSIQUE".
Proof.
  assert (Hnodup : NoDup (_id <$> sample_subjects)).
  { apply (bool_decide_unpack _). vm_compute. exact I. }
  assert (He : sample_subject "s2" "Physique" "PHY" "active" true ∈ sample_subjects)
    by (right; left).
  split.
  - apply (proj1 (updateSubject_rename accept_update "s2" (rename_update "CHIMIE")
                    sample_subjects _ "CHIMIE" Hnodup He eq_refl eq_refl eq_refl
                    ltac:(discriminate) ltac:(discriminate)
                    (plain_letters "CHIMIE" eq_refl) eq_refl)).
    exists (sample_subject "s4" "Chimie" "CHI" "active" true).
    split; [right; right; right; left |]. split; [discriminate | reflexivity].
  - apply (proj2 (updateSubject_rename accept_update "s2" (rename_update "PHYSIQUE")
                    sample_subjects _ "PHYSIQUE" Hnodup He eq_refl eq_refl eq_refl
                    ltac:(discriminate) ltac:(discriminate)
                    (plain_letters "PHYSIQUE" eq_refl) eq_refl)); [| reflexivity].
    intros x Hx Hxid Hsame. unfold sample_subjects in Hx.
    repeat (apply elem_of_cons in Hx; destruct Hx as [-> | Hx]);
      try (inversion Hx); try (apply Hxid; reflexivity); discriminate Hsame.
Defined.

Lemma matches_fields_isActive (f : SubjectService.filter) (s : t) (b : bool) :
  f_isActive f = Some b ->
  matches_fields f s = true -> isActive s = b.
Proof.
  intros Hf. unfold matches_fields. rewrite Hf, !andb_true_iff. cbn [Mongo.eq_flag].
  intros H. apply eqb_prop. tauto.
Qed.

(** X8. For an ASCII search term: searchSubjects refuses with
    BadRequest a term that is absent or shorter than two characters
    once trimmed; a search that returns leaves the collection as it is
    and gives at most 20 subjects, each a stored subject with status
    "active" and isActive set. *)
Theorem searchSubjects_guard_and_results (totalStudents : t -> Z)
    (searchTerm : option string) (filters : search_filters) (docs : list t) :
  Js.is_ascii (default "" searchTerm) = true ->
  (Js.truthy_string searchTerm = false
   \/ (String.length (trim (default "" searchTerm)) < 2)%nat ->
   searchSubjects totalStudents searchTerm filters docs
   = (Thrown (BadRequestError
                "Le terme de recherche doit contenir au moins 2 caractères"), docs))
  /\ (forall found docs',
        searchSubjects totalStudents searchTerm filters docs = (Returned found, docs') ->
        docs' = docs
        /\ (length found <= 20)%nat
        /\ Forall (fun s => s ∈ docs /\ status s = "active" /\ isActive s = true) found).
Proof.
  intros _. unfold searchSubjects. split.
  - intros [Hfalsy | Hshort].
    + now rewrite Hfalsy.
    + apply Nat.ltb_lt in Hshort. rewrite Hshort. now rewrite orb_true_r.
  - intros found docs'.
    destruct (_ || _); [discriminate |].
    unfold bind, get, lift, ret.
    destruct (select _ docs) as [sel|err] eqn:Hsel; [| discriminate].
    intros [= <- <-]. split; [reflexivity |]. split.
    + pose proof (limit_length 20
                    (merge_sort (fun a b => Is_true (by_students_then_name totalStudents a b)) sel)
                    ltac:(lia)).
      lia.
    + apply Forall_forall. intros s Hs.
      apply limit_subseteq in Hs. rewrite merge_sort_Permutation in Hs.
      destruct (select_sound _ _ _ Hsel s Hs) as [Hin Hm].
      split; [exact Hin |]. split.
      * apply (matches_fields_status _ _ Hm).
      * eapply matches_fields_isActive; [| exact Hm]. reflexivity.
Qed.

Lemma searchSubjects_guard_and_results_witness :
  (String.length (trim "  p ") < 2)%nat
  /\ searchSubjects no_students (Some "  p ") no_search_filters sample_subjects
     = (Thrown (BadRequestError
                  "Le terme de recherche doit contenir au moins 2 caractères"),
        sample_subjects)
  /\ searchSubjects no_students (Some " ie ") no_search_filters sample_subjects
     = (Returned [ sample_subject "s4" "Chimie" "CHI" "active" true;
                   sample_subject "s1" "Sciences (SVT)" "SVT" "active" true ],
        sample_subjects)
  /\ (length [ sample_subject "s4" "Chimie" "CHI" "active" true;
               sample_subject "s1" "Sciences (SVT)" "SVT" "active" true ] <= 20)%nat.
Proof.
  assert (Hshort : (String.length (trim "  p ") < 2)%nat) by (vm_compute; lia).
  assert (Hret :
    searchSubjects no_students (Some " ie ") no_search_filters sample_subjects
    = (Returned [ sample_subject "s4" "Chimie" "CHI" "active" true;
                  sample_subject "s1" "Sciences (SVT)" "SVT" "active" true ],
       sample_subjects)) by (vm_compute; reflexivity).
  split; [exact Hshort |]. split.
  - exact (proj1 (searchSubjects_guard_and_results no_students (Some "  p ")
                    no_search_filters sample_subjects eq_refl) (or_intror Hshort)).
  - split; [exact Hret |].
    exact (proj1 (proj2 (proj2 (searchSubjects_guard_and_results no_students
                                  (Some " ie ") no_search_filters sample_subjects
                                  eq_refl)
                           _ _ Hret))).
Defined.

End SubjectLifecycle.

(** ** Quiz service: updates, deletion, listing *)

Section QuizLifecycle.
Import Quiz QuizService QuizServiceExt.

(** X9. updateQuiz fails with 400 and the validators' messages when
    the schema rejects the (recounted) update, and with 404 when the
    schema accepts it and no quiz has the identifier; in both cases
    the store stays as it is. *)
Theorem updateQuiz_failures (validators : patch -> list string)
    (quizId : ObjectId) (u : patch) (now : Z) (s : db) :
  (validators (recount u) <> [] ->
   updateQuiz validators quizId u now s
   = (Thrown (ApiError 400 "Validation failed" (validators (recount u))), s))
  /\ (validators (recount u) = [] ->
      quizzes s !! quizId = None ->
      updateQuiz validators quizId u now s
      = (Thrown (ApiError 404 "Quiz not found" []), s)).
Proof.
  unfold updateQuiz, try_catch, bind, QuizModel.findByIdAndUpdate, throw.
  split.
  - intros Hbad. destruct (validators (recount u)); [contradiction | reflexivity].
  - intros -> ->. reflexivity.
Qed.

Lemma updateQuiz_failures_witness :
  (fun u : patch => if Js.truthy_array (p_questionIds u) then ["questionIds"] else [])
    (recount (questions_patch ["x1"] (Some 1))) <> []
  /\ updateQuiz
       (fun u => if Js.truthy_array (p_questionIds u) then ["questionIds"] else [])
       "q1" (questions_patch ["x1"] (Some 1)) 9000 sample_db
     = (Thrown (ApiError 400 "Validation failed" ["questionIds"]), sample_db)
  /\ quizzes sample_db !! "q7" = None
  /\ updateQuiz accept_all "q7" (questions_patch ["x1"] (Some 1)) 9000 sample_db
     = (Thrown (ApiError 404 "Quiz not found" []), sample_db).
Proof.
  assert (Hbad :
    (fun u : patch => if Js.truthy_array (p_questionIds u) then ["questionIds"] else [])
      (recount (questions_patch ["x1"] (Some 1))) <> []) by discriminate.
  assert (Hnone : quizzes sample_db !! "q7" = None) by (vm_compute; reflexivity).
  split; [exact Hbad |]. split.
  - exact (proj1 (updateQuiz_failures _ "q1" (questions_patch ["x1"] (Some 1)) 9000
                    sample_db) Hbad).
  - split; [exact Hnone |].
    exact (proj2 (updateQuiz_failures accept_all "q7" (questions_patch ["x1"] (Some 1))
                    9000 sample_db) eq_refl Hnone).
Defined.

(** The store a returning updateQuiz leaves. *)
Lemma updateQuiz_returned_store (validators : patch -> list string)
    (quizId : ObjectId) (u : patch) (now : Z) (s s' : db)
    (resp : ApiResponse Quiz.t) :
  updateQuiz validators quizId u now s = (Returned resp, s') ->
  exists q,
    quizzes s !! quizId = Some q
    /\ resp = mkResponse 200 (apply_patch (recount u) now q)
                (Some "Quiz updated successfully")
    /\ s' = {| quizzes := <[quizId := apply_patch (recount u) now q]> (quizzes s);
               quizResults := quizResults s |}.
Proof.
  unfold updateQuiz, try_catch, bind, QuizModel.findByIdAndUpdate.
  destruct (validators (recount u)); cbn; [| discriminate].
  destruct (quizzes s !! quizId) as [q|]; cbn; [| discriminate].
  intros [= <- <-]. eauto.
Qed.

(** The count check leaves every field but totalQuestions as the
    request has it. *)
Lemma recount_fields (u : patch) :
  p_title (recount u) = p_title u
  /\ p_description (recount u) = p_description u
  /\ p_tags (recount u) = p_tags u
  /\ p_subjectId (recount u) = p_subjectId u
  /\ p_questionIds (recount u) = p_questionIds u
  /\ p_totalPoints (recount u) = p_totalPoints u
  /\ p_level (recount u) = p_level u
  /\ p_difficulty (recount u) = p_difficulty u
  /\ p_premiumOnly (recount u) = p_premiumOnly u
  /\ p_isActive (recount u) = p_isActive u
  /\ p_retakePolicy (recount u) = p_retakePolicy u
  /\ p_analytics (recount u) = p_analytics u
  /\ p_createdAt (recount u) = p_createdAt u
  /\ p_updatedAt (recount u) = p_updatedAt u.
Proof.
  unfold recount. destruct (_ && _); [destruct (negb _) |]; cbn; auto 15.
Qed.

(** X10. A returning updateQuiz answers 200 with the stored document,
    which getQuizById then gives back.  The document keeps its
    identifier; updatedAt is the time of the call, whatever updatedAt
    the request carries; the subject, the creation time, the retake
    policy and the analytics are those of the request where it
    supplies them and those of the stored quiz where it does not; and
    every other quiz and all results are untouched. *)
Theorem updateQuiz_frame (validators : patch -> list string)
    (quizId : ObjectId) (u : patch) (now : Z) (s s' : db)
    (resp : ApiResponse Quiz.t) :
  updateQuiz validators quizId u now s = (Returned resp, s') ->
  exists q,
    quizzes s !! quizId = Some q
    /\ statusCode resp = 200
    /\ quizzes s' !! quizId = Some (data resp)
    /\ (forall includeQuestions,
          getQuizById quizId includeQuestions s'
          = (Returned (mkResponse 200 (data resp) (Some "Quiz retrieved successfully")),
             s'))
    /\ updatedAt (data resp) = now
    /\ _id (data resp) = _id q
    /\ subjectId (data resp) = default (subjectId q) (p_subjectId u)
    /\ createdAt (data resp) = default (createdAt q) (p_createdAt u)
    /\ policy (data resp) = default (policy q) (p_retakePolicy u)
    /\ stats (data resp) = default (stats q) (p_analytics u)
    /\ quizResults s' = quizResults s
    /\ (forall k, k <> quizId -> quizzes s' !! k = quizzes s !! k).
Proof.
  intros Hret.
  destruct (updateQuiz_returned_store _ _ _ _ _ _ _ Hret) as (q & Hq & -> & ->).
  destruct (recount_fields u)
    as (_ & _ & _ & Hsub & _ & _ & _ & _ & _ & _ & Hpol & Hstats & Hcreated & _).
  exists q. split; [exact Hq |]. split; [reflexivity |].
  split; [cbn [quizzes data]; apply lookup_insert_eq |].
  split.
  { intros incl. unfold getQuizById, try_catch, bind, QuizModel.findById.
    cbn [quizzes]. now rewrite lookup_insert_eq. }
  cbn [data apply_patch updatedAt _id subjectId createdAt policy stats quizResults].
  rewrite Hsub, Hpol, Hstats, Hcreated.
  repeat split.
  intros k Hk. cbn [quizzes]. now rewrite lookup_insert_ne.
Qed.

Lemma updateQuiz_frame_witness :
  exists q,
    quizzes sample_db !! "q1" = Some q
    /\ updatedAt q = 1000 /\ createdAt q = 1000 /\ stats q = mkAnalytics 0 0 0 0
    /\ subjectId q = "s1"
    /\ exists resp s',
         updateQuiz accept_all "q1" overwrite_patch 9000 sample_db = (Returned resp, s')
         /\ quizzes s' !! "q1" = Some (data resp)
         /\ updatedAt (data resp) = 9000
         /\ createdAt (data resp) = 5
         /\ stats (data resp) = mkAnalytics 9 50 60 100
         /\ subjectId (data resp) = "s1"
         /\ quizResults s' = quizResults sample_db.
Proof.
  assert (Hrun :
    updateQuiz accept_all "q1" overwrite_patch 9000 sample_db
    = (Returned
         (mkResponse 200 (apply_patch overwrite_patch 9000 (sample_quiz "q1" 1 ["x1"]))
            (Some "Quiz updated successfully")),
       snd (updateQuiz accept_all "q1" overwrite_patch 9000 sample_db)))
    by (vm_compute; reflexivity).
  destruct (updateQuiz_frame _ _ _ _ _ _ _ Hrun)
    as (q & Hq & _ & Hstored & _ & Hupd & _ & Hsub & Hcre & _ & Hstats & Hres & _).
  assert (H : Some q = Some (sample_quiz "q1" 1 ["x1"]))
    by (rewrite <- Hq; vm_compute; reflexivity).
  injection H as ->.
  exists (sample_quiz "q1" 1 ["x1"]). split; [exact Hq |].
  split; [reflexivity |]. split; [reflexivity |]. split; [reflexivity |].
  split; [reflexivity |].
  do 2 eexists. split; [exact Hrun |].
  split; [exact Hstored |]. split; [exact Hupd |].
  split; [exact Hcre |]. split; [exact Hstats |]. split; [exact Hsub | exact Hres].
Defined.

(** The store deleteQuiz leaves, by case. *)
Lemma deleteQuiz_cases (quizId : ObjectId) (s : db) :
  match quizzes s !! quizId with
  | None => deleteQuiz quizId s = (Thrown (ApiError 404 "Quiz not found" []), s)
  | Some q =>
      if Js.is_nil (List.filter (fun r => String.eqb (QuizResult.quizId r) quizId)
                      (quizResults s))
      then deleteQuiz quizId s
           = (Returned (mkResponse 200 tt (Some "Quiz deleted successfully")),
              {| quizzes := delete quizId (quizzes s);
                 quizResults := quizResults s |})
      else deleteQuiz quizId s
           = (Returned
                (mkResponse 200 tt
                   (Some "Quiz deactivated successfully (has existing results)")),
              {| quizzes := <[_id q := set_isActive false q]> (quizzes s);
                 quizResults := quizResults s |})
  end.
Proof.
  unfold deleteQuiz, try_catch, bind, QuizModel.findById,
    QuizResultModel.exists_quiz, QuizResultModel.find_quiz, bind, ret.
  destruct (quizzes s !! quizId) as [q|]; [| reflexivity].
  destruct (List.filter _ (quizResults s)); reflexivity.
Qed.

(** What deleteQuiz leaves alone. *)
Lemma deleteQuiz_untouched (quizId : ObjectId) (s : db) :
  (quizzes s !! quizId = None ->
   deleteQuiz quizId s = (Thrown (ApiError 404 "Quiz not found" []), s))
  /\ (forall q o s',
        quizzes s !! quizId = Some q ->
        _id q = quizId ->
        deleteQuiz quizId s = (o, s') ->
        quizResults s' = quizResults s
        /\ (forall k, k <> quizId -> quizzes s' !! k = quizzes s !! k)).
Proof.
  pose proof (deleteQuiz_cases quizId s) as Hcases.
  split.
  - intros Hnone. now rewrite Hnone in Hcases.
  - intros q o s' Hq Hid Hdel. rewrite Hq in Hcases.
    destruct (Js.is_nil _); rewrite Hcases in Hdel; injection Hdel as <- <-;
      (split; [reflexivity |]); intros k Hk; cbn [quizzes].
    + now rewrite lookup_delete_ne.
    + rewrite Hid. now rewrite lookup_insert_ne.
Qed.

(** X11. deleteQuiz fails with 404, changing nothing, when no quiz has
    the identifier; otherwise, whichever way it deletes, it leaves
    every other quiz and all results as they were. *)
Theorem deleteQuiz_frame (quizId : ObjectId) (s : db) :
  (quizzes s !! quizId = None ->
   deleteQuiz quizId s = (Thrown (ApiError 404 "Quiz not found" []), s))
  /\ (forall q o s',
        quizzes s !! quizId = Some q ->
        _id q = quizId ->
        deleteQuiz quizId s = (o, s') ->
        quizResults s' = quizResults s
        /\ (forall k, k <> quizId -> quizzes s' !! k = quizzes s !! k)).
Proof. exact (deleteQuiz_untouched quizId s). Qed.

Lemma deleteQuiz_frame_witness :
  quizzes sample_db !! "q7" = None
  /\ deleteQuiz "q7" sample_db = (Thrown (ApiError 404 "Quiz not found" []), sample_db)
  /\ quizzes sample_db !! "q1" = Some (sample_quiz "q1" 1 ["x1"])
  /\ quizResults (snd (deleteQuiz "q1" sample_db)) = quizResults sample_db
  /\ (forall k, k <> "q1" ->
        quizzes (snd (deleteQuiz "q1" sample_db)) !! k = quizzes sample_db !! k).
Proof.
  assert (Hnone : quizzes sample_db !! "q7" = None) by (vm_compute; reflexivity).
  assert (Hq : quizzes sample_db !! "q1" = Some (sample_quiz "q1" 1 ["x1"]))
    by (vm_compute; reflexivity).
  split; [exact Hnone |].
  split; [exact (proj1 (deleteQuiz_frame "q7" sample_db) Hnone) |].
  split; [exact Hq |].
  exact (proj2 (deleteQuiz_frame "q1" sample_db) _
           (fst (deleteQuiz "q1" sample_db)) (snd (deleteQuiz "q1" sample_db))
           Hq eq_refl (surjective_pairing _)).
Defined.

Lemma quiz_select_sound (q : query) (docs found : list Quiz.t) :
  QuizService.select q docs = Returned found ->
  forall x, x ∈ found -> x ∈ docs /\ QuizService.matches_fields q x = true.
Proof.
  unfold QuizService.select.
  destruct (qy_or q) as [term|].
  - destruct (Mongo.regex_of term) as [re|e]; [| discriminate].
    intros [= <-] x Hx. apply list_elem_of_In, filter_In in Hx.
    destruct Hx as [Hin Hm]. apply andb_true_iff in Hm.
    split; [apply list_elem_of_In, Hin | apply Hm].
  - intros [= <-] x Hx. apply list_elem_of_In, filter_In in Hx.
    destruct Hx as [Hin Hm]. split; [apply list_elem_of_In, Hin | exact Hm].
Qed.

Lemma quiz_matches_isActive (q : query) (x : Quiz.t) (b : bool) :
  qy_isActive q = Some b ->
  QuizService.matches_fields q x = true -> isActive x = b.
Proof.
  intros Hq. unfold QuizService.matches_fields. rewrite Hq, !andb_true_iff.
  cbn [Mongo.eq_flag]. intros H. apply eqb_prop. tauto.
Qed.

Lemma quiz_matches_subjectId (q : query) (x : Quiz.t) (sid : string) :
  qy_subjectId q = Some sid ->
  QuizService.matches_fields q x = true -> subjectId x = sid.
Proof.
  intros Hq. unfold QuizService.matches_fields. rewrite Hq, !andb_true_iff.
  cbn [Mongo.eq_field]. intros H. apply String.eqb_eq. tauto.
Qed.

(** Every listed quiz is a stored quiz that satisfies the query. *)
Lemma getAllQuizzes_listed (filters : query) (o : options) (s s' : db)
    (resp : ApiResponse (list Quiz.t * pagination)) :
  getAllQuizzes filters o s = (Returned resp, s') ->
  s' = s
  /\ forall x, x ∈ fst (data resp) ->
       (exists k, quizzes s !! k = Some x)
       /\ QuizService.matches_fields (assign (build_query o) filters) x = true.
Proof.
  intros Hret.
  destruct (getAllQuizzes_returned _ _ _ _ _ Hret)
    as (found & skipped & Hsel & Hskip & -> & ->).
  split; [reflexivity |]. intros x Hx. cbn [data fst] in Hx.
  apply (page_subseteq _ _ _ _ _ _ Hskip) in Hx.
  destruct (quiz_select_sound _ _ _ Hsel x Hx) as [Hin Hm].
  split; [| exact Hm].
  apply list_elem_of_fmap in Hin. destruct Hin as ([k y] & -> & Hky).
  exists k. now apply elem_of_map_to_list.
Qed.

(** Every failure of getAllQuizzes is the same ApiError 500. *)
Lemma getAllQuizzes_thrown (filters : query) (o : options) (s s' : db) (e : exn) :
  getAllQuizzes filters o s = (Thrown e, s') ->
  s' = s /\ exists m, e = ApiError 500 "Failed to retrieve quizzes" [m].
Proof.
  unfold getAllQuizzes, try_catch, bind, lift, ret, QuizModel.all, wrap_all, throw.
  destruct (Js.truthy_string (o_search o)).
  - destruct (Mongo.regex_of _) as [re|e0]; [| intros [= <- <-]; eauto].
    destruct (QuizService.select _ _) as [found|e0]; [| intros [= <- <-]; eauto].
    destruct (Mongo.skip _ _) as [skipped|e0]; [discriminate | intros [= <- <-]; eauto].
  - destruct (QuizService.select _ _) as [found|e0]; [| intros [= <- <-]; eauto].
    destruct (Mongo.skip _ _) as [skipped|e0]; [discriminate | intros [= <- <-]; eauto].
Qed.

(** X12. A deleted quiz is in no list result of getAllQuizzes, as long
    as the request does not ask for inactive quizzes: hard-deleted it
    is gone, soft-deleted it is filtered out. *)
Theorem deleted_quiz_not_listed (quizId : ObjectId) (s s' s'' : db) (q : Quiz.t)
    (r : ApiResponse unit) (filters : query) (o : options)
    (resp : ApiResponse (list Quiz.t * pagination)) :
  quizzes_wf s ->
  quizzes s !! quizId = Some q ->
  deleteQuiz quizId s = (Returned r, s') ->
  qy_isActive filters = None ->
  o_isActive o <> Some false ->
  getAllQuizzes filters o s' = (Returned resp, s'') ->
  Forall (fun x => _id x <> quizId) (fst (data resp)).
Proof.
  intros Hwf Hq Hdel Hfilters Hopt Hlist.
  assert (Hid : _id q = quizId) by exact (Hwf _ _ Hq).
  apply Forall_forall. intros x Hx Hxid.
  destruct (getAllQuizzes_listed _ _ _ _ _ Hlist) as [_ Hlisted].
  destruct (Hlisted x Hx) as [[k Hk] Hm].
  assert (Hactive : isActive x = true).
  { apply (quiz_matches_isActive _ _ true) in Hm; [exact Hm |].
    cbn. rewrite Hfilters. cbn.
    destruct (o_isActive o) as [[|]|]; [reflexivity | congruence | reflexivity]. }
  destruct (String.eqb_spec k quizId) as [-> | Hne].
  - pose proof (deleteQuiz_cases quizId s) as Hcases. rewrite Hq in Hcases.
    destruct (Js.is_nil _); rewrite Hcases in Hdel; injection Hdel as _ <-;
      cbn [quizzes] in Hk.
    + now rewrite lookup_delete_eq in Hk.
    + rewrite Hid, lookup_insert_eq in Hk. injection Hk as <-.
      cbn in Hactive. discriminate.
  - destruct (proj2 (deleteQuiz_untouched quizId s) q _ _ Hq Hid Hdel) as [_ Hframe].
    rewrite (Hframe k Hne) in Hk. apply Hwf in Hk. congruence.
Qed.

(** X13. Deleting the same quiz again: after a hard delete the second
    call fails with 404; after a soft delete it answers as the first
    did and changes nothing. *)
Theorem deleteQuiz_twice (quizId : ObjectId) (s s' : db) (q : Quiz.t)
    (r : ApiResponse unit) :
  quizzes s !! quizId = Some q ->
  _id q = quizId ->
  deleteQuiz quizId s = (Returned r, s') ->
  (no_results quizId s ->
   deleteQuiz quizId s' = (Thrown (ApiError 404 "Quiz not found" []), s'))
  /\ (has_results quizId s -> deleteQuiz quizId s' = (Returned r, s')).
Proof.
  intros Hq Hid Hdel. subst quizId.
  pose proof (deleteQuiz_cases (_id q) s) as Hcases. rewrite Hq in Hcases.
  pose proof (deleteQuiz_cases (_id q) s') as Hagain.
  split.
  - intros Hno. rewrite (find_quiz_none _ _ Hno) in Hcases. cbn [Js.is_nil] in Hcases.
    rewrite Hcases in Hdel. injection Hdel as _ <-.
    cbn [quizzes] in Hagain. now rewrite lookup_delete_eq in Hagain.
  - intros Hsome. pose proof (find_quiz_some _ _ Hsome) as Hne.
    destruct (List.filter _ (quizResults s)) as [|r0 rs] eqn:Hrs; [congruence |].
    cbn [Js.is_nil] in Hcases. rewrite Hcases in Hdel. injection Hdel as <- <-.
    cbn [quizzes quizResults] in Hagain.
    rewrite lookup_insert_eq, Hrs in Hagain. cbn [Js.is_nil] in Hagain.
    rewrite Hagain. cbn [_id set_isActive]. rewrite insert_insert_eq.
    reflexivity.
Qed.

(** X14. getQuizzesBySubject lists only active quizzes of the given
    subject, whatever the options ask for, and changes nothing; when it
    fails, it fails with an ApiError 500 whose detail is the message of
    the list operation, not the original cause. *)
Theorem getQuizzesBySubject_active_of_subject (sid : ObjectId) (o : options) (s : db) :
  (forall resp s',
     getQuizzesBySubject sid o s = (Returned resp, s') ->
     s' = s
     /\ Forall (fun x => subjectId x = sid /\ isActive x = true) (fst (data resp)))
  /\ (forall e s',
        getQuizzesBySubject sid o s = (Thrown e, s') ->
        s' = s
        /\ e = ApiError 500 "Failed to retrieve quizzes by subject"
                 ["Failed to retrieve quizzes"]).
Proof.
  unfold getQuizzesBySubject, try_catch, wrap_all, throw.
  destruct (getAllQuizzes (subject_filters sid) o s) as [[resp0|e0] s0] eqn:Hall.
  - split; [| discriminate].
    intros resp s' [= <- <-].
    destruct (getAllQuizzes_listed _ _ _ _ _ Hall) as [-> Hlisted].
    split; [reflexivity |]. apply Forall_forall. intros x Hx.
    destruct (Hlisted x Hx) as [_ Hm]. split.
    + apply (quiz_matches_subjectId _ _ sid) in Hm; [exact Hm | reflexivity].
    + apply (quiz_matches_isActive _ _ true) in Hm; [exact Hm | reflexivity].
  - split; [discriminate |].
    intros e s' [= <- <-].
    destruct (getAllQuizzes_thrown _ _ _ _ _ Hall) as [-> [m ->]]. auto.
Qed.

Lemma sample_db_wf : quizzes_wf sample_db.
Proof.
  unfold quizzes_wf, sample_db. cbn [quizzes].
  apply map_Forall_insert_2; [reflexivity |].
  apply map_Forall_insert_2; [reflexivity |].
  apply map_Forall_empty.
Qed.

Lemma deleted_quiz_not_listed_witness :
  quizzes_wf sample_db
  /\ quizzes sample_db !! "q1" = Some (sample_quiz "q1" 1 ["x1"])
  /\ deleteQuiz "q1" sample_db
     = (Returned
          (mkResponse 200 tt
             (Some "Quiz deactivated successfully (has existing results)")),
        sample_db_soft)
  /\ getAllQuizzes no_filters (page_options 1 10) sample_db_soft
     = (Returned
          (mkResponse 200
             ([sample_quiz "q2" 1 ["x1"]],
              QuizService.mkPagination 1 (Js.Fin 1) 1 10 false false)
             (Some "Quizzes retrieved successfully")),
        sample_db_soft)
  /\ Forall (fun x => _id x <> "q1") [sample_quiz "q2" 1 ["x1"]].
Proof.
  assert (Hq : quizzes sample_db !! "q1" = Some (sample_quiz "q1" 1 ["x1"]))
    by (vm_compute; reflexivity).
  assert (Hdel :
    deleteQuiz "q1" sample_db
    = (Returned
         (mkResponse 200 tt
            (Some "Quiz deactivated successfully (has existing results)")),
       sample_db_soft)) by (vm_compute; reflexivity).
  assert (Hlist :
    getAllQuizzes no_filters (page_options 1 10) sample_db_soft
    = (Returned
         (mkResponse 200
            ([sample_quiz "q2" 1 ["x1"]],
             QuizService.mkPagination 1 (Js.Fin 1) 1 10 false false)
            (Some "Quizzes retrieved successfully")),
       sample_db_soft)) by (vm_compute; reflexivity).
  split; [exact sample_db_wf |]. split; [exact Hq |]. split; [exact Hdel |].
  split; [exact Hlist |].
  exact (deleted_quiz_not_listed "q1" sample_db sample_db_soft sample_db_soft _ _
           no_filters (page_options 1 10) _ sample_db_wf Hq Hdel eq_refl
           ltac:(discriminate) Hlist).
Defined.

Lemma deleteQuiz_twice_witness :
  (no_results "q2" sample_db
   /\ deleteQuiz "q2" sample_db_hard
      = (Thrown (ApiError 404 "Quiz not found" []), sample_db_hard))
  /\ (has_results "q1" sample_db
      /\ deleteQuiz "q1" sample_db_soft
         = (Returned
              (mkResponse 200 tt
                 (Some "Quiz deactivated successfully (has existing results)")),
            sample_db_soft)).
Proof.
  assert (Hno : no_results "q2" sample_db)
    by (unfold no_results; cbn; repeat constructor; discriminate).
  assert (Hsome : has_results "q1" sample_db)
    by (unfold has_results; cbn; constructor; reflexivity).
  split.
  - split; [exact Hno |].
    apply (proj1 (deleteQuiz_twice "q2" sample_db sample_db_hard
                    (sample_quiz "q2" 1 ["x1"])
                    (mkResponse 200 tt (Some "Quiz deleted successfully"))
                    ltac:(vm_compute; reflexivity) eq_refl
                    ltac:(vm_compute; reflexivity)) Hno).
  - split; [exact Hsome |].
    apply (proj2 (deleteQuiz_twice "q1" sample_db sample_db_soft
                    (sample_quiz "q1" 1 ["x1"])
                    (mkResponse 200 tt
                       (Some "Quiz deactivated successfully (has existing results)"))
                    ltac:(vm_compute; reflexivity) eq_refl
                    ltac:(vm_compute; reflexivity)) Hsome).
Defined.

Lemma getQuizzesBySubject_active_of_subject_witness :
  getQuizzesBySubject "s1" (inactive_options 1 1) sample_db
  = (Returned
       (mkResponse 200
          ([sample_quiz "q1" 1 ["x1"]],
           QuizService.mkPagination 1 (Js.Fin 2) 2 1 true false)
          (Some "Quizzes retrieved successfully")),
     sample_db)
  /\ Forall (fun x => subjectId x = "s1" /\ isActive x = true)
       [sample_quiz "q1" 1 ["x1"]]
  /\ getQuizzesBySubject "s1" (page_options 0 10) sample_db
     = (Thrown (ApiError 500 "Failed to retrieve quizzes by subject"
                  ["Failed to retrieve quizzes"]),
        sample_db).
Proof.
  assert (Hret :
    getQuizzesBySubject "s1" (inactive_options 1 1) sample_db
    = (Returned
         (mkResponse 200
            ([sample_quiz "q1" 1 ["x1"]],
             QuizService.mkPagination 1 (Js.Fin 2) 2 1 true false)
            (Some "Quizzes retrieved successfully")),
       sample_db)) by (vm_compute; reflexivity).
  assert (Hthrown :
    getQuizzesBySubject "s1" (page_options 0 10) sample_db
    = (Thrown (ApiError 500 "Failed to retrieve quizzes by subject"
                 ["Failed to retrieve quizzes"]),
       sample_db)) by (vm_compute; reflexivity).
  split; [exact Hret |]. split; [| exact Hthrown].
  exact (proj2 (proj1 (getQuizzesBySubject_active_of_subject "s1"
                         (inactive_options 1 1) sample_db) _ _ Hret)).
Defined.

End QuizLifecycle.

(** ** Quiz service: statistics and analytics *)

Section QuizFigures.
Import Quiz QuizService QuizServiceExt.

(** Two adjacent buckets count what the bucket spanning both counts. *)
Lemma bucket_merge (a b c x : float) :
  num_le a b -> num_le b c ->
  ((if in_bucket a b x then 1 else 0) + (if in_bucket b c x then 1 else 0))%nat
  = (if in_bucket a c x then 1 else 0)%nat.
Proof.
  intros Hab Hbc. unfold in_bucket, Js.gt, Js.le.
  destruct (num_le_number _ _ Hab) as [Na Nb].
  destruct (num_le_number _ _ Hbc) as [_ Nc].
  destruct (b <? x)%float eqn:Hbx.
  - apply ltb_num_lt in Hbx.
    rewrite (proj2 (ltb_num_lt a x) (num_le_lt_trans _ _ _ Hab Hbx)).
    rewrite (leb_false_not_le x b (num_lt_not_le _ _ Hbx)).
    cbn [andb]. destruct (x <=? c)%float; reflexivity.
  - cbn [andb]. destruct (a <? x)%float eqn:Hax; [| reflexivity].
    apply ltb_num_lt in Hax. destruct (num_lt_number _ _ Hax) as [_ Nx].
    pose proof (ltb_false_le _ _ Nb Nx Hbx) as Hxb.
    rewrite (proj2 (leb_num_le x b) Hxb).
    rewrite (proj2 (leb_num_le x c) (num_le_trans _ _ _ Hxb Hbc)). reflexivity.
Qed.

(** A bucket whose bounds are the wrong way round, or not numbers,
    counts nothing. *)
Lemma bucket_empty (a b x : float) : num_le b a -> in_bucket a b x = false.
Proof.
  intros Hba. unfold in_bucket, Js.gt, Js.le.
  destruct (a <? x)%float eqn:Hax; [| reflexivity].
  apply ltb_num_lt in Hax. cbn [andb]. apply leb_false_not_le. intros Hxb.
  exact (num_le_not_lt _ _ (num_le_trans _ _ _ Hxb Hba) Hax).
Qed.

Lemma bucket_not_number (a b x : float) :
  ~ is_number a \/ ~ is_number b -> in_bucket a b x = false.
Proof.
  intros H. unfold in_bucket, Js.gt, Js.le.
  destruct (a <? x)%float eqn:Hax; [| reflexivity].
  apply ltb_num_lt in Hax. destruct (num_lt_number _ _ Hax) as [Na _].
  cbn [andb]. apply leb_false_not_le. intros Hxb.
  destruct (num_le_number _ _ Hxb) as [_ Nb]. tauto.
Qed.

(** The bounds of the buckets, in the order of the numbers. *)
Lemma bounds_chain (totalPoints : float) :
  let b2 := (totalPoints * 0.2)%float in
  let b4 := (totalPoints * 0.4)%float in
  let b6 := (totalPoints * 0.6)%float in
  let b8 := (totalPoints * 0.8)%float in
  (num_le 0 totalPoints ->
   num_le 0 b2 /\ num_le b2 b4 /\ num_le b4 b6 /\ num_le b6 b8
   /\ num_le b8 totalPoints)
  /\ (num_le totalPoints 0 ->
      num_le b2 0 /\ num_le b4 b2 /\ num_le b6 b4 /\ num_le b8 b6
      /\ num_le totalPoints b8).
Proof.
  cbv zeta. split; intros H.
  - split; [| split; [| split; [| split]]].
    + apply (mul_nonneg 0.2 7205759403792794 (-55));
        try reflexivity; exact H.
    + apply (mul_mono_nonneg 0.2 0.4 7205759403792794 7205759403792794 (-55) (-54));
        try reflexivity; try exact H; vm_compute; discriminate.
    + apply (mul_mono_nonneg 0.4 0.6 7205759403792794 5404319552844595 (-54) (-53));
        try reflexivity; try exact H; vm_compute; discriminate.
    + apply (mul_mono_nonneg 0.6 0.8 5404319552844595 7205759403792794 (-53) (-53));
        try reflexivity; try exact H; vm_compute; discriminate.
    + apply (mul_le_self 0.8 7205759403792794 (-53));
        try reflexivity; try exact H; vm_compute; discriminate.
  - split; [| split; [| split; [| split]]].
    + apply (mul_nonpos 0.2 7205759403792794 (-55));
        try reflexivity; exact H.
    + apply (mul_mono_nonpos 0.2 0.4 7205759403792794 7205759403792794 (-55) (-54));
        try reflexivity; try exact H; vm_compute; discriminate.
    + apply (mul_mono_nonpos 0.4 0.6 7205759403792794 5404319552844595 (-54) (-53));
        try reflexivity; try exact H; vm_compute; discriminate.
    + apply (mul_mono_nonpos 0.6 0.8 5404319552844595 7205759403792794 (-53) (-53));
        try reflexivity; try exact H; vm_compute; discriminate.
    + apply (mul_ge_self 0.8 7205759403792794 (-53));
        try reflexivity; try exact H; vm_compute; discriminate.
Qed.

(** A result is counted in exactly one bucket when its score lies in
    (0, totalPoints], and in none otherwise. *)
Lemma buckets_of_result (totalPoints : float) (r : QuizResult.t) :
  list_sum ((fun rg => if in_range rg r then 1%nat else 0%nat) <$> ranges totalPoints)
  = if in_range (mkRange "" 0 totalPoints) r then 1%nat else 0%nat.
Proof.
  unfold ranges. cbn [fmap list_fmap list_sum fold_right].
  change (in_range ?rg r) with (in_bucket (min rg) (max rg) (QuizResult.score r)).
  cbn [min max]. set (x := QuizResult.score r).
  set (b2 := (totalPoints * 0.2)%float). set (b4 := (totalPoints * 0.4)%float).
  set (b6 := (totalPoints * 0.6)%float). set (b8 := (totalPoints * 0.8)%float).
  destruct (bounds_chain totalPoints) as [Hup Hdown]. cbv zeta in Hup, Hdown.
  fold b2 b4 b6 b8 in Hup, Hdown.
  destruct (is_nan totalPoints) eqn:Hnan.
  - apply nan_not_number in Hnan.
    assert (N2 : ~ is_number b2) by (apply mul_not_number; exact Hnan).
    assert (N4 : ~ is_number b4) by (apply mul_not_number; exact Hnan).
    assert (N6 : ~ is_number b6) by (apply mul_not_number; exact Hnan).
    assert (N8 : ~ is_number b8) by (apply mul_not_number; exact Hnan).
    rewrite !bucket_not_number by tauto. reflexivity.
  - apply is_nan_number in Hnan.
    destruct (number_cases _ Hnan) as [H | H].
    + destruct (Hup H) as (H0 & H2 & H4 & H6 & H8).
      rewrite <- (bucket_merge 0 b8 totalPoints x
                    (num_le_trans _ _ _ H0
                       (num_le_trans _ _ _ H2 (num_le_trans _ _ _ H4 H6))) H8).
      rewrite <- (bucket_merge 0 b6 b8 x
                    (num_le_trans _ _ _ H0 (num_le_trans _ _ _ H2 H4)) H6).
      rewrite <- (bucket_merge 0 b4 b6 x (num_le_trans _ _ _ H0 H2) H4).
      rewrite <- (bucket_merge 0 b2 b4 x H0 H2). lia.
    + destruct (Hdown H) as (H0 & H2 & H4 & H6 & H8).
      rewrite (bucket_empty 0 b2), (bucket_empty b2 b4), (bucket_empty b4 b6),
        (bucket_empty b6 b8), (bucket_empty b8 totalPoints),
        (bucket_empty 0 totalPoints) by assumption.
      reflexivity.
Qed.

Lemma filter_cons_count {A} (p : A -> bool) (x : A) (l : list A) :
  length (List.filter p (x :: l))
  = ((if p x then 1 else 0) + length (List.filter p l))%nat.
Proof. cbn [List.filter]. now destruct (p x). Qed.

(** X15. The five buckets are disjoint and cover exactly the scores in
    (0, totalPoints]: the bucket counts add up to the number of
    results with 0 < score <= totalPoints.  A result with score 0, or
    with a score above totalPoints, is counted in no bucket. *)
Theorem distribution_counts_scores_in_range (results : list QuizResult.t)
    (totalPoints : float) :
  list_sum (snd <$> calculateScoreDistribution results totalPoints)
  = length
      (List.filter
         (fun r => Js.gt (QuizResult.score r) 0 && Js.le (QuizResult.score r) totalPoints)
         results).
Proof.
  change (fun r => Js.gt (QuizResult.score r) 0 && Js.le (QuizResult.score r) totalPoints)
    with (in_range (mkRange "" 0 totalPoints)).
  induction results as [|r rs IH].
  - reflexivity.
  - rewrite filter_cons_count, <- IH, <- buckets_of_result.
    unfold calculateScoreDistribution, ranges.
    cbn [map fmap list_fmap snd list_sum fold_right].
    rewrite !filter_cons_count. lia.
Qed.

Lemma getQuizStatistics_cases (quizId : ObjectId) (s : db) :
  getQuizStatistics quizId s
  = match quizzes s !! quizId with
    | None => (Thrown (ApiError 404 "Quiz not found" []), s)
    | Some q =>
        (Returned
           (mkResponse 200 (compute_statistics (results_of quizId s) (totalPoints q))
              (Some "Quiz statistics retrieved successfully")), s)
    end.
Proof.
  unfold getQuizStatistics, try_catch, bind, QuizModel.findById,
    QuizResultModel.find_quiz, ret.
  destruct (quizzes s !! quizId); reflexivity.
Qed.

(** X16. getQuizStatistics never changes the store; it fails with 404
    when no quiz has the identifier, and for a stored quiz without
    results it reports zero for every figure and for every bucket. *)
Theorem getQuizStatistics_edges (quizId : ObjectId) (s : db) :
  (forall o s', getQuizStatistics quizId s = (o, s') -> s' = s)
  /\ (quizzes s !! quizId = None ->
      getQuizStatistics quizId s = (Thrown (ApiError 404 "Quiz not found" []), s))
  /\ (forall q,
        quizzes s !! quizId = Some q ->
        no_results quizId s ->
        getQuizStatistics quizId s
        = (Returned
             (mkResponse 200 no_statistics
                (Some "Quiz statistics retrieved successfully")), s)).
Proof.
  rewrite getQuizStatistics_cases. split; [| split].
  - intros o s'. destruct (quizzes s !! quizId); now intros [= _ <-].
  - now intros ->.
  - intros q -> Hno. unfold results_of. now rewrite (find_quiz_none _ _ Hno).
Qed.

Lemma getQuizStatistics_edges_witness :
  quizzes sample_db !! "q2" = Some (sample_quiz "q2" 1 ["x1"])
  /\ no_results "q2" sample_db
  /\ getQuizStatistics "q2" sample_db
     = (Returned
          (mkResponse 200 no_statistics
             (Some "Quiz statistics retrieved successfully")), sample_db)
  /\ quizzes sample_db !! "q7" = None
  /\ getQuizStatistics "q7" sample_db
     = (Thrown (ApiError 404 "Quiz not found" []), sample_db).
Proof.
  assert (Hq : quizzes sample_db !! "q2" = Some (sample_quiz "q2" 1 ["x1"]))
    by (vm_compute; reflexivity).
  assert (Hno : no_results "q2" sample_db)
    by (unfold no_results; cbn; repeat constructor; discriminate).
  assert (Hnone : quizzes sample_db !! "q7" = None) by (vm_compute; reflexivity).
  split; [exact Hq |]. split; [exact Hno |].
  split; [exact (proj2 (proj2 (getQuizStatistics_edges "q2" sample_db)) _ Hq Hno) |].
  split; [exact Hnone |].
  exact (proj1 (proj2 (getQuizStatistics_edges "q7" sample_db)) Hnone).
Defined.

(** A rounded percentage of a part of a non-empty list lies between 0
    and 100. *)
Lemma percentage_bounds {A} (p : A -> bool) (xs : list A) :
  xs <> [] ->
  let rate := Js.Math_round (Js.length (List.filter p xs) / Js.length xs * 100) in
  (0 <=? rate)%float = true /\ (rate <=? 100)%float = true.
Proof.
  intros Hne rate.
  destruct (length_ratio_bounds (List.filter p xs) xs
              (List.filter_length_le p xs) Hne) as [H0 H1].
  destruct (percent_bounds _ H0 H1) as [P0 P1].
  destruct (Math_round_bounds _ P0 P1) as [R0 R1].
  split; apply leb_num_le; assumption.
Qed.

Lemma is_number_scores (rs : list QuizResult.t) :
  Forall (fun r => is_nan (QuizResult.score r) = false) rs ->
  Forall is_number (QuizResult.score <$> rs).
Proof.
  intros H. apply Forall_fmap. eapply Forall_impl; [exact H |].
  intros r Hr. apply is_nan_number. exact Hr.
Qed.

(** X17. For a stored quiz, getQuizStatistics counts the results of
    the quiz as totalAttempts, and reports a passRate between 0 and
    100 and a lowestScore and a highestScore that bound the score of
    every result: no score is below the lowest or above the highest;
    when every score is a number, lowestScore <= score <= highestScore
    for every result; and a score that is not a number makes both
    NaN. *)
Theorem getQuizStatistics_bounds (quizId : ObjectId) (s : db) (q : Quiz.t) :
  quizzes s !! quizId = Some q ->
  exists st,
    getQuizStatistics quizId s
    = (Returned (mkResponse 200 st (Some "Quiz statistics retrieved successfully")), s)
    /\ st_totalAttempts st = Z.of_nat (length (results_of quizId s))
    /\ Forall (fun r => (QuizResult.score r <? lowestScore st)%float = false
                        /\ (highestScore st <? QuizResult.score r)%float = false)
         (results_of quizId s)
    /\ (Forall (fun r => is_nan (QuizResult.score r) = false) (results_of quizId s) ->
        Forall (fun r => (lowestScore st <=? QuizResult.score r)%float = true
                         /\ (QuizResult.score r <=? highestScore st)%float = true)
          (results_of quizId s))
    /\ (Exists (fun r => is_nan (QuizResult.score r) = true) (results_of quizId s) ->
        is_nan (lowestScore st) = true /\ is_nan (highestScore st) = true)
    /\ (0 <=? passRate st)%float = true /\ (passRate st <=? 100)%float = true.
Proof.
  intros Hq. rewrite getQuizStatistics_cases, Hq.
  eexists. split; [reflexivity |]. split; [reflexivity |].
  set (rs := results_of quizId s).
  unfold compute_statistics. cbn [lowestScore highestScore passRate].
  rewrite length_positive.
  destruct rs as [|r0 rest] eqn:Ers.
  { cbn [Js.is_nil negb]. split; [constructor |]. split; [constructor |].
    split; [intros H; inversion H |]. split; reflexivity. }
  cbn [Js.is_nil negb].
  assert (Hne : rs <> []) by (rewrite Ers; discriminate).
  rewrite <- Ers. clear Ers.
  assert (Hnum :
    Forall (fun r => is_nan (QuizResult.score r) = false) rs ->
    Forall (fun r => (Js.Math_min (QuizResult.score <$> rs) <=? QuizResult.score r)%float = true
                     /\ (QuizResult.score r <=? Js.Math_max (QuizResult.score <$> rs))%float = true) rs).
  { intros Hall. pose proof (is_number_scores _ Hall) as Hn.
    assert (Ninf : is_number infinity) by (unfold is_number; discriminate).
    assert (Nninf : is_number neg_infinity) by (unfold is_number; discriminate).
    unfold Js.Math_min, Js.Math_max.
    destruct (fold_max2_spec _ _ Nninf Hn) as (_ & _ & Hmax).
    destruct (fold_min2_spec _ _ Ninf Hn) as (_ & _ & Hmin).
    rewrite Forall_fmap in Hmax, Hmin.
    rewrite Forall_forall in Hmax, Hmin. apply Forall_forall. intros x Hx.
    split; apply leb_num_le; [apply Hmin | apply Hmax]; exact Hx. }
  assert (Hnan :
    Exists (fun r => is_nan (QuizResult.score r) = true) rs ->
    Js.Math_min (QuizResult.score <$> rs) = nan /\ Js.Math_max (QuizResult.score <$> rs) = nan).
  { intros Hex.
    assert (Hex' : Exists (fun x => is_nan x = true) (QuizResult.score <$> rs)).
    { apply Exists_fmap. exact Hex. }
    unfold Js.Math_min, Js.Math_max.
    split; [apply fold_min2_not_number | apply fold_max2_not_number]; exact Hex'. }
  split; [| split; [exact Hnum | split]].
  - assert (Hdec : forall r : QuizResult.t,
              {is_nan (QuizResult.score r) = false}
              + {is_nan (QuizResult.score r) = true}).
    { intros r. destruct (is_nan (QuizResult.score r)); [right | left]; reflexivity. }
    destruct (Forall_Exists_dec _ _ Hdec rs) as [Hall | Hex].
    + specialize (Hnum Hall). eapply Forall_impl; [exact Hnum |].
      intros r [H1 H2]. apply leb_num_le in H1, H2.
      split; apply ltb_false_not_lt; apply num_le_not_lt; assumption.
    + destruct (Hnan Hex) as [-> ->]. apply Forall_forall. intros r _.
      split; apply ltb_false_not_lt; intros H; apply num_lt_number in H;
        destruct H as [A B]; first [exact (A eq_refl) | exact (B eq_refl)].
  - intros Hex. destruct (Hnan Hex) as [-> ->]. split; reflexivity.
  - apply percentage_bounds. exact Hne.
Qed.

Lemma getQuizStatistics_bounds_witness :
  quizzes sample_db !! "q1" = Some (sample_quiz "q1" 1 ["x1"])
  /\ exists st,
       getQuizStatistics "q1" sample_db
       = (Returned (mkResponse 200 st (Some "Quiz statistics retrieved successfully")),
          sample_db)
       /\ st_totalAttempts st = 4
       /\ lowestScore st = 10%float /\ highestScore st = 20%float
       /\ passRate st = 75%float
       /\ (0 <=? passRate st)%float = true /\ (passRate st <=? 100)%float = true.
Proof.
  assert (Hq : quizzes sample_db !! "q1" = Some (sample_quiz "q1" 1 ["x1"]))
    by (vm_compute; reflexivity).
  split; [exact Hq |].
  assert (Hrun :
    getQuizStatistics "q1" sample_db
    = (Returned
         (mkResponse 200 (compute_statistics (results_of "q1" sample_db) 20)
            (Some "Quiz statistics retrieved successfully")), sample_db))
    by (vm_compute; reflexivity).
  destruct (getQuizStatistics_bounds "q1" sample_db _ Hq)
    as (st & Hret & Hn & _ & _ & _ & Hrate).
  rewrite Hrun in Hret. injection Hret as <-.
  exists (compute_statistics (results_of "q1" sample_db) 20).
  split; [exact Hrun |].
  split; [reflexivity |].
  split; [vm_compute; reflexivity |].
  split; [vm_compute; reflexivity |].
  split; [vm_compute; reflexivity | exact Hrate].
Defined.

Lemma updateQuizAnalytics_cases (quizId : ObjectId) (s : db) :
  updateQuizAnalytics quizId s
  = match results_of quizId s with
    | [] => (Returned None, s)
    | rs =>
        (Returned
           (Some (mkResponse 200 (compute_analytics rs)
                    (Some "Quiz analytics updated successfully"))),
         match quizzes s !! quizId with
         | Some q =>
             {| quizzes := <[quizId := set_analytics (compute_analytics rs) q]> (quizzes s);
                quizResults := quizResults s |}
         | None => s
         end)
    end.
Proof.
  unfold updateQuizAnalytics, try_catch, bind, QuizResultModel.find_quiz,
    QuizModel.findByIdAndUpdate, ret, results_of.
  destruct (List.filter _ (quizResults s)) as [|r rs]; [reflexivity |].
  cbn [length Nat.eqb]. cbv beta iota.
  destruct (quizzes s !! quizId); reflexivity.
Qed.

Lemma has_results_cons (quizId : ObjectId) (s : db) :
  has_results quizId s -> exists r rs, results_of quizId s = r :: rs.
Proof.
  intros H. pose proof (find_quiz_some _ _ H) as Hne. unfold results_of.
  destruct (List.filter _ (quizResults s)) as [|r rs]; [congruence | eauto].
Qed.

(** X18. For a stored quiz with results, the figures getQuizStatistics
    computes on the fly and those updateQuizAnalytics stores agree:
    same totalAttempts (at least 1), same averageScore, same
    averageTime; the stored completionRate lies between 0 and 100. *)
Theorem analytics_agree_with_statistics (quizId : ObjectId) (s : db) (q : Quiz.t) :
  quizzes s !! quizId = Some q ->
  has_results quizId s ->
  exists st a s',
    getQuizStatistics quizId s
    = (Returned (mkResponse 200 st (Some "Quiz statistics retrieved successfully")), s)
    /\ updateQuizAnalytics quizId s
       = (Returned
            (Some (mkResponse 200 a (Some "Quiz analytics updated successfully"))), s')
    /\ quizzes s' !! quizId = Some (set_analytics a q)
    /\ st_totalAttempts st = totalAttempts a
    /\ 1 <= totalAttempts a
    /\ st_averageScore st = averageScore a
    /\ st_averageTime st = averageTime a
    /\ (0 <=? completionRate a)%float = true
    /\ (completionRate a <=? 100)%float = true.
Proof.
  intros Hq Hsome.
  destruct (has_results_cons _ _ Hsome) as (r & rs & Hrs).
  rewrite getQuizStatistics_cases, updateQuizAnalytics_cases, Hq, Hrs.
  do 3 eexists. split; [reflexivity |]. split; [reflexivity |].
  split; [cbn [quizzes]; apply lookup_insert_eq |].
  split; [reflexivity |]. split; [cbn; lia |].
  unfold compute_statistics, compute_analytics.
  cbn [st_averageScore st_averageTime averageScore averageTime completionRate].
  rewrite length_positive. cbn [Js.is_nil negb].
  split; [reflexivity |]. split; [reflexivity |].
  apply percentage_bounds. discriminate.
Qed.

Lemma analytics_agree_with_statistics_witness :
  quizzes sample_db !! "q1" = Some (sample_quiz "q1" 1 ["x1"])
  /\ has_results "q1" sample_db
  /\ exists st a s',
       getQuizStatistics "q1" sample_db
       = (Returned (mkResponse 200 st (Some "Quiz statistics retrieved successfully")),
          sample_db)
       /\ updateQuizAnalytics "q1" sample_db
          = (Returned
               (Some (mkResponse 200 a (Some "Quiz analytics updated successfully"))),
             s')
       /\ quizzes s' !! "q1" = Some (set_analytics a (sample_quiz "q1" 1 ["x1"]))
       /\ st_totalAttempts st = totalAttempts a
       /\ 1 <= totalAttempts a
       /\ st_averageScore st = averageScore a
       /\ st_averageTime st = averageTime a
       /\ (0 <=? completionRate a)%float = true
       /\ (completionRate a <=? 100)%float = true.
Proof.
  assert (Hq : quizzes sample_db !! "q1" = Some (sample_quiz "q1" 1 ["x1"]))
    by (vm_compute; reflexivity).
  assert (Hsome : has_results "q1" sample_db)
    by (unfold has_results; cbn; constructor; reflexivity).
  split; [exact Hq |]. split; [exact Hsome |].
  exact (analytics_agree_with_statistics "q1" sample_db _ Hq Hsome).
Defined.

(** X19. When results refer to the quiz, updateQuizAnalytics answers
    200 with the analytics whether or not the quiz itself is stored;
    if it is not, nothing is stored.  It touches no other quiz and no
    result, and running it again gives the same answer and changes
    nothing more. *)
Theorem updateQuizAnalytics_repeat (quizId : ObjectId) (s : db) :
  has_results quizId s ->
  exists a s',
    updateQuizAnalytics quizId s
    = (Returned (Some (mkResponse 200 a (Some "Quiz analytics updated successfully"))),
       s')
    /\ (quizzes s !! quizId = None -> s' = s)
    /\ quizResults s' = quizResults s
    /\ (forall k, k <> quizId -> quizzes s' !! k = quizzes s !! k)
    /\ updateQuizAnalytics quizId s'
       = (Returned
            (Some (mkResponse 200 a (Some "Quiz analytics updated successfully"))),
          s').
Proof.
  intros Hsome.
  destruct (has_results_cons _ _ Hsome) as (r & rs & Hrs).
  rewrite updateQuizAnalytics_cases, Hrs.
  do 2 eexists. split; [reflexivity |].
  destruct (quizzes s !! quizId) as [q|] eqn:Hq.
  - split; [discriminate |]. split; [reflexivity |]. split.
    + intros k Hk. cbn [quizzes]. now rewrite lookup_insert_ne.
    + rewrite updateQuizAnalytics_cases. unfold results_of in *.
      cbn [quizResults quizzes]. rewrite Hrs, lookup_insert_eq, insert_insert_eq.
      reflexivity.
  - split; [reflexivity |]. split; [reflexivity |]. split; [reflexivity |].
    rewrite updateQuizAnalytics_cases, Hrs, Hq. reflexivity.
Qed.

Lemma updateQuizAnalytics_repeat_witness :
  has_results "q1" sample_db
  /\ exists a s',
       updateQuizAnalytics "q1" sample_db
       = (Returned
            (Some (mkResponse 200 a (Some "Quiz analytics updated successfully"))), s')
       /\ (quizzes sample_db !! "q1" = None -> s' = sample_db)
       /\ quizResults s' = quizResults sample_db
       /\ (forall k, k <> "q1" -> quizzes s' !! k = quizzes sample_db !! k)
       /\ updateQuizAnalytics "q1" s'
          = (Returned
               (Some (mkResponse 200 a (Some "Quiz analytics updated successfully"))),
             s').
Proof.
  assert (Hsome : has_results "q1" sample_db)
    by (unfold has_results; cbn; constructor; reflexivity).
  split; [exact Hsome |].
  exact (updateQuizAnalytics_repeat "q1" sample_db Hsome).
Defined.

End QuizFigures.

(** ** Quiz service: bulk update, creation, eligibility *)

Section QuizBulk.
Import Quiz QuizService QuizServiceExt.

Lemma filter_all {A} (p : A -> bool) (l : list A) :
  (forall x, In x l -> p x = true) -> List.filter p l = l.
Proof.
  induction l as [|x l IH]; intros H; [reflexivity |].
  cbn [List.filter]. rewrite (H x (or_introl eq_refl)). f_equal.
  apply IH. intros y Hy. apply H. now right.
Qed.

Lemma filter_none {A} (p : A -> bool) (l : list A) :
  (forall x, In x l -> p x = false) -> List.filter p l = [].
Proof.
  induction l as [|x l IH]; intros H; [reflexivity |].
  cbn [List.filter]. rewrite (H x (or_introl eq_refl)).
  apply IH. intros y Hy. apply H. now right.
Qed.

Lemma same_doc_stamp (u : patch) (now : Z) (q : Quiz.t) :
  updatedAt q <> now -> same_doc (apply_patch u now q) q = false.
Proof.
  intros Hne. unfold same_doc. cbn [updatedAt apply_patch].
  apply andb_false_intro2. apply Z.eqb_neq. congruence.
Qed.

(** X20. bulkUpdateQuizzes always answers 200.  It applies the update,
    stamped with the time of the call, to every stored quiz whose
    identifier is listed and to no other; results are untouched;
    modifiedCount <= matchedCount <= number of stored quizzes.  Since
    every update carries the time stamp, all matched quizzes count as
    modified unless one was already stamped with that very time; and
    when no listed identifier is stored, nothing is matched and the
    quizzes stay as they are. *)
Theorem bulkUpdateQuizzes_effect (quizIds : list ObjectId) (u : patch) (now : Z)
    (s : db) :
  exists r s',
    bulkUpdateQuizzes quizIds u now s
    = (Returned (mkResponse 200 r (Some "Bulk update completed successfully")), s')
    /\ quizResults s' = quizResults s
    /\ (forall k,
          quizzes s' !! k
          = if listed quizIds k
            then apply_patch u now <$> quizzes s !! k
            else quizzes s !! k)
    /\ 0 <= modifiedCount r <= matchedCount r
    /\ matchedCount r <= Z.of_nat (size (quizzes s))
    /\ ((forall k q, listed quizIds k = true -> quizzes s !! k = Some q ->
                     updatedAt q <> now) ->
        modifiedCount r = matchedCount r)
    /\ ((forall k, listed quizIds k = true -> quizzes s !! k = None) ->
        matchedCount r = 0 /\ quizzes s' = quizzes s).
Proof.
  unfold bulkUpdateQuizzes, try_catch, bind, updateMany, ret.
  set (matched :=
         List.filter (fun kq : ObjectId * Quiz.t => listed quizIds (fst kq))
           (map_to_list (quizzes s))).
  do 2 eexists. split; [reflexivity |]. cbn [quizResults quizzes matchedCount modifiedCount].
  assert (Hlookup : forall k,
    map_imap (fun k q => Some (if listed quizIds k then apply_patch u now q else q))
      (quizzes s) !! k
    = if listed quizIds k then apply_patch u now <$> quizzes s !! k
      else quizzes s !! k).
  { intros k. rewrite map_lookup_imap.
    destruct (quizzes s !! k) as [q|]; cbn; destruct (listed quizIds k); reflexivity. }
  split; [reflexivity |]. split; [exact Hlookup |].
  split.
  { pose proof (List.filter_length_le
                  (fun kq : ObjectId * Quiz.t =>
                     negb (same_doc (apply_patch u now (snd kq)) (snd kq))) matched).
    lia. }
  split.
  { pose proof (List.filter_length_le
                  (fun kq : ObjectId * Quiz.t => listed quizIds (fst kq))
                  (map_to_list (quizzes s))) as Hle.
    rewrite length_map_to_list in Hle. fold matched in Hle. lia. }
  split.
  - intros Hfresh. f_equal. f_equal. apply filter_all.
    intros [k q] Hin. unfold matched in Hin. apply filter_In in Hin.
    destruct Hin as [Hin Hlisted]. cbn [fst snd] in *.
    apply list_elem_of_In, elem_of_map_to_list in Hin.
    apply negb_true_iff, same_doc_stamp. eauto.
  - intros Habsent. split.
    + unfold matched. rewrite filter_none; [reflexivity |].
      intros [k q] Hin. cbn [fst].
      apply list_elem_of_In, elem_of_map_to_list in Hin.
      destruct (listed quizIds k) eqn:Hl; [| reflexivity].
      rewrite (Habsent k Hl) in Hin. discriminate.
    + apply map_eq. intros k. rewrite Hlookup.
      destruct (listed quizIds k) eqn:Hl; [| reflexivity].
      now rewrite (Habsent k Hl).
Qed.

Lemma bulkUpdateQuizzes_effect_witness :
  exists r s',
    bulkUpdateQuizzes ["q1"; "q9"; "q1"] (questions_patch ["x1"; "x2"] (Some 5)) 9000
      sample_db
    = (Returned (mkResponse 200 r (Some "Bulk update completed successfully")), s')
    /\ quizzes s' !! "q1"
       = Some (apply_patch (questions_patch ["x1"; "x2"] (Some 5)) 9000
                 (sample_quiz "q1" 1 ["x1"]))
    /\ quizzes s' !! "q2" = Some (sample_quiz "q2" 1 ["x1"])
    /\ modifiedCount r = matchedCount r.
Proof.
  destruct (bulkUpdateQuizzes_effect ["q1"; "q9"; "q1"]
              (questions_patch ["x1"; "x2"] (Some 5)) 9000 sample_db)
    as (r & s' & Hret & _ & Hlookup & _ & _ & Hall & _).
  exists r, s'. split; [exact Hret |].
  split; [rewrite Hlookup; vm_compute; reflexivity |].
  split; [rewrite Hlookup; vm_compute; reflexivity |].
  apply Hall. intros k q _ Hk.
  assert (Hstamps : map_Forall (fun _ q => updatedAt q <> 9000) (quizzes sample_db)).
  { unfold sample_db. cbn [quizzes].
    apply map_Forall_insert_2; [discriminate |].
    apply map_Forall_insert_2; [discriminate |].
    apply map_Forall_empty. }
  exact (Hstamps k q Hk).
Defined.

(** X21. createQuiz fails with 400 and the validators' messages,
    storing nothing, when the schema rejects the new document.  When
    the schema accepts it and the identifier is free, it answers 201
    with the document it has stored, which getQuizById then gives
    back; other quizzes and all results are untouched; the document
    has the fields of the request, and if the request supplies
    questionIds with a non-zero totalQuestions, its totalQuestions is
    the number of questionIds. *)
Theorem createQuiz_effect (defaults : Quiz.t) (validators : Quiz.t -> list string)
    (newId : ObjectId) (d : patch) (s : db) :
  let quiz := construct defaults newId (recount d) in
  (validators quiz <> [] ->
   createQuiz defaults validators newId d s
   = (Thrown (ApiError 400 "Validation failed" (validators quiz)), s))
  /\ (validators quiz = [] ->
      quizzes s !! newId = None ->
      exists s',
        createQuiz defaults validators newId d s
        = (Returned (mkResponse 201 quiz (Some "Quiz created successfully")), s')
        /\ quizzes s' !! newId = Some quiz
        /\ (forall includeQuestions,
              getQuizById newId includeQuestions s'
              = (Returned (mkResponse 200 quiz (Some "Quiz retrieved successfully")), s'))
        /\ quizResults s' = quizResults s
        /\ (forall k, k <> newId -> quizzes s' !! k = quizzes s !! k)
        /\ _id quiz = newId
        /\ subjectId quiz = default (subjectId defaults) (p_subjectId d)
        /\ title quiz = default (title defaults) (p_title d)
        /\ questionIds quiz = default (questionIds defaults) (p_questionIds d)
        /\ policy quiz = default (policy defaults) (p_retakePolicy d)
        /\ (forall ids n,
              p_questionIds d = Some ids ->
              p_totalQuestions d = Some n ->
              n <> 0 ->
              questionIds quiz = ids
              /\ totalQuestions quiz = Z.of_nat (length ids))).
Proof.
  intros quiz. unfold createQuiz, try_catch, bind, save_new. fold quiz.
  split.
  - intros Hbad. destruct (validators quiz); [contradiction | reflexivity].
  - intros -> Hfree. unfold QuizModel.findById, bind, QuizModel.save, modify, ret.
    change (_id quiz) with newId. rewrite Hfree.
    destruct (recount_fields d)
      as (Htitle & _ & _ & Hsub & Hids & _ & _ & _ & _ & _ & Hpol & _ & _ & _).
    eexists. split; [reflexivity |].
    split; [cbn [quizzes]; apply lookup_insert_eq |]. split.
    { intros incl. unfold getQuizById, try_catch, bind, QuizModel.findById.
      cbn [quizzes]. now rewrite lookup_insert_eq. }
    split; [reflexivity |]. split.
    { intros k Hk. cbn [quizzes]. now rewrite lookup_insert_ne. }
    unfold quiz, construct. cbn [_id subjectId title questionIds policy totalQuestions].
    rewrite Htitle, Hsub, Hids, Hpol.
    split; [reflexivity |]. split; [reflexivity |]. split; [reflexivity |].
    split; [reflexivity |]. split; [reflexivity |].
    intros ids n Hqi Hn Hnz.
    destruct (recount_both _ ids n Hqi Hn Hnz) as [Htq _].
    now rewrite Htq, Hqi.
Qed.

Lemma createQuiz_effect_witness :
  quizzes sample_db !! "q7" = None
  /\ exists s',
       createQuiz (sample_quiz "" 0 []) accept_quiz "q7"
         (sample_quiz_data ["x1"; "x2"; "x3"] (Some 7)) sample_db
       = (Returned
            (mkResponse 201
               (construct (sample_quiz "" 0 []) "q7"
                  (recount (sample_quiz_data ["x1"; "x2"; "x3"] (Some 7))))
               (Some "Quiz created successfully")), s')
       /\ totalQuestions
            (construct (sample_quiz "" 0 []) "q7"
               (recount (sample_quiz_data ["x1"; "x2"; "x3"] (Some 7)))) = 3
       /\ title
            (construct (sample_quiz "" 0 []) "q7"
               (recount (sample_quiz_data ["x1"; "x2"; "x3"] (Some 7)))) = "Geometry".
Proof.
  assert (Hfree : quizzes sample_db !! "q7" = None) by (vm_compute; reflexivity).
  split; [exact Hfree |].
  destruct (proj2 (createQuiz_effect (sample_quiz "" 0 []) accept_quiz "q7"
                     (sample_quiz_data ["x1"; "x2"; "x3"] (Some 7)) sample_db)
              eq_refl Hfree)
    as (s' & Hret & _ & _ & _ & _ & _ & _ & Htitle & _ & _ & Hcount).
  exists s'. split; [exact Hret |].
  split; [| exact Htitle].
  exact (proj2 (Hcount ["x1"; "x2"; "x3"] 7 eq_refl eq_refl ltac:(discriminate))).
Defined.

(** X22. The other outcomes of canUserTakeQuiz: 404 when no quiz has
    the identifier; canTake = true with the attempts used and no
    nextRetakeTime when the quiz allows another attempt; and an
    ApiError 500 when the quiz allows none although the user has no
    attempt on record, there being no last attempt to read.  The store
    is never changed. *)
Theorem canUserTakeQuiz_other_outcomes (quizId userId : ObjectId) (now : Z) (s : db) :
  let attempts :=
    List.filter
      (fun r => String.eqb (QuizResult.quizId r) quizId
                && String.eqb (QuizResult.userId r) userId)
      (quizResults s) in
  (quizzes s !! quizId = None ->
   canUserTakeQuiz quizId userId now s
   = (Thrown (ApiError 404 "Quiz not found" []), s))
  /\ (forall quiz,
        quizzes s !! quizId = Some quiz ->
        canUserRetake quiz (Z.of_nat (length attempts)) = true ->
        canUserTakeQuiz quizId userId now s
        = (Returned
             (mkResponse 200
                {| canTake := true;
                   reason := None;
                   attemptsUsed := Z.of_nat (length attempts);
                   maxAttemptsAllowed := maxAttempts (policy quiz);
                   nextRetakeTime := None |}
                None), s))
  /\ (forall quiz,
        quizzes s !! quizId = Some quiz ->
        canUserRetake quiz 0 = false ->
        attempts = [] ->
        exists detail,
          canUserTakeQuiz quizId userId now s
          = (Thrown (ApiError 500 "Failed to check quiz eligibility" [detail]), s))
  /\ (forall o s', canUserTakeQuiz quizId userId now s = (o, s') -> s' = s).
Proof.
  intros attempts. subst attempts.
  unfold canUserTakeQuiz, try_catch, bind, QuizModel.findById,
    QuizResultModel.countDocuments, QuizResultModel.findLatest,
    QuizResultModel.find_attempts, bind, ret.
  split; [now intros -> |]. split; [| split].
  - intros quiz -> Hcan. now rewrite Hcan.
  - intros quiz -> Hcan Hnone. rewrite Hnone.
    change (Z.of_nat (length (@nil QuizResult.t))) with 0.
    cbv beta iota. rewrite Hcan. cbn. rewrite Hnone. cbn. eauto.
  - intros o s'. destruct (quizzes s !! quizId) as [quiz|]; [| now intros [= _ <-]].
    destruct (negb (canUserRetake quiz _)); [| now intros [= _ <-]].
    destruct (head _); now intros [= _ <-].
Qed.

Lemma canUserTakeQuiz_other_outcomes_witness :
  quizzes sample_db !! "q7" = None
  /\ canUserTakeQuiz "q7" "u1" 6000 sample_db
     = (Thrown (ApiError 404 "Quiz not found" []), sample_db)
  /\ quizzes sample_db !! "q1" = Some (sample_quiz "q1" 1 ["x1"])
  /\ canUserTakeQuiz "q1" "u2" 6000 sample_db
     = (Returned
          (mkResponse 200
             {| canTake := true; reason := None; attemptsUsed := 1;
                maxAttemptsAllowed := 2; nextRetakeTime := None |}
             None), sample_db).
Proof.
  assert (Hnone : quizzes sample_db !! "q7" = None) by (vm_compute; reflexivity).
  assert (Hq : quizzes sample_db !! "q1" = Some (sample_quiz "q1" 1 ["x1"]))
    by (vm_compute; reflexivity).
  split; [exact Hnone |].
  split; [exact (proj1 (canUserTakeQuiz_other_outcomes "q7" "u1" 6000 sample_db) Hnone) |].
  split; [exact Hq |].
  exact (proj1 (proj2 (canUserTakeQuiz_other_outcomes "q1" "u2" 6000 sample_db))
           _ Hq eq_refl).
Defined.

End QuizBulk.

(** ** Quiz service: what it throws *)

Section QuizErrors.
Import Quiz QuizService QuizServiceExt.

Lemma try_catch_only_api {A} (m : M db A) (h : exn -> M db A) :
  (forall e0, only_api_errors (h e0)) -> only_api_errors (try_catch m h).
Proof.
  intros Hh s e s'. unfold try_catch.
  destruct (m s) as [[a|e0] s0]; [discriminate |]. apply Hh.
Qed.

Lemma wrap_all_only_api {A} (msg : string) (e0 : exn) :
  only_api_errors (@wrap_all A msg e0).
Proof. intros s e s' [= <- _]. unfold is_api_error. eauto. Qed.

Lemma wrap_unless_api_only_api {A} (msg : string) (e0 : exn) :
  only_api_errors (@wrap_unless_api A msg e0).
Proof.
  intros s e s'. unfold wrap_unless_api, throw, is_api_error.
  destruct e0; intros [= <- _]; eauto.
Qed.

(** X23. Whatever goes wrong inside them, the operations of the Quiz
    service throw nothing but ApiError: every failure reaches the
    caller with an HTTP status. *)
Theorem quiz_service_throws_only_ApiError :
  (forall filters o, only_api_errors (getAllQuizzes filters o))
  /\ (forall quizId includeQuestions, only_api_errors (getQuizById quizId includeQuestions))
  /\ (forall validators quizId u now, only_api_errors (updateQuiz validators quizId u now))
  /\ (forall quizId, only_api_errors (deleteQuiz quizId))
  /\ (forall quizId userId now, only_api_errors (canUserTakeQuiz quizId userId now))
  /\ (forall quizId, only_api_errors (updateQuizAnalytics quizId))
  /\ (forall defaults validators newId d,
        only_api_errors (createQuiz defaults validators newId d))
  /\ (forall sid o, only_api_errors (getQuizzesBySubject sid o))
  /\ (forall quizIds u now, only_api_errors (bulkUpdateQuizzes quizIds u now))
  /\ (forall quizId, only_api_errors (getQuizStatistics quizId)).
Proof.
  repeat split; intros;
    apply try_catch_only_api; intros e0;
    try apply wrap_all_only_api; try apply wrap_unless_api_only_api;
    intros s e s'; unfold throw, is_api_error;
    destruct e0; intros [= <- _]; eauto.
Qed.

End QuizErrors.

(** ** Listing: which pages are full *)

Section Pages.



End Pages.

Lemma quiz_service_throws_only_ApiError_witness :
  QuizService.getAllQuizzes no_filters (page_options 0 10) sample_db
  = (Thrown (ApiError 500 "Failed to retrieve quizzes" ["skip value must be non-negative"]),
     sample_db)
  /\ is_api_error
       (ApiError 500 "Failed to retrieve quizzes" ["skip value must be non-negative"]).
Proof.
  assert (Hthrown :
    QuizService.getAllQuizzes no_filters (page_options 0 10) sample_db
    = (Thrown (ApiError 500 "Failed to retrieve quizzes"
                 ["skip value must be non-negative"]), sample_db))
    by (vm_compute; reflexivity).
  split; [exact Hthrown |].
  exact (proj1 quiz_service_throws_only_ApiError no_filters (page_options 0 10)
           _ _ _ Hthrown).
Defined.


(** ** Lesson controller: the authorised path *)

Section ControllerAuthorised.
Import PhysicsLessonController.

(** X25. For the creator of the lesson or an admin, updateLesson and
    deleteLesson look the lesson up, invoke the service exactly once
    with the identifier of the request (and, for an update, the body
    and the user), and answer with the status and the result the
    service gives; when the service throws, the handler ends with that
    error and sends no response.  Nothing is logged. *)
Theorem lesson_write_authorised (w : world) (req : request) (l : lesson) :
  w _ (LessonFindById (params_id req)) = Some l ->
  createdBy l = id (req_user req) \/ role (req_user req) = "admin" ->
  (forall result,
     w _ (ServiceUpdateLesson (params_id req) (body req) (id (req_user req)))
       = Returned result ->
     run w (updateLesson req)
     = ([ Performed (LessonFindById (params_id req));
          Performed (ServiceUpdateLesson (params_id req) (body req) (id (req_user req)));
          Performed (Respond (statusCode result) result) ],
        Returned tt))
  /\ (forall e,
        w _ (ServiceUpdateLesson (params_id req) (body req) (id (req_user req)))
          = Thrown e ->
        run w (updateLesson req)
        = ([ Performed (LessonFindById (params_id req));
             Performed (ServiceUpdateLesson (params_id req) (body req)
                          (id (req_user req))) ],
           Thrown e))
  /\ (forall result,
        w _ (ServiceDeleteLesson (params_id req)) = Returned result ->
        run w (deleteLesson req)
        = ([ Performed (LessonFindById (params_id req));
             Performed (ServiceDeleteLesson (params_id req));
             Performed (Respond (statusCode result) result) ],
           Returned tt))
  /\ (forall e,
        w _ (ServiceDeleteLesson (params_id req)) = Thrown e ->
        run w (deleteLesson req)
        = ([ Performed (LessonFindById (params_id req));
             Performed (ServiceDeleteLesson (params_id req)) ],
           Thrown e)).
Proof.
  intros Hfind Hallowed.
  assert (Hguard : not_owner_nor_admin l (req_user req) = false).
  { unfold not_owner_nor_admin. destruct Hallowed as [-> | ->].
    - now rewrite String.eqb_refl.
    - rewrite String.eqb_refl. apply andb_false_r. }
  repeat split; intros x Hx; unfold updateLesson, deleteLesson; cbn [run];
    rewrite Hfind, Hguard; cbn [run]; rewrite Hx; cbn [respond run];
    try destruct (w unit _); reflexivity.
Qed.

Lemma lesson_write_authorised_witness :
  sample_world _ (LessonFindById "l1") = Some (mkLesson "u1")
  /\ run sample_world (updateLesson (sample_request "l1" "u1" "student"))
     = ([ Performed (LessonFindById "l1");
          Performed (ServiceUpdateLesson "l1" "{}" "u1");
          Performed (Respond 200 (mkResponse 200 "{}" (Some "updated"))) ],
        Returned tt)
  /\ run sample_world (deleteLesson (sample_request "l1" "u7" "admin"))
     = ([ Performed (LessonFindById "l1");
          Performed (ServiceDeleteLesson "l1");
          Performed (Respond 200 (mkResponse 200 "null" (Some "deleted"))) ],
        Returned tt).
Proof.
  split; [reflexivity |]. split.
  - exact (proj1 (lesson_write_authorised sample_world
                    (sample_request "l1" "u1" "student") (mkLesson "u1")
                    eq_refl (or_introl eq_refl)) _ eq_refl).
  - exact (proj1 (proj2 (proj2 (lesson_write_authorised sample_world
                                  (sample_request "l1" "u7" "admin") (mkLesson "u1")
                                  eq_refl (or_intror eq_refl)))) _ eq_refl).
Defined.

End ControllerAuthorised.

(** ** Lesson controller: listing lessons *)

Section LessonReads.
Import PhysicsLessonReads.

Lemma or_default_nonzero (x : option Z) (d : Z) : d <> 0 -> or_default x d <> 0.
Proof.
  intros Hd. unfold or_default. destruct x as [n|]; [| exact Hd].
  destruct (Z.eqb_spec n 0); assumption.
Qed.

(** X26. getLessons invokes the service exactly once and answers with
    the status and result it gives (or ends with the error it throws).
    The page and the page size it hands over are never 0: a missing,
    non-numeric or zero `page` becomes 1 and such a `limit` 20, while
    any other number read from the text, negative ones included, is
    passed on; a flag is set only by the text "true". *)
Theorem getLessons_options (svc : service) (q : lessons_query) :
  let options := build_options q in
  lo_page options <> 0
  /\ lo_limit options <> 0
  /\ (Number_parseInt (lq_page q) = None \/ Number_parseInt (lq_page q) = Some 0 ->
      lo_page options = 1)
  /\ (Number_parseInt (lq_limit q) = None \/ Number_parseInt (lq_limit q) = Some 0 ->
      lo_limit options = 20)
  /\ (forall n, Number_parseInt (lq_page q) = Some n -> n <> 0 -> lo_page options = n)
  /\ (forall n, Number_parseInt (lq_limit q) = Some n -> n <> 0 -> lo_limit options = n)
  /\ (lq_page q = None -> lo_page options = 1)
  /\ (lq_limit q = None -> lo_limit options = 20)
  /\ (lo_premiumOnly options = true <-> lq_premiumOnly q = Some "true")
  /\ (lo_offlineAvailable options = true <-> lq_offlineAvailable q = Some "true")
  /\ (forall result,
        svc (ServiceGetLessons options) = Returned result ->
        getLessons svc q
        = ([ServiceGetLessons options; Respond (statusCode result) result],
           Returned tt))
  /\ (forall e,
        svc (ServiceGetLessons options) = Thrown e ->
        getLessons svc q = ([ServiceGetLessons options], Thrown e)).
Proof.
  intros options. unfold options, build_options. cbn [lo_page lo_limit lo_premiumOnly
    lo_offlineAvailable].
  assert (Htext : forall x, is_true_text x = true <-> x = Some "true").
  { intros [x|]; cbn; [| split; discriminate].
    rewrite String.eqb_eq. split; [now intros -> | now intros [= ->]]. }
  split; [now apply or_default_nonzero |].
  split; [now apply or_default_nonzero |].
  split; [intros [-> | ->]; reflexivity |].
  split; [intros [-> | ->]; reflexivity |].
  split.
  { intros n -> Hn. cbn. now destruct (Z.eqb_spec n 0). }
  split.
  { intros n -> Hn. cbn. now destruct (Z.eqb_spec n 0). }
  split; [now intros -> |]. split; [now intros -> |].
  split; [apply Htext |]. split; [apply Htext |].
  unfold getLessons, build_options.
  split; [now intros result -> | now intros e ->].
Qed.

Lemma getLessons_options_witness :
  Number_parseInt (Some "0") = Some 0
  /\ lo_page (build_options (sample_lessons_query (Some "0") (Some "abc") (Some "TRUE"))) = 1
  /\ lo_limit (build_options (sample_lessons_query (Some "0") (Some "abc") (Some "TRUE")))
     = 20
  /\ Number_parseInt (Some "-3") = Some (-3)
  /\ lo_page (build_options (sample_lessons_query (Some "-3") (Some " 12abc") (Some "true")))
     = -3
  /\ Number_parseInt (Some " 12abc") = Some 12
  /\ lo_limit (build_options (sample_lessons_query (Some "-3") (Some " 12abc") (Some "true")))
     = 12.
Proof.
  pose proof (getLessons_options sample_service
                (sample_lessons_query (Some "0") (Some "abc") (Some "TRUE")))
    as (_ & _ & Hpage & Hlimit & _).
  pose proof (getLessons_options sample_service
                (sample_lessons_query (Some "-3") (Some " 12abc") (Some "true")))
    as (_ & _ & _ & _ & Hp & Hl & _).
  split; [reflexivity |].
  split; [exact (Hpage (or_intror eq_refl)) |].
  split; [exact (Hlimit (or_introl eq_refl)) |].
  split; [reflexivity |].
  split; [exact (Hp (-3) eq_refl ltac:(discriminate)) |].
  split; [reflexivity |].
  exact (Hl 12 eq_refl ltac:(discriminate)).
Defined.

End LessonReads.

(** ** Start of the server *)

Section ServerStart.
Import Server.

(** X27. Outside the test environment the server goes on to connect
    to the database exactly when MONGO_URI and JWT_SECRET are both set
    and not empty, and then with the value of MONGO_URI; otherwise it
    exits with code 1 after logging the variables that are missing,
    MONGO_URI first.  In the test environment it neither checks nor
    connects. *)
Theorem connect_database_checks (env : gmap string string) :
  (env !! "NODE_ENV" = Some "test" -> connect_database env = NoConnection)
  /\ (env !! "NODE_ENV" <> Some "test" ->
      (forall uri,
         connect_database env = Connect uri
         <-> env !! "MONGO_URI" = Some uri /\ uri <> ""
             /\ exists secret, env !! "JWT_SECRET" = Some secret /\ secret <> "")
      /\ (forall code logged,
            connect_database env = Exit code logged ->
            code = 1
            /\ missingEnvVars env <> []
            /\ logged = ("Variables d'environnement manquantes: "
                         ++ String.concat ", " (missingEnvVars env))%string)
      /\ connect_database env <> NoConnection).
Proof.
  unfold connect_database. split.
  - intros Htest. rewrite bool_decide_eq_true_2; [reflexivity | exact Htest].
  - intros Hnot. rewrite bool_decide_eq_false_2; [| exact Hnot]. cbn [negb].
    unfold missingEnvVars, requiredEnvVars. cbn [List.filter].
    destruct (env !! "MONGO_URI") as [uri0|] eqn:Huri;
      destruct (env !! "JWT_SECRET") as [sec0|] eqn:Hsec;
      cbn [Js.truthy_string negb];
      try destruct (String.eqb_spec uri0 "") as [-> | Hu];
      try destruct (String.eqb_spec sec0 "") as [-> | Hs];
      cbn [negb length Nat.ltb Nat.leb from_option id];
      (split; [| split; [| discriminate]]);
      try (intros code logged [= <- <-]; repeat split; discriminate);
      try (intros code logged; discriminate);
      intros uri; split;
      try discriminate;
      try (intros (H1 & H2 & sec & H3 & H4); congruence).
    + intros [= <-]. eauto.
Qed.

Lemma connect_database_checks_witness :
  sample_env None (Some "mongodb://db/exam") (Some "") !! "NODE_ENV" <> Some "test"
  /\ connect_database (sample_env None (Some "mongodb://db/exam") (Some ""))
     = Exit 1 "Variables d'environnement manquantes: JWT_SECRET"
  /\ missingEnvVars (sample_env None (Some "mongodb://db/exam") (Some "")) <> []
  /\ sample_env (Some "test") None None !! "NODE_ENV" = Some "test"
  /\ connect_database (sample_env (Some "test") None None) = NoConnection.
Proof.
  assert (Hnot :
    sample_env None (Some "mongodb://db/exam") (Some "") !! "NODE_ENV" <> Some "test")
    by (vm_compute; discriminate).
  assert (Hexit :
    connect_database (sample_env None (Some "mongodb://db/exam") (Some ""))
    = Exit 1 "Variables d'environnement manquantes: JWT_SECRET")
    by (vm_compute; reflexivity).
  assert (Htest : sample_env (Some "test") None None !! "NODE_ENV" = Some "test")
    by (vm_compute; reflexivity).
  split; [exact Hnot |]. split; [exact Hexit |].
  split.
  { exact (proj1 (proj2 (proj1 (proj2 (proj2 (connect_database_checks _) Hnot))
                           _ _ Hexit))). }
  split; [exact Htest |].
  exact (proj1 (connect_database_checks _) Htest).
Defined.

End ServerStart.
